(** * TinyICOC: the in-circuit oscillator calibrator of the ATtiny84 firmware

    A shallow embedding of the firmware's target registry, its in-circuit
    serial programmer, its frequency counter and its calibration loop,
    followed by the properties of the design that hold of this code. *)

From Stdlib Require Import ZArith NArith List Bool String Lia.
Import ListNotations.
Local Open Scope Z_scope.

(** ** Machine integers

    The firmware computes on [uint8_t] and [uint16_t]; on the AVR an [int]
    has 16 bits.  Values are integers of [Z], and every place where the C
    code truncates is written out with [u8] or [u16]. *)

Definition u8 (x : Z) : Z := x mod 256.
Definition u16 (x : Z) : Z := x mod 65536.

(** ** Target chip definitions *)

Record TGT_TYPE : Type := {
  SIG : Z;                (* signature *)
  LFUSE : Z;              (* low fuse *)
  HFUSE : Z;              (* high fuse *)
  EFUSE : Z;              (* extended fuse *)
  PSIZE : Z;              (* page size of flash *)
  PROG_LENGTH : Z;        (* length in bytes of calibration program *)
  PROG : list Z;          (* calibration program *)
  FREQ : Z;               (* target frequency in kHz *)
  NAME : string           (* name of target MCU *)
}.

Definition PROG_T13 : list Z :=
  [ 0x09; 0xC0; 0x0E; 0xC0; 0x0D; 0xC0; 0x0C; 0xC0; 0x0B; 0xC0; 0x0A; 0xC0; 0x09; 0xC0; 0x08; 0xC0;
    0x07; 0xC0; 0x06; 0xC0; 0x11; 0x24; 0x1F; 0xBE; 0xCF; 0xE9; 0xCD; 0xBF; 0x02; 0xD0; 0x12; 0xC0;
    0xEF; 0xCF; 0x80; 0xE0; 0x90; 0xE0; 0x07; 0xD0; 0x81; 0xBF; 0x81; 0xE0; 0x87; 0xBB; 0x92; 0xE4;
    0x9F; 0xBD; 0x83; 0xBF; 0xFF; 0xCF; 0xE1; 0x99; 0xFE; 0xCF; 0x8E; 0xBB; 0xE0; 0x9A; 0x99; 0x27;
    0x8D; 0xB3; 0x08; 0x95; 0xF8; 0x94; 0xFF; 0xCF ].

Definition PROG_Tx5 : list Z :=
  [ 0x0E; 0xC0; 0x13; 0xC0; 0x12; 0xC0; 0x11; 0xC0; 0x10; 0xC0; 0x0F; 0xC0; 0x0E; 0xC0; 0x0D; 0xC0;
    0x0C; 0xC0; 0x0B; 0xC0; 0x0A; 0xC0; 0x09; 0xC0; 0x08; 0xC0; 0x07; 0xC0; 0x06; 0xC0; 0x11; 0x24;
    0x1F; 0xBE; 0xCF; 0xED; 0xCD; 0xBF; 0x02; 0xD0; 0x13; 0xC0; 0xEA; 0xCF; 0x80; 0xE0; 0x90; 0xE0;
    0x07; 0xD0; 0x81; 0xBF; 0x81; 0xE0; 0x87; 0xBB; 0x92; 0xE4; 0x9A; 0xBD; 0x83; 0xBF; 0xFF; 0xCF;
    0xE1; 0x99; 0xFE; 0xCF; 0x1F; 0xBA; 0x8E; 0xBB; 0xE0; 0x9A; 0x99; 0x27; 0x8D; 0xB3; 0x08; 0x95;
    0xF8; 0x94; 0xFF; 0xCF ].

Definition PROG_T24 : list Z :=
  [ 0x10; 0xC0; 0x15; 0xC0; 0x14; 0xC0; 0x13; 0xC0; 0x12; 0xC0; 0x11; 0xC0; 0x10; 0xC0; 0x0F; 0xC0;
    0x0E; 0xC0; 0x0D; 0xC0; 0x0C; 0xC0; 0x0B; 0xC0; 0x0A; 0xC0; 0x09; 0xC0; 0x08; 0xC0; 0x07; 0xC0;
    0x06; 0xC0; 0x11; 0x24; 0x1F; 0xBE; 0xCF; 0xED; 0xCD; 0xBF; 0x02; 0xD0; 0x13; 0xC0; 0xE8; 0xCF;
    0x80; 0xE0; 0x90; 0xE0; 0x07; 0xD0; 0x81; 0xBF; 0x80; 0xE4; 0x8A; 0xBB; 0x8F; 0xBD; 0x89; 0xE0;
    0x8E; 0xBD; 0xFF; 0xCF; 0xE1; 0x99; 0xFE; 0xCF; 0x1F; 0xBA; 0x8E; 0xBB; 0xE0; 0x9A; 0x99; 0x27;
    0x8D; 0xB3; 0x08; 0x95; 0xF8; 0x94; 0xFF; 0xCF ].

Definition PROG_T84 : list Z :=
  [ 0x10; 0xC0; 0x17; 0xC0; 0x16; 0xC0; 0x15; 0xC0; 0x14; 0xC0; 0x13; 0xC0; 0x12; 0xC0; 0x11; 0xC0;
    0x10; 0xC0; 0x0F; 0xC0; 0x0E; 0xC0; 0x0D; 0xC0; 0x0C; 0xC0; 0x0B; 0xC0; 0x0A; 0xC0; 0x09; 0xC0;
    0x08; 0xC0; 0x11; 0x24; 0x1F; 0xBE; 0xCF; 0xE5; 0xD2; 0xE0; 0xDE; 0xBF; 0xCD; 0xBF; 0x02; 0xD0;
    0x13; 0xC0; 0xE6; 0xCF; 0x80; 0xE0; 0x90; 0xE0; 0x07; 0xD0; 0x81; 0xBF; 0x80; 0xE4; 0x8A; 0xBB;
    0x8F; 0xBD; 0x89; 0xE0; 0x8E; 0xBD; 0xFF; 0xCF; 0xE1; 0x99; 0xFE; 0xCF; 0x9F; 0xBB; 0x8E; 0xBB;
    0xE0; 0x9A; 0x99; 0x27; 0x8D; 0xB3; 0x08; 0x95; 0xF8; 0x94; 0xFF; 0xCF ].

Definition PROG_M8 : list Z :=
  [ 0x12; 0xC0; 0x19; 0xC0; 0x18; 0xC0; 0x17; 0xC0; 0x16; 0xC0; 0x15; 0xC0; 0x14; 0xC0; 0x13; 0xC0;
    0x12; 0xC0; 0x11; 0xC0; 0x10; 0xC0; 0x0F; 0xC0; 0x0E; 0xC0; 0x0D; 0xC0; 0x0C; 0xC0; 0x0B; 0xC0;
    0x0A; 0xC0; 0x09; 0xC0; 0x08; 0xC0; 0x11; 0x24; 0x1F; 0xBE; 0xCF; 0xE5; 0xD4; 0xE0; 0xDE; 0xBF;
    0xCD; 0xBF; 0x02; 0xD0; 0x12; 0xC0; 0xE4; 0xCF; 0x80; 0xE0; 0x90; 0xE0; 0x06; 0xD0; 0x81; 0xBF;
    0x88; 0xE0; 0x87; 0xBB; 0x8A; 0xE1; 0x85; 0xBD; 0xFF; 0xCF; 0xE1; 0x99; 0xFE; 0xCF; 0x9F; 0xBB;
    0x8E; 0xBB; 0xE0; 0x9A; 0x99; 0x27; 0x8D; 0xB3; 0x08; 0x95; 0xF8; 0x94; 0xFF; 0xCF ].

Definition mkTGT (sig lf hf ef ps len : Z) (prog : list Z) (freq : Z) (name : string) : TGT_TYPE :=
  {| SIG := sig; LFUSE := lf; HFUSE := hf; EFUSE := ef; PSIZE := ps;
     PROG_LENGTH := len; PROG := prog; FREQ := freq; NAME := name |}.

Definition TGTs : list TGT_TYPE :=
  (*      SIGNATURE LFUSE HFUSE EFUSE PSIZE PLENGTH PROG   FREQ  NAME *)
  [ mkTGT 0x9007    0x6A  0xFF  0xFF  16    72      PROG_T13 9600 "ATTINY13  ";
    mkTGT 0x9108    0x62  0xDF  0xFF  16    84      PROG_Tx5 8000 "ATTINY25  ";
    mkTGT 0x9206    0x62  0xDF  0xFF  32    84      PROG_Tx5 8000 "ATTINY45  ";
    mkTGT 0x930B    0x62  0xDF  0xFF  32    84      PROG_Tx5 8000 "ATTINY85  ";
    mkTGT 0x910B    0x62  0xDF  0xFF  16    88      PROG_T24 8000 "ATTINY24  ";
    mkTGT 0x9207    0x62  0xDF  0xFF  32    92      PROG_T84 8000 "ATTINY44  ";
    mkTGT 0x930C    0x62  0xDF  0xFF  32    92      PROG_T84 8000 "ATTINY84  ";
    mkTGT 0x9307    0x64  0xDF  0xFF  32    94      PROG_M8  8000 "ATMEGA8   " ].

(* Number of target definitions *)
Definition TGT_LENGTH : Z := 8.

(** The global [TGT] before the first [memcpy_P]: zero-initialised. *)
Definition TGT_zero : TGT_TYPE := mkTGT 0 0 0 0 0 0 [] 0 "".

(** [pgm_read_byte(p)] for a pointer [p] into a program image.  Reading behind
    the image returns what follows it in flash; no registry entry does so,
    and the model returns 0 there. *)
Definition pgm_read_byte (prog : list Z) (p : nat) : Z := nth p prog 0.

(** The scan of [main]: [for(target=0; target<TGT_LENGTH; target++)] with a
    [break] on the first entry whose first word, the [SIG] field, equals the
    signature.  The result is [TGT_LENGTH] when no entry matches. *)
Fixpoint find_target (signature : Z) (table : list TGT_TYPE) (target : Z) : Z :=
  match table with
  | [] => target
  | t :: rest =>
      if signature =? SIG t then target
      else find_target signature rest (target + 1)
  end.

(** The registry's [lookup] of the design: the entry the scan stops at, as
    [main] uses it ([target == TGT_LENGTH] is "no match", otherwise
    [TGTs[target]] is copied into [TGT]). *)
Definition lookup (signature : Z) : option TGT_TYPE :=
  let target := find_target signature TGTs 0 in
  if target =? TGT_LENGTH then None
  else nth_error TGTs (Z.to_nat target).

(** ** The machine: what the firmware does to its pins, and what it sees

    The programmer's actions are recorded as a trace of events.  The display
    is recorded by the text it is given; its I2C protocol, the supply-voltage
    reading shown next to each result and the busy-wait delays are not
    modelled. *)

Inductive event : Type :=
| EvInit                            (* ICSP_init: reset low, lines driven *)
| EvRelease                         (* ICSP_release: all lines released *)
| EvByte (byte : Z)                 (* one byte clocked out by ICSP_sendByte *)
| EvGate (osccal frequency : Z)     (* one 32 ms gate window of FRQ_measure *)
| EvPrint (row : Z) (text : string) (* a line of text on the OLED *)
| EvResult (calib frequency : Z)    (* the result line: OSCCAL and kHz *)
| EvButton.                         (* BUTTON_wait returned *)

(** The environment: the level of MISO at each sampling, and the number of
    pulses that reach T0 during the n-th gate window when the target runs its
    calibration program with a given byte in EEPROM cell 0. *)
Record world : Type := {
  miso : nat -> bool;
  pulses : nat -> Z -> N
}.

Record machine : Type := {
  samples : nat;          (* MISO samplings so far *)
  gates : nat;            (* gate windows so far *)
  TGT : TGT_TYPE;         (* the global TGT variable *)
  trace : list event      (* everything done so far, oldest first *)
}.

Definition initial : machine :=
  {| samples := 0; gates := 0; TGT := TGT_zero; trace := [] |}.

(** *** The target's side of the link

    The target groups the bytes it receives after reset goes low into
    four-byte instructions.  Of its memories the model keeps EEPROM cell 0,
    the cell the calibration program copies into OSCCAL at boot: a
    write-EEPROM instruction at address 0 stores its data byte there and a
    chip erase leaves 0xFF. *)

Record target : Type := { buf : list Z; cell0 : Z }.

Definition target_instr (t : target) (b1 b2 b3 b4 : Z) : Z :=
  if (b1 =? 0xC0) && (b2 =? 0) && (b3 =? 0) then b4
  else if (b1 =? 0xAC) && (b2 =? 0x80) then 0xFF
  else cell0 t.

Definition target_step (t : target) (e : event) : target :=
  match e with
  | EvInit => {| buf := []; cell0 := cell0 t |}
  | EvByte b =>
      match buf t with
      | [b1; b2; b3] => {| buf := []; cell0 := target_instr t b1 b2 b3 b |}
      | l => {| buf := l ++ [b]; cell0 := cell0 t |}
      end
  | _ => t
  end.

Definition target_0 : target := {| buf := []; cell0 := 0xFF |}.

Definition target_after (tr : list event) : target :=
  fold_left target_step tr target_0.

(** The instructions a trace carries: the bytes sent since the last
    [EvInit], four by four. *)
Definition instr : Type := (Z * Z * Z * Z)%type.

Fixpoint instructions_from (pending : list Z) (tr : list event) : list instr :=
  match tr with
  | [] => []
  | EvByte b :: tr' =>
      match pending with
      | [b1; b2; b3] => (b1, b2, b3, b) :: instructions_from [] tr'
      | l => instructions_from (l ++ [b]) tr'
      end
  | EvInit :: tr' => instructions_from [] tr'
  | _ :: tr' => instructions_from pending tr'
  end.

Definition instructions (tr : list event) : list instr := instructions_from [] tr.

(** Classification of an instruction by its first two bytes, after the
    serial programming instruction set of the supported AVRs. *)
Definition is_read_signature (i : instr) : bool :=
  let '(b1, _, _, _) := i in b1 =? 0x30.
Definition is_chip_erase (i : instr) : bool :=
  let '(b1, b2, _, _) := i in (b1 =? 0xAC) && (b2 =? 0x80).
Definition is_fuse_write (i : instr) : bool :=
  let '(b1, b2, _, _) := i in
  (b1 =? 0xAC) && ((b2 =? 0xA0) || (b2 =? 0xA8) || (b2 =? 0xA4)).
Definition is_flash_write (i : instr) : bool :=
  let '(b1, _, _, _) := i in (b1 =? 0x40) || (b1 =? 0x48) || (b1 =? 0x4C).
Definition is_eeprom_write (i : instr) : bool :=
  let '(b1, _, _, _) := i in b1 =? 0xC0.
Definition is_memory_write (i : instr) : bool :=
  is_chip_erase i || is_fuse_write i || is_flash_write i || is_eeprom_write i.

(** ** A state monad over the machine

    A computation reads the world, updates the machine and returns a value;
    [None] is a loop that ran out of fuel. *)

Definition M (A : Type) : Type := world -> machine -> option (A * machine).

Definition ret {A : Type} (a : A) : M A := fun _ s => Some (a, s).

Definition bind {A B : Type} (c : M A) (k : A -> M B) : M B :=
  fun w s => match c w s with
             | Some (a, s') => k a w s'
             | None => None
             end.

Definition fail {A : Type} : M A := fun _ _ => None.

Notation "x <- c ;; k" := (bind c (fun x => k))
  (at level 61, c at next level, right associativity).
Notation "c ;; k" := (bind c (fun _ => k))
  (at level 61, right associativity).

Definition emit (e : event) : M unit :=
  fun _ s => Some (tt, {| samples := samples s; gates := gates s;
                          TGT := TGT s; trace := trace s ++ [e] |}).

Definition get_TGT : M TGT_TYPE := fun _ s => Some (TGT s, s).

Definition set_TGT (t : TGT_TYPE) : M unit :=
  fun _ s => Some (tt, {| samples := samples s; gates := gates s;
                          TGT := t; trace := trace s |}).

(** ** Display and button: recorded, not modelled *)

(* OLED_setCursor(0, row); OLED_printPrg(PSTR(text)) *)
Definition OLED_print (row : Z) (text : string) : M unit := emit (EvPrint row text).

(* OLED_setCursor(0,2); then VCC, OSCCAL in hex, frequency in decimal *)
Definition OLED_result (calib frequency : Z) : M unit := emit (EvResult calib frequency).

Definition BUTTON_wait : M unit := emit EvButton.

(** ** In-circuit serial programmer *)

(* ICSP set up all control lines *)
Definition ICSP_init : M unit := emit EvInit.

(* ICSP release all control lines (input, no pullup) *)
Definition ICSP_release : M unit := emit EvRelease.

(** The eight clock cycles of [ICSP_sendByte]: in each, MOSI is driven to
    [byte & 0x80], [byte] is shifted left, and the sampled MISO level is
    or-ed into bit 0.  [ICSP_mosi] lists the levels driven, [ICSP_shift]
    is the value of [byte] at the end. *)
Fixpoint ICSP_shift (i : nat) (byte : Z) (line : nat -> bool) (k : nat) : Z :=
  match i with
  | O => byte
  | S i' =>
      let byte := u8 (Z.shiftl byte 1) in
      let byte := if line k then Z.lor byte 1 else byte in
      ICSP_shift i' byte line (S k)
  end.

Fixpoint ICSP_mosi (i : nat) (byte : Z) (line : nat -> bool) (k : nat) : list bool :=
  match i with
  | O => []
  | S i' =>
      let level := negb (Z.land byte 0x80 =? 0) in
      let byte := u8 (Z.shiftl byte 1) in
      let byte := if line k then Z.lor byte 1 else byte in
      level :: ICSP_mosi i' byte line (S k)
  end.

(* ICSP send instruction byte and receive reply (SPI bit-banging) *)
Definition ICSP_sendByte (byte : Z) : M Z :=
  fun w s =>
    Some (ICSP_shift 8 byte (miso w) (samples s),
          {| samples := 8 + samples s; gates := gates s; TGT := TGT s;
             trace := trace s ++ [EvByte byte] |}).

(* ICSP enter the programming mode *)
Definition ICSP_enterProgMode : M Z :=
  ICSP_init ;;
  ICSP_sendByte 0xAC ;;
  ICSP_sendByte 0x53 ;;
  echo <- ICSP_sendByte 0x00 ;;
  ICSP_sendByte 0x00 ;;
  ret (if echo =? 0x53 then 1 else 0).

(* ICSP exit the programming mode *)
Definition ICSP_exitProgMode : M unit := ICSP_release.

(* ICSP send complete instruction (4 bytes) *)
Definition ICSP_sendInstr (byte1 byte2 byte3 byte4 : Z) : M unit :=
  ICSP_sendByte byte1 ;;
  ICSP_sendByte byte2 ;;
  ICSP_sendByte byte3 ;;
  ICSP_sendByte byte4 ;;
  ret tt.

(* ICSP send instruction and read reply *)
Definition ICSP_readInstr (byte1 byte2 byte3 : Z) : M Z :=
  ICSP_sendByte byte1 ;;
  ICSP_sendByte byte2 ;;
  ICSP_sendByte byte3 ;;
  ICSP_sendByte 0x00.

(** ICSP read signature of target device.  C leaves the order of the two
    reads in [a | b] open; the model reads the high byte first. *)
Definition ICSP_readSignature : M Z :=
  hi <- ICSP_readInstr 0x30 0x00 0x01 ;;
  lo <- ICSP_readInstr 0x30 0x00 0x02 ;;
  ret (Z.lor (u16 (Z.shiftl hi 8)) lo).

(* ICSP read calibration byte *)
Definition ICSP_readCalib : M Z := ICSP_readInstr 0x38 0x00 0x00.

(* ICSP write fuse settings to target device *)
Definition ICSP_writeFuses : M unit :=
  tgt <- get_TGT ;;
  ICSP_sendInstr 0xAC 0xA0 0x00 (LFUSE tgt) ;;
  ICSP_sendInstr 0xAC 0xA8 0x00 (HFUSE tgt) ;;
  ICSP_sendInstr 0xAC 0xA4 0x00 (EFUSE tgt).

(* ICSP perform chip erase *)
Definition ICSP_eraseChip : M unit := ICSP_sendInstr 0xAC 0x80 0x00 0x00.

(* ICSP write to EEPROM; addr and data are uint8_t *)
Definition ICSP_writeEEPROM (addr data : Z) : M unit :=
  ICSP_sendInstr 0xC0 (u8 (Z.shiftr addr 8)) addr data.

(** The [do ... while(--length)] of [ICSP_writeFlash]; it returns the final
    [addr].  As [length] is a [uint16_t] the body runs at most 65536 times. *)
Fixpoint writeFlash_loop (fuel : nat) (addr length : Z) (p : nat)
                         (pagesize : Z) (prog : list Z) : M Z :=
  match fuel with
  | O => fail
  | S fuel' =>
      ICSP_sendInstr 0x40 (u8 (Z.shiftr addr 8)) (u8 addr) (pgm_read_byte prog p) ;;
      ICSP_sendInstr 0x48 (u8 (Z.shiftr addr 8)) (u8 addr) (pgm_read_byte prog (S p)) ;;
      let addr := u16 (addr + 1) in
      (if Z.land addr (pagesize - 1) =? 0
       then ICSP_sendInstr 0x4C (u8 (Z.shiftr (u16 (addr - pagesize)) 8))
                                (u8 (addr - pagesize)) 0x00
       else ret tt) ;;
      let length := u16 (length - 1) in
      if length =? 0 then ret addr
      else writeFlash_loop fuel' addr length (S (S p)) pagesize prog
  end.

Definition writeFlash_bound : nat := N.to_nat 65536.

(* ICSP write data from program memory to flash of target *)
Definition ICSP_writeFlash : M unit :=
  tgt <- get_TGT ;;
  let pagesize := PSIZE tgt in
  let length := Z.shiftr (PROG_LENGTH tgt + 1) 1 in
  addr <- writeFlash_loop writeFlash_bound 0 length 0 pagesize (PROG tgt) ;;
  if Z.land addr (pagesize - 1) =? 0 then ret tt
  else ICSP_sendInstr 0x4C (u8 (Z.shiftr addr 8)) (u8 addr) 0x00.

(** ** Frequency measurement

    Timer0 counts the pulses at T0 in the 8-bit register [TCNT0]; when it
    overflows, [ISR(TIM0_OVF_vect)] increments [FRQ_highByte].  Timer1 ends
    the window after 32 ms. *)

Record counter : Type := { TCNT0 : Z; FRQ_highByte : Z }.

Definition T0_pulse (c : counter) : counter :=
  if TCNT0 c =? 255
  then {| TCNT0 := 0; FRQ_highByte := u8 (FRQ_highByte c + 1) |}
  else {| TCNT0 := TCNT0 c + 1; FRQ_highByte := FRQ_highByte c |}.

(* FRQ_highByte = 0; TCNT0 = 0; then n pulses until TIM1_COMPA fires *)
Definition gate_window (n : N) : counter :=
  N.iter n T0_pulse {| TCNT0 := 0; FRQ_highByte := 0 |}.

(* uint16_t freq = (uint16_t)(FRQ_highByte << 8) | TCNT0; freq >>= 1; *)
Definition FRQ_read (c : counter) : Z :=
  let freq := Z.lor (u16 (Z.shiftl (FRQ_highByte c) 8)) (TCNT0 c) in
  Z.shiftr freq 1.

(* Measure frequency by counting signals from target (OSC / 16) for 32ms *)
Definition FRQ_measure : M Z :=
  fun w s =>
    let osccal := cell0 (target_after (trace s)) in
    let freq := FRQ_read (gate_window (pulses w (gates s) osccal)) in
    Some (freq, {| samples := samples s; gates := S (gates s); TGT := TGT s;
                   trace := trace s ++ [EvGate osccal freq] |}).

(** ** Main function *)

(* Calculate difference *)
Definition diff (a b : Z) : Z :=
  if a >? b then u16 (a - b) else u16 (b - a).

(* if(frequency > TGT.FREQ) calib--; else calib++;  on a uint8_t *)
Definition next_calib (frequency freq calib : Z) : Z :=
  if frequency >? freq then u8 (calib - 1) else u8 (calib + 1).

(** The calibration process, [while(1)] with its three exits; it returns
    [lastcalib] and [difference] as they are after the loop. *)
Fixpoint calibration (fuel : nat) (calib lastcalib difference : Z) : M (Z * Z) :=
  match fuel with
  | O => fail
  | S fuel' =>
      (* Measure frequency *)
      frequency <- FRQ_measure ;;
      tgt <- get_TGT ;;
      (* Leave if current OSCCAL value is worse than the last one *)
      if diff frequency (FREQ tgt) >=? difference then ret (lastcalib, difference)
      else
        (* Print current calibration results *)
        OLED_result calib frequency ;;
        (* Calculate next OSCCAL value *)
        let lastcalib := calib in
        let difference := diff frequency (FREQ tgt) in
        if difference =? 0 then ret (lastcalib, difference)
        else
          let calib := next_calib frequency (FREQ tgt) calib in
          (* Program target for next calibration value *)
          ICSP_enterProgMode ;;
          ICSP_writeEEPROM 0 calib ;;
          ICSP_exitProgMode ;;
          calibration fuel' calib lastcalib difference
  end.

(* Write calibration result und wait for button *)
Definition commit (lastcalib : Z) : M unit :=
  ICSP_enterProgMode ;;
  ICSP_writeEEPROM 0 lastcalib ;;
  ICSP_exitProgMode ;;
  OLED_print 0 "CALIBRATION COMPLETE!" ;;
  OLED_print 1 "VCC  OSCCAL FREQUENCY" ;;
  BUTTON_wait.

(** From "Calibration process variables" to the end of the loop body of
    [main]: the search and the final write.  It returns [lastcalib]. *)
Definition calibrate (fuel : nat) (calib : Z) : M Z :=
  let lastcalib := calib in
  let difference := 65535 in
  r <- calibration fuel calib lastcalib difference ;;
  commit (fst r) ;;
  ret (fst r).

(* Write calibration program to flash and OSCCAL value to EEPROM of target MCU *)
Definition program : M Z :=
  calib <- ICSP_readCalib ;;
  ICSP_eraseChip ;;
  ICSP_writeFuses ;;
  ICSP_writeFlash ;;
  ICSP_writeEEPROM 0 calib ;;
  ICSP_exitProgMode ;;
  ret calib.

(* Print start screen and wait for button *)
Definition start_screen : M unit :=
  OLED_print 0 "PRESS BUTTON TO START" ;;
  OLED_print 1 "  OSC CALIBRATION !  " ;;
  BUTTON_wait.

(* Read signature und identify target MCU; the result of
   ICSP_enterProgMode is not used *)
Definition identify : M (Z * Z) :=
  entered <- ICSP_enterProgMode ;;
  signature <- ICSP_readSignature ;;
  ret (entered, signature).

(** One pass through the [while(1)] of [main]: a session. *)
Definition main_session (fuel : nat) : M unit :=
  start_screen ;;
  id <- identify ;;
  let signature := snd id in
  let target := find_target signature TGTs 0 in
  (* Print error message if negative detection of MCU *)
  if target =? TGT_LENGTH then
    ICSP_exitProgMode ;;
    OLED_print 0 " ERROR, NO SUPPORTED " ;;
    OLED_print 1 "  DEVICE DETECTED !  " ;;
    BUTTON_wait
  else
    (* Copy target MCU data from flash to TGT variable *)
    set_TGT (nth (Z.to_nat target) TGTs TGT_zero) ;;
    tgt <- get_TGT ;;
    OLED_print 0 " CALIBRATING OSC OF  " ;;
    OLED_print 1 ("    " ++ NAME tgt ++ "...    ") ;;
    calib <- program ;;
    calibrate fuel calib ;;
    ret tt.

(** Fuel that always suffices for the calibration process: [difference] is
    a [uint16_t] and shrinks with every trial that does not leave the loop. *)
Definition calibration_bound : nat := N.to_nat 65536.

(** ** Reading a trace *)

(** The trials measured, oldest first: for each gate window the byte in the
    target's EEPROM cell 0 and the frequency read. *)
Fixpoint visits (tr : list event) : list (Z * Z) :=
  match tr with
  | [] => []
  | EvGate osccal frequency :: tr' => (osccal, frequency) :: visits tr'
  | _ :: tr' => visits tr'
  end.

(** The trials recorded as best so far, oldest first: those that reached the
    result line, where [lastcalib] and [difference] are updated. *)
Fixpoint records (tr : list event) : list (Z * Z) :=
  match tr with
  | [] => []
  | EvResult calib frequency :: tr' => (calib, frequency) :: records tr'
  | _ :: tr' => records tr'
  end.

(** The deviation of a measured trial from the expected frequency. *)
Definition deviation (freq : Z) (v : Z * Z) : Z := diff (snd v) freq.

(** Each element is strictly below the one before it, the first below [bound]. *)
Fixpoint descending (bound : Z) (l : list Z) : Prop :=
  match l with
  | [] => True
  | d :: l' => d < bound /\ descending d l'
  end.

(** The events of one enter / write EEPROM cell 0 / exit sequence. *)
Definition store_events (data : Z) : list event :=
  [EvInit; EvByte 0xAC; EvByte 0x53; EvByte 0x00; EvByte 0x00;
   EvByte 0xC0; EvByte 0x00; EvByte 0x00; EvByte data; EvRelease].

(** The runs of the calibration process, as a relation between the loop
    variables at its head, the events it adds and the loop variables at its
    end.  [cell] is the byte in the target's EEPROM cell 0, [freq] the
    expected frequency, and [reads cell frequency] says that a gate window
    with that byte in the cell can read that frequency. *)
Inductive cal_run (reads : Z -> Z -> Prop) (freq : Z) :
  Z -> Z -> Z -> Z -> list event -> Z -> Z -> Prop :=
| run_worse cell calib lastcalib difference frequency :
    reads cell frequency ->
    diff frequency freq >= difference ->
    cal_run reads freq cell calib lastcalib difference
            [EvGate cell frequency] lastcalib difference
| run_exact cell calib lastcalib difference frequency :
    reads cell frequency ->
    diff frequency freq < difference ->
    diff frequency freq = 0 ->
    cal_run reads freq cell calib lastcalib difference
            [EvGate cell frequency; EvResult calib frequency] calib 0
| run_next cell calib lastcalib difference frequency evs best final :
    reads cell frequency ->
    diff frequency freq < difference ->
    diff frequency freq <> 0 ->
    cal_run reads freq (next_calib frequency freq calib) (next_calib frequency freq calib)
            calib (diff frequency freq) evs best final ->
    cal_run reads freq cell calib lastcalib difference
            (EvGate cell frequency :: EvResult calib frequency
               :: store_events (next_calib frequency freq calib) ++ evs)
            best final.

(** Events that leave the target's memory as it is. *)
Definition quiet (e : event) : Prop :=
  match e with
  | EvInit | EvByte _ => False
  | _ => True
  end.

(** What a gate window of world [w] can read with [cell] in the target's
    EEPROM cell 0. *)
Definition reads_in (w : world) (cell frequency : Z) : Prop :=
  exists n, frequency = FRQ_read (gate_window (pulses w n cell)).

(** The events of the final write. *)
Definition commit_events (lastcalib : Z) : list event :=
  store_events lastcalib
  ++ [EvPrint 0 "CALIBRATION COMPLETE!"; EvPrint 1 "VCC  OSCCAL FREQUENCY"; EvButton].

(** ** Test benches *)

(** A MISO line that answers with the given bytes, most significant bit
    first, and stays low afterwards. *)
Definition miso_of_bytes (l : list Z) : nat -> bool :=
  fun n => Z.testbit (nth (n / 8) l 0) (Z.of_nat (7 - n mod 8)).

Definition ATTINY84 : TGT_TYPE :=
  mkTGT 0x930C 0x62 0xDF 0xFF 32 92 PROG_T84 8000 "ATTINY84  ".

(** The pulses of a target whose frequency falls as the byte in its cell 0
    grows: (8300 - c) kHz. *)
Definition falling (c : Z) : N := Z.to_N (2 * (8300 - c)).

(** An ATtiny84 that echoes the enable command and reports the calibration
    byte 0x80. *)
Definition tiny84_replies : list Z :=
  [ 0; 0; 0x53; 0;   0; 0; 0; 0x93;   0; 0; 0; 0x0C;   0; 0; 0; 0x80 ].

Definition bench_falling : world :=
  {| miso := miso_of_bytes tiny84_replies; pulses := fun _ c => falling c |}.

(** The same target with an oscillator that is exact from the start. *)
Definition bench_exact : world :=
  {| miso := miso_of_bytes tiny84_replies; pulses := fun _ _ => 16000%N |}.

(** A target stuck at 8100 kHz. *)
Definition bench_high : world :=
  {| miso := fun _ => false; pulses := fun _ _ => 16200%N |}.

(** An ATtiny84 whose enable echo is wrong while its signature reads fine. *)
Definition bench_no_echo : world :=
  {| miso := miso_of_bytes [ 0; 0; 0xFF; 0;   0; 0; 0; 0x93;   0; 0; 0; 0x0C;   0; 0; 0; 0x80 ];
     pulses := fun _ _ => 16000%N |}.

(** A link with nothing on it: MISO stays low. *)
Definition bench_open : world :=
  {| miso := fun _ => false; pulses := fun _ _ => 0%N |}.

(** The machine as the programming step leaves it for an ATtiny84 with the
    trial [calib] stored in the target. *)
Definition programmed (calib : Z) : machine :=
  {| samples := 0; gates := 0; TGT := ATTINY84; trace := store_events calib |}.

(** ** Reading a session *)

(** What [ICSP_enterProgMode] returned and which signature was read in the
    session that starts in machine [s]. *)
Definition session_entered (w : world) (s : machine) : Z :=
  match (start_screen ;; identify) w s with
  | Some ((entered, _), _) => entered
  | None => 0
  end.

Definition session_signature (w : world) (s : machine) : Z :=
  match (start_screen ;; identify) w s with
  | Some ((_, signature), _) => signature
  | None => 0
  end.

Definition start_events : list event :=
  [EvPrint 0 "PRESS BUTTON TO START"; EvPrint 1 "  OSC CALIBRATION !  "; EvButton].

Definition identify_events : list event :=
  [EvInit; EvByte 0xAC; EvByte 0x53; EvByte 0x00; EvByte 0x00;
   EvByte 0x30; EvByte 0x00; EvByte 0x01; EvByte 0x00;
   EvByte 0x30; EvByte 0x00; EvByte 0x02; EvByte 0x00].

Definition unsupported_events : list event :=
  [EvRelease; EvPrint 0 " ERROR, NO SUPPORTED "; EvPrint 1 "  DEVICE DETECTED !  ";
   EvButton].

(** ** Flash programming as the design describes it

    The image goes out word by word, low byte then high byte, at addresses
    counted from zero; a page commit follows every [pagesize]-th word, for
    the page just filled; and one more page commit follows the last word
    when the number of words is not a multiple of the page size. *)

Definition hi (addr : Z) : Z := u8 (Z.shiftr addr 8).
Definition lo (addr : Z) : Z := u8 addr.

Fixpoint flash_words (n : nat) (addr : Z) (p : nat) (pagesize : Z) (prog : list Z)
  : list instr :=
  match n with
  | O => []
  | S n' =>
      (0x40, hi addr, lo addr, pgm_read_byte prog p)
      :: (0x48, hi addr, lo addr, pgm_read_byte prog (S p))
      :: (if (addr + 1) mod pagesize =? 0
          then [(0x4C, hi (addr + 1 - pagesize), lo (addr + 1 - pagesize), 0x00)]
          else [])
      ++ flash_words n' (addr + 1) (S (S p)) pagesize prog
  end.

Definition flash_design (t : TGT_TYPE) : list instr :=
  let words := (PROG_LENGTH t + 1) / 2 in
  flash_words (Z.to_nat words) 0 0 (PSIZE t) (PROG t)
  ++ (if words mod PSIZE t =? 0 then []
      else [(0x4C, hi words, lo words, 0x00)]).

(** The four bytes of each instruction, in order. *)
Definition bytes_of (l : list instr) : list event :=
  flat_map (fun i : instr => let '(b1, b2, b3, b4) := i in
                             [EvByte b1; EvByte b2; EvByte b3; EvByte b4]) l.

(** The word address a page commit carries. *)
Definition commit_address (i : instr) : option Z :=
  let '(b1, b2, b3, _) := i in
  if b1 =? 0x4C then Some (256 * b2 + b3) else None.

Definition is_commit (i : instr) : bool :=
  let '(b1, _, _, _) := i in b1 =? 0x4C.

(** Descriptors [ICSP_writeFlash] is meant for: a page size that is a power
    of two and a program of at least one byte, both in a [uint8_t]. *)
Definition flash_ready (t : TGT_TYPE) : Prop :=
  In (PSIZE t) [1; 2; 4; 8; 16; 32; 64; 128] /\ 1 <= PROG_LENGTH t <= 255.

(** A descriptor whose program fills one page of 32 words exactly. *)
Definition one_page : TGT_TYPE :=
  mkTGT 0x930C 0x62 0xDF 0xFF 32 64 (firstn 64 PROG_T84) 8000 "ONE PAGE  ".

(** A fresh machine holding descriptor [t] in [TGT]. *)
Definition holding (t : TGT_TYPE) : machine :=
  {| samples := 0; gates := 0; TGT := t; trace := [] |}.

(** The instructions of the programming step, from the calibration byte read
    to the trial stored. *)
Definition program_design (t : TGT_TYPE) (calib : Z) : list instr :=
  [ (0x38, 0x00, 0x00, 0x00);
    (0xAC, 0x80, 0x00, 0x00);
    (0xAC, 0xA0, 0x00, LFUSE t);
    (0xAC, 0xA8, 0x00, HFUSE t);
    (0xAC, 0xA4, 0x00, EFUSE t) ]
  ++ flash_design t
  ++ [ (0xC0, 0x00, 0x00, calib) ].

(** The events of a session up to the end of the programming step. *)
Definition programming_events (t : TGT_TYPE) (calib : Z) : list event :=
  start_events ++ identify_events
  ++ [EvPrint 0 " CALIBRATING OSC OF  "; EvPrint 1 ("    " ++ NAME t ++ "...    ")]
  ++ bytes_of (program_design t calib) ++ [EvRelease].

(** The calibration byte read in the session that starts in machine [s]:
    the reply to the fourth byte of the fourth instruction. *)
Definition session_calib (w : world) (s : machine) : Z :=
  ICSP_shift 8 0 (miso w) (120 + samples s).

(** The value of a byte given by its bits, most significant first. *)
Definition byte_of_levels (l : list bool) : Z :=
  fold_left (fun acc (b : bool) => 2 * acc + (if b then 1 else 0)) l 0.

(** ** Further readings of a trace *)

(** The link discipline: [Some entered] when, starting with the link
    entered or not, every byte is sent between an [EvInit] and the next
    [EvRelease], the two alternate, and every gate window runs with the link
    released; the result says whether the link is entered at the end. *)
Fixpoint bracketed (entered : bool) (tr : list event) : option bool :=
  match tr with
  | [] => Some entered
  | EvInit :: tr' => if entered then None else bracketed true tr'
  | EvRelease :: tr' => if entered then bracketed false tr' else None
  | EvByte _ :: tr' => if entered then bracketed true tr' else None
  | EvGate _ _ :: tr' => if entered then None else bracketed false tr'
  | _ :: tr' => bracketed entered tr'
  end.

(** The data bytes of the load instructions among [l], in order. *)
Definition load_data (l : list instr) : list Z :=
  map (fun i : instr => let '(_, _, _, d) := i in d)
      (filter (fun i => negb (is_commit i)) l).

(** ** The pins of port A

    What the macros and the init functions do to the registers [PORTA] and
    [DDRA].  The byte-level operations above record one event per call; here
    the same functions are followed pin by pin. *)

Module Pins.

(* Pin definitions *)
Definition I2C_SCL : Z := 0.     (* PA0: I2C SCL *)
Definition I2C_SDA : Z := 1.     (* PA1: I2C SDA *)
Definition BUTTON_PIN : Z := 2.  (* PA2: button pin *)
Definition OSC_PIN : Z := 3.     (* PA3: target oscillator input *)
Definition SCK_PIN : Z := 4.     (* PA4: ICSP SCK *)
Definition MISO_PIN : Z := 5.    (* PA5: ICSP MISO *)
Definition MOSI_PIN : Z := 6.    (* PA6: ICSP MOSI *)
Definition RST_PIN : Z := 7.     (* PA7: ICSP !RST *)

Record port : Type := { PORTA : Z; DDRA : Z }.

(* (1<<pin) *)
Definition bit (pin : Z) : Z := Z.shiftl 1 pin.

(* reg |= mask  and  reg &= ~mask  on an 8-bit register *)
Definition set_bits (reg mask : Z) : Z := u8 (Z.lor reg mask).
Definition clear_bits (reg mask : Z) : Z := u8 (Z.land reg (Z.lnot mask)).

(* (1<<RST_PIN) | (1<<SCK_PIN) | (1<<MOSI_PIN) *)
Definition ICSP_lines : Z := Z.lor (Z.lor (bit RST_PIN) (bit SCK_PIN)) (bit MOSI_PIN).

(* ICSP set up all control lines *)
Definition ICSP_init (p : port) : port :=
  let porta := clear_bits (PORTA p) ICSP_lines in
  let ddra := set_bits (DDRA p) ICSP_lines in
  let ddra := clear_bits ddra (bit MISO_PIN) in
  {| PORTA := porta; DDRA := ddra |}.

(* ICSP release all control lines (input, no pullup) *)
Definition ICSP_release (p : port) : port :=
  {| PORTA := clear_bits (PORTA p) ICSP_lines;
     DDRA := clear_bits (DDRA p) ICSP_lines |}.

(* I2C init function *)
Definition I2C_init (p : port) : port :=
  {| PORTA := clear_bits (PORTA p) (Z.lor (bit I2C_SDA) (bit I2C_SCL));
     DDRA := clear_bits (DDRA p) (Z.lor (bit I2C_SDA) (bit I2C_SCL)) |}.

(* Button init *)
Definition BUTTON_init (p : port) : port :=
  {| PORTA := set_bits (PORTA p) (bit BUTTON_PIN); DDRA := DDRA p |}.

(** The eight clock cycles of [ICSP_sendByte] on [PORTA].  The result lists
    the value of [PORTA] at each moment SCK is high, which is when the target
    samples MOSI, then gives [byte] and [PORTA] at the end. *)
Fixpoint ICSP_sendByte (i : nat) (byte : Z) (line : nat -> bool) (k : nat) (porta : Z)
  : list Z * Z * Z :=
  match i with
  | O => ([], byte, porta)
  | S i' =>
      let porta := if negb (Z.land byte 0x80 =? 0)
                   then set_bits porta (bit MOSI_PIN)      (* ICSP_MOSI_HIGH *)
                   else clear_bits porta (bit MOSI_PIN) in (* ICSP_MOSI_LOW *)
      let byte := u8 (Z.shiftl byte 1) in
      let porta := set_bits porta (bit SCK_PIN) in         (* ICSP_SCK_HIGH *)
      let high := porta in
      let byte := if line k then Z.lor byte 1 else byte in
      let porta := clear_bits porta (bit SCK_PIN) in       (* ICSP_SCK_LOW *)
      let '(highs, byte', porta') := ICSP_sendByte i' byte line (S k) porta in
      (high :: highs, byte', porta')
  end.

(* I2C macros: a line is high when its pin is an input, low when an output *)
Definition I2C_SDA_HIGH (ddra : Z) : Z := clear_bits ddra (bit I2C_SDA).
Definition I2C_SDA_LOW (ddra : Z) : Z := set_bits ddra (bit I2C_SDA).
Definition I2C_SCL_HIGH (ddra : Z) : Z := clear_bits ddra (bit I2C_SCL).
Definition I2C_SCL_LOW (ddra : Z) : Z := set_bits ddra (bit I2C_SCL).

(** The [for] of [I2C_write] on [DDRA]: the result lists the value of [DDRA]
    at each moment SCL is high, which is when the slave reads SDA, then gives
    [DDRA] at the end. *)
Fixpoint I2C_write_bits (i : nat) (data ddra : Z) : list Z * Z :=
  match i with
  | O => ([], ddra)
  | S i' =>
      let ddra := if negb (Z.land data 0x80 =? 0)
                  then I2C_SDA_HIGH ddra else I2C_SDA_LOW ddra in
      let ddra := I2C_SCL_HIGH ddra in                     (* I2C_CLOCKOUT *)
      let high := ddra in
      let ddra := I2C_SCL_LOW ddra in
      let data := u8 (Z.shiftl data 1) in
      let '(highs, ddra') := I2C_write_bits i' data ddra in
      (high :: highs, ddra')
  end.

(* I2C transmit one data byte to the slave, ignore ACK bit *)
Definition I2C_write (data ddra : Z) : list Z * Z :=
  let '(highs, ddra) := I2C_write_bits 8 data ddra in
  let ddra := I2C_SDA_HIGH ddra in
  let ddra := I2C_SCL_HIGH ddra in
  let ack := ddra in
  let ddra := I2C_SCL_LOW ddra in
  (highs ++ [ack], ddra).

(* I2C start transmission *)
Definition I2C_start (addr ddra : Z) : list Z * Z :=
  let ddra := I2C_SDA_LOW ddra in
  let ddra := I2C_SCL_LOW ddra in
  I2C_write addr ddra.

(* I2C stop transmission *)
Definition I2C_stop (ddra : Z) : Z :=
  let ddra := I2C_SDA_LOW ddra in
  let ddra := I2C_SCL_HIGH ddra in
  I2C_SDA_HIGH ddra.

(** A pin of a register value, and whether an open-drain line is high. *)
Definition pin (reg n : Z) : bool := Z.testbit reg n.
Definition line_high (ddra n : Z) : bool := negb (Z.testbit ddra n).

(** The pins outside the ICSP lines RST, SCK and MOSI (mask 0x2F) and those
    outside the two I2C lines (mask 0xFC). *)
Definition beside_ICSP (reg : Z) : Z := Z.land reg 0x2F.
Definition beside_I2C (reg : Z) : Z := Z.land reg 0xFC.

End Pins.

(** ** The display

    The OLED is driven over I2C; at the level of bytes a transmission is a
    start with the address, data bytes and a stop. *)

Inductive bus : Type :=
| BusStart                 (* start condition *)
| BusByte (data : Z)       (* one byte by I2C_write *)
| BusStop.                 (* stop condition *)

Definition I2C_write (data : Z) : list bus := [BusByte data].
Definition I2C_start (addr : Z) : list bus := BusStart :: I2C_write addr.
Definition I2C_stop : list bus := [BusStop].

(* OLED definitions *)
Definition OLED_ADDR : Z := 0x78.       (* OLED write address *)
Definition OLED_CMD_MODE : Z := 0x00.   (* set command mode *)
Definition OLED_DAT_MODE : Z := 0x40.   (* set data mode *)
Definition OLED_INIT_LEN : nat := 11.   (* 9: no screen flip, 11: screen flip *)

(* OLED character definitions *)
Definition DECIMAL : Z := 21.
Definition SPACE : Z := 22.

(* OLED BCD conversion array *)
Definition DIVIDER : list Z := [10000; 1000; 100; 10; 1].

Definition OLED_INIT_CMD : list Z :=
  [ 0xA8; 0x1F;
    0x20; 0x01;
    0xDA; 0x02;
    0x8D; 0x14;
    0xAF;
    0xA1; 0xC8 ].

Definition OLED_FONT_SMALL : list Z :=
  [ 0x00; 0x00; 0x00; 0x00; 0x00; 0x00; 0x00; 0x2f; 0x00; 0x00; 0x00; 0x07; 0x00; 0x07; 0x00;
    0x14; 0x7f; 0x14; 0x7f; 0x14; 0x24; 0x2a; 0x7f; 0x2a; 0x12; 0x62; 0x64; 0x08; 0x13; 0x23;
    0x36; 0x49; 0x55; 0x22; 0x50; 0x00; 0x05; 0x03; 0x00; 0x00; 0x00; 0x1c; 0x22; 0x41; 0x00;
    0x00; 0x41; 0x22; 0x1c; 0x00; 0x14; 0x08; 0x3E; 0x08; 0x14; 0x08; 0x08; 0x3E; 0x08; 0x08;
    0x00; 0x00; 0xA0; 0x60; 0x00; 0x08; 0x08; 0x08; 0x08; 0x08; 0x00; 0x60; 0x60; 0x00; 0x00;
    0x20; 0x10; 0x08; 0x04; 0x02; 0x3E; 0x51; 0x49; 0x45; 0x3E; 0x00; 0x42; 0x7F; 0x40; 0x00;
    0x42; 0x61; 0x51; 0x49; 0x46; 0x21; 0x41; 0x45; 0x4B; 0x31; 0x18; 0x14; 0x12; 0x7F; 0x10;
    0x27; 0x45; 0x45; 0x45; 0x39; 0x3C; 0x4A; 0x49; 0x49; 0x30; 0x01; 0x71; 0x09; 0x05; 0x03;
    0x36; 0x49; 0x49; 0x49; 0x36; 0x06; 0x49; 0x49; 0x29; 0x1E; 0x00; 0x36; 0x36; 0x00; 0x00;
    0x00; 0x56; 0x36; 0x00; 0x00; 0x08; 0x14; 0x22; 0x41; 0x00; 0x14; 0x14; 0x14; 0x14; 0x14;
    0x00; 0x41; 0x22; 0x14; 0x08; 0x02; 0x01; 0x51; 0x09; 0x06; 0x32; 0x49; 0x59; 0x51; 0x3E;
    0x7C; 0x12; 0x11; 0x12; 0x7C; 0x7F; 0x49; 0x49; 0x49; 0x36; 0x3E; 0x41; 0x41; 0x41; 0x22;
    0x7F; 0x41; 0x41; 0x22; 0x1C; 0x7F; 0x49; 0x49; 0x49; 0x41; 0x7F; 0x09; 0x09; 0x09; 0x01;
    0x3E; 0x41; 0x49; 0x49; 0x7A; 0x7F; 0x08; 0x08; 0x08; 0x7F; 0x00; 0x41; 0x7F; 0x41; 0x00;
    0x20; 0x40; 0x41; 0x3F; 0x01; 0x7F; 0x08; 0x14; 0x22; 0x41; 0x7F; 0x40; 0x40; 0x40; 0x40;
    0x7F; 0x02; 0x0C; 0x02; 0x7F; 0x7F; 0x04; 0x08; 0x10; 0x7F; 0x3E; 0x41; 0x41; 0x41; 0x3E;
    0x7F; 0x09; 0x09; 0x09; 0x06; 0x3E; 0x41; 0x51; 0x21; 0x5E; 0x7F; 0x09; 0x19; 0x29; 0x46;
    0x46; 0x49; 0x49; 0x49; 0x31; 0x01; 0x01; 0x7F; 0x01; 0x01; 0x3F; 0x40; 0x40; 0x40; 0x3F;
    0x1F; 0x20; 0x40; 0x20; 0x1F; 0x3F; 0x40; 0x38; 0x40; 0x3F; 0x63; 0x14; 0x08; 0x14; 0x63;
    0x07; 0x08; 0x70; 0x08; 0x07; 0x61; 0x51; 0x49; 0x45; 0x43 ].

Definition OLED_FONT_BIG : list Z :=
  [ 0x7C; 0x1F; 0x02; 0x20; 0x02; 0x20; 0x02; 0x20; 0x7C; 0x1F;
    0x00; 0x00; 0x00; 0x00; 0x00; 0x00; 0x00; 0x00; 0x7C; 0x1F;
    0x00; 0x1F; 0x82; 0x20; 0x82; 0x20; 0x82; 0x20; 0x7C; 0x00;
    0x00; 0x00; 0x82; 0x20; 0x82; 0x20; 0x82; 0x20; 0x7C; 0x1F;
    0x7C; 0x00; 0x80; 0x00; 0x80; 0x00; 0x80; 0x00; 0x7C; 0x1F;
    0x7C; 0x00; 0x82; 0x20; 0x82; 0x20; 0x82; 0x20; 0x00; 0x1F;
    0x7C; 0x1F; 0x82; 0x20; 0x82; 0x20; 0x82; 0x20; 0x00; 0x1F;
    0x7C; 0x00; 0x02; 0x00; 0x02; 0x00; 0x02; 0x00; 0x7C; 0x1F;
    0x7C; 0x1F; 0x82; 0x20; 0x82; 0x20; 0x82; 0x20; 0x7C; 0x1F;
    0x7C; 0x00; 0x82; 0x20; 0x82; 0x20; 0x82; 0x20; 0x7C; 0x1F;
    0x7C; 0x1F; 0x82; 0x00; 0x82; 0x00; 0x82; 0x00; 0x7C; 0x1F;
    0x7C; 0x1F; 0x80; 0x20; 0x80; 0x20; 0x80; 0x20; 0x00; 0x1F;
    0x7C; 0x1F; 0x02; 0x20; 0x02; 0x20; 0x02; 0x20; 0x00; 0x00;
    0x00; 0x1F; 0x80; 0x20; 0x80; 0x20; 0x80; 0x20; 0x7C; 0x1F;
    0x7C; 0x1F; 0x82; 0x20; 0x82; 0x20; 0x82; 0x20; 0x00; 0x00;
    0x7C; 0x1F; 0x82; 0x00; 0x82; 0x00; 0x82; 0x00; 0x00; 0x00;
    0xFE; 0x3F; 0x80; 0x00; 0x80; 0x00; 0x80; 0x00; 0xFE; 0x3F;
    0xFE; 0x07; 0x00; 0x18; 0x00; 0x20; 0x00; 0x18; 0xFE; 0x07;
    0xFE; 0x3F; 0x00; 0x04; 0x00; 0x0A; 0x00; 0x11; 0x80; 0x20;
    0x80; 0x31; 0x00; 0x0A; 0x00; 0x04; 0x00; 0x0A; 0x80; 0x31;
    0x80; 0x30; 0x80; 0x28; 0x80; 0x24; 0x80; 0x22; 0x80; 0x21;
    0x00; 0x00; 0x00; 0x30; 0x00; 0x30; 0x00; 0x00; 0x00; 0x00;
    0x00; 0x00; 0x00; 0x00; 0x00; 0x00; 0x00; 0x00; 0x00; 0x00 ].

(** [pgm_read_byte(&table[index])]; behind the table the model reads 0. *)
Definition pgm_table (table : list Z) (index : Z) : Z := nth (Z.to_nat index) table 0.

(* OLED init function *)
Definition OLED_init : list bus :=
  I2C_start OLED_ADDR ++ I2C_write OLED_CMD_MODE
  ++ flat_map (fun i => I2C_write (pgm_table OLED_INIT_CMD (Z.of_nat i))) (seq 0 OLED_INIT_LEN)
  ++ I2C_stop.

(** OLED set the cursor; the second component is the new [OLED_page]. *)
Definition OLED_setCursor (xpos ypos : Z) : list bus * Z :=
  (I2C_start OLED_ADDR ++ I2C_write OLED_CMD_MODE
   ++ I2C_write 0x22
   ++ I2C_write ypos
   ++ (if ypos >? 1 then I2C_write 3 else I2C_write ypos)
   ++ I2C_write (Z.land xpos 0x0F)
   ++ I2C_write (Z.lor 0x10 (Z.shiftr xpos 4))
   ++ I2C_write (Z.lor 0xB0 ypos)
   ++ I2C_stop,
   ypos).

(** The [do ... while(--i)] of [OLED_clearScreen] on a [uint8_t] i. *)
Fixpoint clearScreen_loop (fuel : nat) (i : Z) : option (list bus) :=
  match fuel with
  | O => None
  | S fuel' =>
      let i := u8 (i - 1) in
      if i =? 0 then Some (I2C_write 0x00 ++ I2C_write 0x00)
      else match clearScreen_loop fuel' i with
           | Some more => Some (I2C_write 0x00 ++ I2C_write 0x00 ++ more)
           | None => None
           end
  end.

(* OLED clear screen *)
Definition OLED_clearScreen (fuel : nat) : option (list bus) :=
  match clearScreen_loop fuel 0 with
  | Some zeros =>
      Some (I2C_start OLED_ADDR ++ I2C_write OLED_CMD_MODE
            ++ I2C_write 0x22 ++ I2C_write 0x00 ++ I2C_write 0x03
            ++ I2C_write 0x0F ++ I2C_write 0x10 ++ I2C_write 0xB0
            ++ I2C_stop
            ++ I2C_start OLED_ADDR ++ I2C_write OLED_DAT_MODE
            ++ zeros
            ++ I2C_stop)
  | None => None
  end.

(** The bytes of one character: [n] bytes of [font] from [index] on, the
    index being incremented modulo its width by [wrap] ([u8] for the
    [uint8_t] index of the big font, [u16] for the [uint16_t] index of the
    small one). *)
Fixpoint plot_bytes (n : nat) (font : list Z) (wrap : Z -> Z) (index : Z) : list bus :=
  match n with
  | O => []
  | S n' => I2C_write (pgm_table font index) ++ plot_bytes n' font wrap (wrap (index + 1))
  end.

(** OLED plot a character; [OLED_page] is the global set by [OLED_setCursor]. *)
Definition OLED_plotChar (OLED_page ch : Z) : list bus :=
  if OLED_page >? 1 then
    (* big character *)
    let ch := u8 (Z.shiftl ch 3 + Z.shiftl ch 1) in
    I2C_write 0x00 ++ I2C_write 0x00 ++ plot_bytes 10 OLED_FONT_BIG u8 ch
  else
    (* small character *)
    let p := u16 (ch - 32) in
    let p := u16 (p + Z.shiftl p 2) in
    I2C_write 0x00 ++ plot_bytes 5 OLED_FONT_SMALL u16 p.

(** The characters of a string up to its terminator. *)
Fixpoint plot_string (OLED_page : Z) (p : list Z) : list bus :=
  match p with
  | [] => []
  | ch :: p' => if ch =? 0 then [] else OLED_plotChar OLED_page ch ++ plot_string OLED_page p'
  end.

(* OLED print a string from program memory *)
Definition OLED_printPrg (OLED_page : Z) (p : list Z) : list bus :=
  I2C_start OLED_ADDR ++ I2C_write OLED_DAT_MODE ++ plot_string OLED_page p ++ I2C_stop.

(* OLED print a string *)
Definition OLED_printStr (OLED_page : Z) (p : list Z) : list bus :=
  I2C_start OLED_ADDR ++ I2C_write OLED_DAT_MODE ++ plot_string OLED_page p ++ I2C_stop.

(** The [while(value >= divider)] of [OLED_printDec]; it returns [value],
    [digitval] and [leadflag]. *)
Fixpoint printDec_while (fuel : nat) (value divider digitval leadflag : Z)
  : option (Z * Z * Z) :=
  match fuel with
  | O => None
  | S fuel' =>
      if value >=? divider
      then printDec_while fuel' (u16 (value - divider)) divider (u8 (digitval + 1)) 1
      else Some (value, digitval, leadflag)
  end.

(** The [for] over the five digits, as the characters given to
    [OLED_plotChar]. *)
Fixpoint printDec_for (fuel : nat) (dividers : list Z) (digit value leadflag : Z)
  : option (list Z) :=
  match dividers with
  | [] => Some []
  | divider :: rest =>
      match printDec_while fuel value divider 0 leadflag with
      | None => None
      | Some (value, digitval, leadflag) =>
          let ch := if negb (leadflag =? 0) || (digit =? 4) then digitval else SPACE in
          match printDec_for fuel rest (digit + 1) value leadflag with
          | Some more => Some (ch :: more)
          | None => None
          end
      end
  end.

(* OLED print 16-bit value as 5-digit decimal (BCD conversion by substraction method) *)
Definition OLED_printDec (fuel : nat) (OLED_page value : Z) : option (list bus) :=
  match printDec_for fuel DIVIDER 0 value 0 with
  | Some chars =>
      Some (I2C_start OLED_ADDR ++ I2C_write OLED_DAT_MODE
            ++ flat_map (OLED_plotChar OLED_page) chars ++ I2C_stop)
  | None => None
  end.

(* OLED print byte as hex *)
Definition OLED_printHex (OLED_page value : Z) : list bus :=
  I2C_start OLED_ADDR ++ I2C_write OLED_DAT_MODE
  ++ OLED_plotChar OLED_page 0 ++ OLED_plotChar OLED_page 19
  ++ OLED_plotChar OLED_page (Z.shiftr value 4)
  ++ OLED_plotChar OLED_page (Z.land value 0x0F)
  ++ I2C_stop.

(** The [while(value >= 10)] of [OLED_printVCC] on a [uint8_t] value. *)
Fixpoint printVCC_while (fuel : nat) (value digitval : Z) : option (Z * Z) :=
  match fuel with
  | O => None
  | S fuel' =>
      if value >=? 10 then printVCC_while fuel' (u8 (value - 10)) (u8 (digitval + 1))
      else Some (value, digitval)
  end.

(* OLED print Vcc *)
Definition OLED_printVCC (fuel : nat) (OLED_page value : Z) : option (list bus) :=
  match printVCC_while fuel value 0 with
  | Some (value, digitval) =>
      Some (I2C_start OLED_ADDR ++ I2C_write OLED_DAT_MODE
            ++ OLED_plotChar OLED_page digitval
            ++ OLED_plotChar OLED_page DECIMAL
            ++ OLED_plotChar OLED_page value
            ++ I2C_stop)
  | None => None
  end.

(** Read supply voltage in dV from the ADC result [adc]:
    [vcc = 11253 / vcc] on a [uint16_t], returned as a [uint8_t].  A result
    of 0 would divide by zero, which C leaves undefined. *)
Definition ADC_readVCC (adc : Z) : option Z :=
  if adc =? 0 then None else Some (u8 (u16 (11253 / adc))).

(* Some "strings" *)
Definition SEP1 : list Z := [17; 22; 22; 0].   (* "V  " *)
Definition SEP2 : list Z := [22; 22; 22; 0].   (* "   " *)
Definition SEP3 : list Z := [18; 16; 20; 0].   (* "kHz" *)

(** The character codes of a string literal. *)
Definition codes (text : string) : list Z :=
  map (fun c => Z.of_nat (Ascii.nat_of_ascii c)) (list_ascii_of_string text).

(** Print current calibration results, in [main]: the cursor goes to page 2,
    then the supply voltage, the calibration byte and the frequency are
    printed with their separators. *)
Definition print_results (fuel : nat) (adc calib frequency : Z) : option (list bus) :=
  let '(cursor, OLED_page) := OLED_setCursor 0 2 in
  match ADC_readVCC adc with
  | None => None
  | Some vcc =>
      match OLED_printVCC fuel OLED_page vcc, OLED_printDec fuel OLED_page frequency with
      | Some volts, Some khz =>
          Some (cursor
                ++ volts ++ OLED_printPrg OLED_page SEP1
                ++ OLED_printHex OLED_page calib ++ OLED_printPrg OLED_page SEP2
                ++ khz ++ OLED_printPrg OLED_page SEP3)
      | _, _ => None
      end
  end.

(** *** Reading the display *)

(** The glyph of a character in the big font: its ten bytes. *)
Definition big_glyph (ch : Z) : list Z := firstn 10 (skipn (Z.to_nat (10 * ch)) OLED_FONT_BIG).

(** The glyph of a character in the small font: its five bytes. *)
Definition small_glyph (ch : Z) : list Z :=
  firstn 5 (skipn (Z.to_nat (5 * (ch - 32))) OLED_FONT_SMALL).

(** A value in decimal on five places, leading zeros as [SPACE]. *)
Definition decimal_chars (value : Z) : list Z :=
  let d4 := value / 10000 in
  let d3 := value / 1000 mod 10 in
  let d2 := value / 100 mod 10 in
  let d1 := value / 10 mod 10 in
  let d0 := value mod 10 in
  [ if value <? 10000 then SPACE else d4;
    if value <? 1000 then SPACE else d3;
    if value <? 100 then SPACE else d2;
    if value <? 10 then SPACE else d1;
    d0 ].

(** The number a row of digit characters shows, a [SPACE] counting as 0. *)
Definition decimal_value (chars : list Z) : Z :=
  fold_left (fun acc ch => 10 * acc + (if ch =? SPACE then 0 else ch)) chars 0.

(** The characters shown on the result line. *)
Definition result_chars (vcc calib frequency : Z) : list Z :=
  [vcc / 10; DECIMAL; vcc mod 10; 17; 22; 22; 0; 19; calib / 16; calib mod 16; 22; 22; 22]
  ++ decimal_chars frequency ++ [18; 16; 20].

Definition list_eqb (a b : list Z) : bool :=
  (Nat.eqb (List.length a) (List.length b))
  && forallb (fun xy : Z * Z => fst xy =? snd xy) (combine a b).

(** [true] when [P] holds of the [n] integers from [z] on. *)
Fixpoint all_from (n : nat) (z : Z) (P : Z -> bool) : bool :=
  match n with
  | O => true
  | S n' => P z && all_from n' (z + 1) P
  end.

(** One big-font transmission showing [chars]: each character is two blank
    columns and its glyph. *)
Definition big_text (chars : list Z) : list bus :=
  I2C_start OLED_ADDR ++ I2C_write OLED_DAT_MODE
  ++ flat_map (fun ch => map BusByte (0 :: 0 :: big_glyph ch)) chars
  ++ I2C_stop.

(** * Properties *)

(** ** Machine integers *)

Lemma u8_range (x : Z) : 0 <= u8 x < 256.
Proof. unfold u8. apply Z.mod_pos_bound. lia. Qed.

Lemma u16_range (x : Z) : 0 <= u16 x < 65536.
Proof. unfold u16. apply Z.mod_pos_bound. lia. Qed.

Lemma u8_small (x : Z) : 0 <= x < 256 -> u8 x = x.
Proof. intros H. unfold u8. apply Z.mod_small. exact H. Qed.

Lemma u16_small (x : Z) : 0 <= x < 65536 -> u16 x = x.
Proof. intros H. unfold u16. apply Z.mod_small. exact H. Qed.

(** Or-ing a low byte under a value shifted left by 8 adds it. *)
Lemma lor_high_low (h l : Z) :
  0 <= l < 256 -> Z.lor (Z.shiftl h 8) l = 256 * h + l.
Proof.
  intros Hl.
  assert (Hland : Z.land (Z.shiftl h 8) l = 0).
  { apply Z.bits_inj'. intros i Hi.
    rewrite Z.land_spec, Z.bits_0.
    destruct (Z.lt_ge_cases i 8) as [Hlt | Hge].
    - rewrite Z.shiftl_spec_low by exact Hlt. reflexivity.
    - assert (Z.testbit l i = false) as ->; [ | apply andb_false_r ].
      destruct (Z.eq_dec l 0) as [-> | Hnz]; [ apply Z.bits_0 | ].
      apply Z.bits_above_log2; [ lia | ].
      assert (Z.log2 l < 8); [ | lia ].
      apply Z.log2_lt_pow2; [ lia | ]. change (2 ^ 8) with 256. lia. }
  rewrite <- Z.lxor_lor by exact Hland.
  rewrite <- Z.add_nocarry_lxor by exact Hland.
  rewrite Z.shiftl_mul_pow2 by lia. change (2 ^ 8) with 256. lia.
Qed.

(** ** The registry *)

Section Scan.
Variable signature : Z.

(** The scan stops at the first entry with the signature, wherever the
    count started. *)
Lemma find_target_first (table : list TGT_TYPE) (k : Z) :
  match find (fun t => signature =? SIG t) table with
  | Some t =>
      exists i, find_target signature table k = k + Z.of_nat i
                /\ nth_error table i = Some t
                /\ (i < List.length table)%nat
  | None => find_target signature table k = k + Z.of_nat (List.length table)
  end.
Proof.
  revert k. induction table as [ | t rest IH ]; intros k; simpl.
  - lia.
  - destruct (signature =? SIG t).
    + exists 0%nat. simpl. repeat split; lia.
    + specialize (IH (k + 1)).
      destruct (find (fun t0 => signature =? SIG t0) rest) as [ t' | ].
      * destruct IH as (i & Hk & Hnth & Hlt).
        exists (S i). simpl. repeat split; [ lia | exact Hnth | lia ].
      * lia.
Qed.
End Scan.

Lemma lookup_is_find (signature : Z) :
  lookup signature = find (fun t => signature =? SIG t) TGTs.
Proof.
  unfold lookup.
  pose proof (find_target_first signature TGTs 0) as H.
  destruct (find (fun t => signature =? SIG t) TGTs) as [ t | ].
  - destruct H as (i & -> & Hnth & Hlt).
    change (List.length TGTs) with 8%nat in Hlt. unfold TGT_LENGTH.
    destruct (0 + Z.of_nat i =? 8) eqn:E; [ lia | ].
    replace (Z.to_nat (0 + Z.of_nat i)) with i by lia. exact Hnth.
  - rewrite H. reflexivity.
Qed.

Lemma find_none_iff (signature : Z) (table : list TGT_TYPE) :
  (forall t, In t table -> SIG t <> signature) ->
  find (fun t => signature =? SIG t) table = None.
Proof.
  induction table as [ | t rest IH ]; intros H; simpl; [ reflexivity | ].
  destruct (signature =? SIG t) eqn:E.
  - exfalso. apply (H t); [ left; reflexivity | ]. lia.
  - apply IH. intros t' Ht'. apply H. right. exact Ht'.
Qed.

Lemma lookup_some_in (signature : Z) (t : TGT_TYPE) :
  lookup signature = Some t -> In t TGTs /\ SIG t = signature.
Proof.
  intros H. rewrite lookup_is_find in H.
  apply find_some in H. destruct H as [ Hin Heq ]. split; [ exact Hin | lia ].
Qed.

(** C6.  Registry lookup is a linear scan in table order, the first match
    wins: the table has 8 entries with pairwise different signatures, the
    lookup of the signature of an entry returns that entry, the entry
    returned always carries the signature asked for, and a signature that no
    entry carries is not found. *)
Theorem lookup_registry :
  List.length TGTs = 8%nat /\ NoDup (map SIG TGTs) /\
  (forall signature, lookup signature = find (fun t => signature =? SIG t) TGTs) /\
  (forall t, In t TGTs -> lookup (SIG t) = Some t) /\
  (forall signature t, lookup signature = Some t -> In t TGTs /\ SIG t = signature) /\
  (forall signature, (forall t, In t TGTs -> SIG t <> signature) -> lookup signature = None).
Proof.
  split; [ reflexivity | ].
  split.
  { repeat (constructor; [ simpl; intros H; repeat (destruct H as [ H | H ]; [ discriminate H | ]); exact H | ]).
    constructor. }
  split; [ exact lookup_is_find | ].
  split.
  { intros t Ht. simpl in Ht.
    repeat (destruct Ht as [ <- | Ht ]; [ reflexivity | ]). contradiction. }
  split.
  { exact lookup_some_in. }
  intros signature H. rewrite lookup_is_find. apply find_none_iff. exact H.
Qed.

Lemma lookup_registry_witness :
  lookup 0x930C = Some (mkTGT 0x930C 0x62 0xDF 0xFF 32 92 PROG_T84 8000 "ATTINY84  ")
  /\ lookup 0xFFFF = None.
Proof.
  destruct lookup_registry as (_ & _ & _ & Hin & _ & Hout).
  split.
  - apply (Hin (mkTGT 0x930C 0x62 0xDF 0xFF 32 92 PROG_T84 8000 "ATTINY84  ")).
    simpl. do 6 right. left. reflexivity.
  - apply (Hout 0xFFFF). intros t Ht. simpl in Ht.
    repeat (destruct Ht as [ <- | Ht ]; [ discriminate | ]). contradiction.
Defined.

(** ** The frequency counter *)

Lemma gate_window_count (n : N) :
  gate_window n =
  {| TCNT0 := Z.of_N n mod 256; FRQ_highByte := (Z.of_N n / 256) mod 256 |}.
Proof.
  unfold gate_window. induction n as [ | n IH ] using N.peano_ind.
  - reflexivity.
  - rewrite N.iter_succ, IH, N2Z.inj_succ. unfold T0_pulse; simpl.
    pose proof (N2Z.is_nonneg n) as Hn.
    set (z := Z.of_N n) in *. unfold Z.succ, u8.
    destruct (Z.eqb_spec (z mod 256) 255) as [ E | E ];
      apply (f_equal2 Build_counter); Z.div_mod_to_equations; lia.
Qed.

Lemma FRQ_read_registers (c : counter) :
  0 <= TCNT0 c < 256 -> 0 <= FRQ_highByte c < 256 ->
  FRQ_read c = (256 * FRQ_highByte c + TCNT0 c) / 2.
Proof.
  intros Ht Hh. unfold FRQ_read.
  rewrite Z.shiftr_div_pow2 by lia. change (2 ^ 1) with 2.
  rewrite u16_small.
  - rewrite lor_high_low by exact Ht. reflexivity.
  - rewrite Z.shiftl_mul_pow2 by lia. change (2 ^ 8) with 256. lia.
Qed.

Lemma FRQ_read_count (n : N) :
  FRQ_read (gate_window n) = (Z.of_N n mod 65536) / 2.
Proof.
  rewrite gate_window_count, FRQ_read_registers; cbn [TCNT0 FRQ_highByte].
  - apply (f_equal (fun x => x / 2)). Z.div_mod_to_equations. lia.
  - apply Z.mod_pos_bound. lia.
  - apply Z.mod_pos_bound. lia.
Qed.

Lemma FRQ_read_range (n : N) : 0 <= FRQ_read (gate_window n) <= 32767.
Proof.
  rewrite FRQ_read_count. Z.div_mod_to_equations. lia.
Qed.

(** C5.  The measurement composes the count from the software high byte and
    the hardware register and halves it: whatever the two registers hold,
    the reading is (256 * high + low) / 2; after n pulses in the gate window
    the registers hold n modulo 65536, so that [FRQ_measure] returns that
    count halved; and 16000 pulses read as 8000 kHz. *)
Theorem FRQ_measure_halves :
  (forall c, 0 <= TCNT0 c < 256 -> 0 <= FRQ_highByte c < 256 ->
             FRQ_read c = (256 * FRQ_highByte c + TCNT0 c) / 2) /\
  (forall n, 256 * FRQ_highByte (gate_window n) + TCNT0 (gate_window n)
             = Z.of_N n mod 65536) /\
  (forall w s, exists s',
      FRQ_measure w s =
      Some ((Z.of_N (pulses w (gates s) (cell0 (target_after (trace s)))) mod 65536) / 2, s')) /\
  FRQ_read (gate_window 16000) = 8000.
Proof.
  split; [ exact FRQ_read_registers | ].
  split.
  { intros n. rewrite gate_window_count; cbn [TCNT0 FRQ_highByte].
    Z.div_mod_to_equations. lia. }
  split.
  { intros w s. unfold FRQ_measure. rewrite FRQ_read_count. eexists. reflexivity. }
  rewrite FRQ_read_count. reflexivity.
Qed.

Lemma FRQ_measure_halves_witness :
  FRQ_read {| TCNT0 := 0x80; FRQ_highByte := 0x3E |} = 16000 / 2.
Proof.
  destruct FRQ_measure_halves as (H & _).
  apply (H {| TCNT0 := 0x80; FRQ_highByte := 0x3E |}); simpl; lia.
Defined.

(** ** Running the programmer

    Each operation is characterised by the value it returns and the machine
    it leaves; sequences are run by rewriting with these equations. *)

Lemma bind_run {A B : Type} (c : M A) (k : A -> M B) (w : world) (s s1 : machine) (a : A) :
  c w s = Some (a, s1) -> (x <- c ;; k x) w s = k a w s1.
Proof. intros H. unfold bind. rewrite H. reflexivity. Qed.

Lemma ret_run {A : Type} (a : A) (w : world) (s : machine) : ret a w s = Some (a, s).
Proof. reflexivity. Qed.

Lemma emit_run (e : event) (w : world) (s : machine) :
  emit e w s = Some (tt, {| samples := samples s; gates := gates s; TGT := TGT s;
                            trace := trace s ++ [e] |}).
Proof. reflexivity. Qed.

Lemma get_TGT_run (w : world) (s : machine) : get_TGT w s = Some (TGT s, s).
Proof. reflexivity. Qed.

Lemma set_TGT_run (t : TGT_TYPE) (w : world) (s : machine) :
  set_TGT t w s = Some (tt, {| samples := samples s; gates := gates s; TGT := t;
                               trace := trace s |}).
Proof. reflexivity. Qed.

Lemma ICSP_sendByte_run (byte : Z) (w : world) (s : machine) :
  ICSP_sendByte byte w s =
  Some (ICSP_shift 8 byte (miso w) (samples s),
        {| samples := 8 + samples s; gates := gates s; TGT := TGT s;
           trace := trace s ++ [EvByte byte] |}).
Proof. reflexivity. Qed.

Lemma FRQ_measure_run (w : world) (s : machine) :
  FRQ_measure w s =
  Some (FRQ_read (gate_window (pulses w (gates s) (cell0 (target_after (trace s))))),
        {| samples := samples s; gates := S (gates s); TGT := TGT s;
           trace := trace s ++ [EvGate (cell0 (target_after (trace s)))
                                  (FRQ_read (gate_window (pulses w (gates s)
                                     (cell0 (target_after (trace s))))))] |}).
Proof. reflexivity. Qed.

Create HintDb run discriminated.
#[local] Hint Resolve ret_run emit_run get_TGT_run set_TGT_run
  ICSP_sendByte_run FRQ_measure_run : run.

(** One step: the first operation of a sequence, or the last one. *)
Ltac run_step :=
  first [ erewrite bind_run by (solve [ auto 1 with run nocore ])
        | match goal with
          | |- ?c ?w ?s = _ =>
              let H := fresh in
              eassert (H : c w s = _) by (solve [ auto 1 with run nocore ]);
              rewrite H; clear H
          end ];
  cbn [samples gates TGT trace fst snd].

Ltac run := repeat run_step; repeat rewrite <- app_assoc; cbn [app].

Lemma ICSP_sendInstr_run (b1 b2 b3 b4 : Z) (w : world) (s : machine) :
  ICSP_sendInstr b1 b2 b3 b4 w s =
  Some (tt, {| samples := 32 + samples s; gates := gates s; TGT := TGT s;
               trace := trace s ++ [EvByte b1; EvByte b2; EvByte b3; EvByte b4] |}).
Proof. unfold ICSP_sendInstr. run. reflexivity. Qed.

Lemma ICSP_readInstr_run (b1 b2 b3 : Z) (w : world) (s : machine) :
  ICSP_readInstr b1 b2 b3 w s =
  Some (ICSP_shift 8 0 (miso w) (24 + samples s),
        {| samples := 32 + samples s; gates := gates s; TGT := TGT s;
           trace := trace s ++ [EvByte b1; EvByte b2; EvByte b3; EvByte 0] |}).
Proof. unfold ICSP_readInstr. run. reflexivity. Qed.

Lemma ICSP_enterProgMode_run (w : world) (s : machine) :
  ICSP_enterProgMode w s =
  Some (if ICSP_shift 8 0 (miso w) (16 + samples s) =? 0x53 then 1 else 0,
        {| samples := 32 + samples s; gates := gates s; TGT := TGT s;
           trace := trace s ++ [EvInit; EvByte 0xAC; EvByte 0x53; EvByte 0; EvByte 0] |}).
Proof. unfold ICSP_enterProgMode, ICSP_init. run. reflexivity. Qed.

Lemma ICSP_exitProgMode_run (w : world) (s : machine) :
  ICSP_exitProgMode w s =
  Some (tt, {| samples := samples s; gates := gates s; TGT := TGT s;
               trace := trace s ++ [EvRelease] |}).
Proof. reflexivity. Qed.

Lemma OLED_print_run (row : Z) (text : string) (w : world) (s : machine) :
  OLED_print row text w s =
  Some (tt, {| samples := samples s; gates := gates s; TGT := TGT s;
               trace := trace s ++ [EvPrint row text] |}).
Proof. reflexivity. Qed.

Lemma OLED_result_run (calib frequency : Z) (w : world) (s : machine) :
  OLED_result calib frequency w s =
  Some (tt, {| samples := samples s; gates := gates s; TGT := TGT s;
               trace := trace s ++ [EvResult calib frequency] |}).
Proof. reflexivity. Qed.

Lemma BUTTON_wait_run (w : world) (s : machine) :
  BUTTON_wait w s =
  Some (tt, {| samples := samples s; gates := gates s; TGT := TGT s;
               trace := trace s ++ [EvButton] |}).
Proof. reflexivity. Qed.

#[local] Hint Resolve ICSP_sendInstr_run ICSP_readInstr_run ICSP_enterProgMode_run
  ICSP_exitProgMode_run OLED_print_run OLED_result_run BUTTON_wait_run : run.

Lemma ICSP_readSignature_run (w : world) (s : machine) :
  ICSP_readSignature w s =
  Some (Z.lor (u16 (Z.shiftl (ICSP_shift 8 0 (miso w) (24 + samples s)) 8))
              (ICSP_shift 8 0 (miso w) (56 + samples s)),
        {| samples := 64 + samples s; gates := gates s; TGT := TGT s;
           trace := trace s ++ [EvByte 0x30; EvByte 0x00; EvByte 0x01; EvByte 0x00;
                                EvByte 0x30; EvByte 0x00; EvByte 0x02; EvByte 0x00] |}).
Proof. unfold ICSP_readSignature. run. reflexivity. Qed.

Lemma ICSP_readCalib_run (w : world) (s : machine) :
  ICSP_readCalib w s =
  Some (ICSP_shift 8 0 (miso w) (24 + samples s),
        {| samples := 32 + samples s; gates := gates s; TGT := TGT s;
           trace := trace s ++ [EvByte 0x38; EvByte 0x00; EvByte 0x00; EvByte 0x00] |}).
Proof. unfold ICSP_readCalib. run. reflexivity. Qed.

Lemma ICSP_eraseChip_run (w : world) (s : machine) :
  ICSP_eraseChip w s =
  Some (tt, {| samples := 32 + samples s; gates := gates s; TGT := TGT s;
               trace := trace s ++ [EvByte 0xAC; EvByte 0x80; EvByte 0x00; EvByte 0x00] |}).
Proof. unfold ICSP_eraseChip. run. reflexivity. Qed.

Lemma ICSP_writeFuses_run (w : world) (s : machine) :
  ICSP_writeFuses w s =
  Some (tt, {| samples := 96 + samples s; gates := gates s; TGT := TGT s;
               trace := trace s ++ [EvByte 0xAC; EvByte 0xA0; EvByte 0x00; EvByte (LFUSE (TGT s));
                                    EvByte 0xAC; EvByte 0xA8; EvByte 0x00; EvByte (HFUSE (TGT s));
                                    EvByte 0xAC; EvByte 0xA4; EvByte 0x00; EvByte (EFUSE (TGT s))] |}).
Proof. unfold ICSP_writeFuses. run. reflexivity. Qed.

Lemma ICSP_writeEEPROM_run (data : Z) (w : world) (s : machine) :
  ICSP_writeEEPROM 0 data w s =
  Some (tt, {| samples := 32 + samples s; gates := gates s; TGT := TGT s;
               trace := trace s ++ [EvByte 0xC0; EvByte 0x00; EvByte 0x00; EvByte data] |}).
Proof. unfold ICSP_writeEEPROM. run. reflexivity. Qed.

#[local] Hint Resolve ICSP_readSignature_run ICSP_readCalib_run ICSP_eraseChip_run
  ICSP_writeFuses_run ICSP_writeEEPROM_run : run.

Lemma store_run (data : Z) (w : world) (s : machine) :
  (ICSP_enterProgMode ;; ICSP_writeEEPROM 0 data ;; ICSP_exitProgMode) w s =
  Some (tt, {| samples := 64 + samples s; gates := gates s; TGT := TGT s;
               trace := trace s ++ store_events data |}).
Proof. run. reflexivity. Qed.

Lemma commit_run (lastcalib : Z) (w : world) (s : machine) :
  commit lastcalib w s =
  Some (tt, {| samples := 64 + samples s; gates := gates s; TGT := TGT s;
               trace := trace s ++ commit_events lastcalib |}).
Proof. unfold commit. run. reflexivity. Qed.

(** *** The target's side *)

Lemma target_ignores (t : target) (evs : list event) :
  Forall quiet evs -> fold_left target_step evs t = t.
Proof.
  induction 1 as [ | e evs He _ IH ]; [ reflexivity | ].
  cbn [fold_left].
  replace (target_step t e) with t; [ exact IH | ].
  destruct e; try reflexivity; contradiction.
Qed.

(** What the target holds after a store, whatever came before. *)
Lemma target_after_store (tr rest : list event) (data : Z) :
  Forall quiet rest ->
  target_after (tr ++ store_events data ++ rest) = {| buf := []; cell0 := data |}.
Proof.
  intros Hrest. unfold target_after. rewrite !fold_left_app.
  rewrite target_ignores by exact Hrest. reflexivity.
Qed.

(** ** The calibration process: one pass through the loop body *)

Section Pass.
Variables (w : world) (s : machine) (calib lastcalib difference : Z).

Let cell : Z := cell0 (target_after (trace s)).
Let frequency : Z := FRQ_read (gate_window (pulses w (gates s) cell)).
Let freq : Z := FREQ (TGT s).

Lemma calibration_pass (fuel : nat) :
  calibration (S fuel) calib lastcalib difference w s =
  if diff frequency freq >=? difference then
    Some ((lastcalib, difference),
          {| samples := samples s; gates := S (gates s); TGT := TGT s;
             trace := trace s ++ [EvGate cell frequency] |})
  else if diff frequency freq =? 0 then
    Some ((calib, diff frequency freq),
          {| samples := samples s; gates := S (gates s); TGT := TGT s;
             trace := trace s ++ [EvGate cell frequency; EvResult calib frequency] |})
  else
    calibration fuel (next_calib frequency freq calib) calib (diff frequency freq) w
      {| samples := 64 + samples s; gates := S (gates s); TGT := TGT s;
         trace := trace s ++ EvGate cell frequency :: EvResult calib frequency
                    :: store_events (next_calib frequency freq calib) |}.
Proof.
  subst cell frequency freq.
  cbn [calibration]. do 2 run_step.
  destruct (diff _ _ >=? difference); [ reflexivity | ].
  run_step.
  destruct (diff _ _ =? 0); [ run; reflexivity | ].
  run. reflexivity.
Qed.
End Pass.

(** ** One byte over the link *)

Lemma byte_cases (P : Z -> bool) :
  forallb P (map Z.of_nat (seq 0 256)) = true ->
  forall b, 0 <= b < 256 -> P b = true.
Proof.
  intros H b Hb. rewrite forallb_forall in H. apply H.
  apply in_map_iff. exists (Z.to_nat b). split; [ lia | ]. apply in_seq. lia.
Qed.

Lemma ICSP_transfer_checked (line : nat -> bool) (k : nat) (byte : Z) :
  0 <= byte < 256 ->
  (byte_of_levels (ICSP_mosi 8 byte line k) =? byte)
  && (ICSP_shift 8 byte line k =? byte_of_levels (map line (seq k 8))) = true.
Proof.
  cbn [ICSP_mosi ICSP_shift map seq].
  generalize (line k), (line (S k)), (line (S (S k))), (line (S (S (S k)))),
    (line (S (S (S (S k))))), (line (S (S (S (S (S k)))))),
    (line (S (S (S (S (S (S k))))))), (line (S (S (S (S (S (S (S k)))))))).
  intros l0 l1 l2 l3 l4 l5 l6 l7. revert byte.
  destruct l0, l1, l2, l3, l4, l5, l6, l7; apply byte_cases; vm_compute; reflexivity.
Qed.

(** What [ICSP_sendByte] does on the wires: the eight levels it drives on
    MOSI spell out [byte], most significant bit first, and the value it
    returns is spelt by the eight levels it samples on MISO. *)
Lemma ICSP_transfer (line : nat -> bool) (k : nat) (byte : Z) :
  0 <= byte < 256 ->
  byte_of_levels (ICSP_mosi 8 byte line k) = byte
  /\ ICSP_shift 8 byte line k = byte_of_levels (map line (seq k 8)).
Proof.
  intros Hb. pose proof (ICSP_transfer_checked line k byte Hb) as H.
  apply andb_true_iff in H. destruct H as (H1 & H2). split; lia.
Qed.

(** ** The calibration process: its runs *)

Lemma diff_range (a b : Z) : 0 <= diff a b < 65536.
Proof. unfold diff. destruct (a >? b); apply u16_range. Qed.

Lemma diff_abs (a b : Z) :
  0 <= a < 65536 -> 0 <= b < 65536 -> diff a b = Z.abs (a - b).
Proof.
  intros Ha Hb. unfold diff.
  destruct (Z.gtb_spec a b); rewrite u16_small; lia.
Qed.

Lemma visits_app (a b : list event) : visits (a ++ b) = visits a ++ visits b.
Proof.
  induction a as [ | e a IH ]; [ reflexivity | ].
  destruct e; cbn [app visits]; rewrite IH; reflexivity.
Qed.

Lemma records_app (a b : list event) : records (a ++ b) = records a ++ records b.
Proof.
  induction a as [ | e a IH ]; [ reflexivity | ].
  destruct e; cbn [app records]; rewrite IH; reflexivity.
Qed.

(** Every pass either leaves the loop or goes on with a strictly smaller,
    nonnegative [difference]. *)
Lemma calibration_progress (w : world) (s : machine) (calib lastcalib difference : Z) :
  (exists r s', forall fuel,
      calibration (S fuel) calib lastcalib difference w s = Some (r, s'))
  \/ (exists calib' difference' s',
         0 <= difference' < difference /\
         forall fuel, calibration (S fuel) calib lastcalib difference w s
                      = calibration fuel calib' calib difference' w s').
Proof.
  set (f := FRQ_read (gate_window (pulses w (gates s) (cell0 (target_after (trace s)))))).
  destruct (Z.geb_spec (diff f (FREQ (TGT s))) difference) as [ Hge | Hlt ].
  - left. do 2 eexists. intros fuel. rewrite calibration_pass. fold f.
    destruct (Z.geb_spec (diff f (FREQ (TGT s))) difference); [ reflexivity | lia ].
  - destruct (Z.eqb_spec (diff f (FREQ (TGT s))) 0) as [ H0 | Hn0 ].
    + left. do 2 eexists. intros fuel. rewrite calibration_pass. fold f.
      destruct (Z.geb_spec (diff f (FREQ (TGT s))) difference); [ lia | ].
      destruct (Z.eqb_spec (diff f (FREQ (TGT s))) 0); [ reflexivity | lia ].
    + right. exists (next_calib f (FREQ (TGT s)) calib), (diff f (FREQ (TGT s))).
      eexists. split; [ pose proof (diff_range f (FREQ (TGT s))); lia | ].
      intros fuel. rewrite calibration_pass. fold f.
      destruct (Z.geb_spec (diff f (FREQ (TGT s))) difference); [ lia | ].
      destruct (Z.eqb_spec (diff f (FREQ (TGT s))) 0); [ lia | reflexivity ].
Qed.

(** With fuel above [difference] the process ends, and what it did is a run. *)
Lemma calibration_runs (w : world) (fuel : nat) :
  forall (calib lastcalib difference : Z) (s : machine),
    0 <= difference -> (Z.to_nat difference < fuel)%nat ->
    exists best final evs s',
      calibration fuel calib lastcalib difference w s = Some ((best, final), s')
      /\ trace s' = trace s ++ evs
      /\ TGT s' = TGT s
      /\ gates s' = (gates s + List.length (visits evs))%nat
      /\ cal_run (reads_in w) (FREQ (TGT s)) (cell0 (target_after (trace s)))
                 calib lastcalib difference evs best final.
Proof.
  induction fuel as [ | fuel IH ]; intros calib lastcalib difference s Hd Hfuel; [ lia | ].
  rewrite calibration_pass.
  set (cell := cell0 (target_after (trace s))).
  set (f := FRQ_read (gate_window (pulses w (gates s) cell))).
  set (F := FREQ (TGT s)).
  assert (Hreads : reads_in w cell f) by (exists (gates s); reflexivity).
  destruct (Z.geb_spec (diff f F) difference) as [ Hge | Hlt ].
  { exists lastcalib, difference, [EvGate cell f]. eexists.
    split; [ reflexivity | ]. cbn [trace TGT gates visits List.length].
    repeat split; [ lia | ]. apply run_worse; [ exact Hreads | lia ]. }
  destruct (Z.eqb_spec (diff f F) 0) as [ H0 | Hn0 ].
  { exists calib, (diff f F), [EvGate cell f; EvResult calib f]. eexists.
    split; [ reflexivity | ]. cbn [trace TGT gates visits List.length].
    repeat split; [ lia | ]. rewrite H0. apply run_exact; assumption. }
  pose proof (diff_range f F) as Hrange.
  set (calib' := next_calib f F calib).
  match goal with |- context [calibration fuel _ _ _ w ?m] => set (s2 := m) end.
  destruct (IH calib' calib (diff f F) s2) as (best & final & evs & s' & Hrun & Htr & HT & Hg & Hcal);
    [ lia | lia | ].
  assert (Hcell : cell0 (target_after (trace s2)) = calib').
  { subst s2. cbn [trace].
    change (trace s ++ EvGate cell f :: EvResult calib f :: store_events calib')
      with (trace s ++ [EvGate cell f; EvResult calib f] ++ store_events calib').
    rewrite app_assoc, <- (app_nil_r (store_events calib')), target_after_store;
      [ reflexivity | constructor ]. }
  rewrite Hcell in Hcal.
  exists best, final, (EvGate cell f :: EvResult calib f :: store_events calib' ++ evs), s'.
  split; [ exact Hrun | ].
  split.
  { rewrite Htr. subst s2. cbn [trace]. rewrite <- app_assoc. reflexivity. }
  split; [ rewrite HT; reflexivity | ].
  split.
  { rewrite Hg. subst s2. cbn [gates visits List.length].
    rewrite visits_app. cbn [store_events visits app List.length]. lia. }
  apply run_next; assumption.
Qed.

Section Runs.
Variables (reads : Z -> Z -> Prop) (freq : Z).

Lemma run_final cell calib lastcalib difference evs best final :
  cal_run reads freq cell calib lastcalib difference evs best final ->
  0 <= difference -> 0 <= final <= difference.
Proof.
  induction 1 as [ | | ? ? ? ? f ? ? ? ? ? ? ? IH ]; intros Hd; try lia.
  pose proof (diff_range f freq). specialize (IH ltac:(lia)). lia.
Qed.

(** The number of measurements of a run. *)
Lemma run_length cell calib lastcalib difference evs best final :
  cal_run reads freq cell calib lastcalib difference evs best final ->
  0 <= difference -> Z.of_nat (List.length (visits evs)) <= difference + 1.
Proof.
  induction 1 as [ | | ? ? ? ? f ? ? ? ? ? ? ? IH ]; intros Hd;
    cbn [visits List.length]; try lia.
  rewrite visits_app. cbn [store_events visits app].
  pose proof (diff_range f freq). specialize (IH ltac:(lia)). lia.
Qed.

(** No trial measured in a run deviates less than the final [difference]. *)
Lemma run_least cell calib lastcalib difference evs best final :
  cal_run reads freq cell calib lastcalib difference evs best final ->
  forall v, In v (visits evs) -> final <= deviation freq v.
Proof.
  induction 1 as [ ? ? ? ? f | ? ? ? ? f | ? ? ? ? f ? ? ? ? ? ? Hrun IH ];
    intros v Hv; cbn [visits] in Hv.
  - destruct Hv as [ <- | [] ]. unfold deviation; cbn [snd]. lia.
  - destruct Hv as [ <- | [] ]. unfold deviation; cbn [snd]. lia.
  - rewrite visits_app in Hv. cbn [store_events visits app] in Hv.
    destruct Hv as [ <- | Hv ]; [ | exact (IH v Hv) ].
    unfold deviation; cbn [snd].
    pose proof (diff_range f freq).
    pose proof (run_final _ _ _ _ _ _ _ Hrun ltac:(lia)). lia.
Qed.

(** The trials recorded as best deviate less and less. *)
Lemma run_descends cell calib lastcalib difference evs best final :
  cal_run reads freq cell calib lastcalib difference evs best final ->
  descending difference (map (deviation freq) (records evs)).
Proof.
  induction 1 as [ | ? ? ? ? f | ? ? ? ? f ? ? ? ? ? ? ? IH ];
    cbn [records map descending].
  - exact I.
  - split; [ assumption | exact I ].
  - rewrite records_app. cbn [store_events records app].
    split; [ assumption | exact IH ].
Qed.

(** Every measurement of a run is one the world can produce. *)
Lemma run_reads cell calib lastcalib difference evs best final :
  cal_run reads freq cell calib lastcalib difference evs best final ->
  forall c f, In (c, f) (visits evs) -> reads c f.
Proof.
  induction 1 as [ | | ? ? ? ? ? ? ? ? ? ? ? ? IH ]; intros c f Hv; cbn [visits] in Hv.
  - destruct Hv as [ [= <- <-] | [] ]. assumption.
  - destruct Hv as [ [= <- <-] | [] ]. assumption.
  - rewrite visits_app in Hv. cbn [store_events visits app] in Hv.
    destruct Hv as [ [= <- <-] | Hv ]; [ assumption | exact (IH c f Hv) ].
Qed.

(** A run whose trial is in the cell measures what it records. *)
Lemma run_records_visited cell calib lastcalib difference evs best final :
  cal_run reads freq cell calib lastcalib difference evs best final ->
  cell = calib -> incl (records evs) (visits evs).
Proof.
  induction 1 as [ | | ? ? ? ? ? ? ? ? ? ? ? ? IH ]; intros -> v Hv;
    cbn [records visits] in *.
  - destruct Hv.
  - exact Hv.
  - rewrite records_app in Hv. rewrite visits_app.
    cbn [store_events records visits app] in *.
    destruct Hv as [ <- | Hv ]; [ left; reflexivity | right ].
    apply IH; [ reflexivity | exact Hv ].
Qed.

(** Either the first measurement was no better than [difference] and
    nothing changed, or the best trial was recorded with the final
    [difference] as its deviation. *)
Lemma run_best cell calib lastcalib difference evs best final :
  cal_run reads freq cell calib lastcalib difference evs best final ->
  (exists f, evs = [EvGate cell f] /\ best = lastcalib /\ final = difference
             /\ difference <= diff f freq)
  \/ (exists f, In (best, f) (records evs) /\ diff f freq = final /\ final < difference).
Proof.
  induction 1 as [ ? ? ? ? f | ? ? ? ? f | ? ? ? ? f ? ? ? ? ? ? ? IH ].
  - left. exists f. repeat split. lia.
  - right. exists f. cbn [records]. repeat split; [ left; reflexivity | lia | lia ].
  - right. cbn [records]. rewrite records_app. cbn [store_events records app].
    destruct IH as [ (f' & -> & -> & -> & _) | (f' & Hin & Hdev & Hlt) ].
    + exists f. repeat split; [ left; reflexivity | assumption ].
    + exists f'. repeat split; [ right; exact Hin | exact Hdev | lia ].
Qed.

(** A run that starts with its trial in the cell ends with a trial it
    measured, and none it measured deviates less. *)
Lemma run_minimal calib difference evs best final :
  cal_run reads freq calib calib calib difference evs best final ->
  exists f, In (best, f) (visits evs)
            /\ forall v, In v (visits evs) -> diff f freq <= deviation freq v.
Proof.
  intros Hrun.
  destruct (run_best _ _ _ _ _ _ _ Hrun) as [ (f & -> & -> & -> & Hle) | (f & Hin & Hdev & _) ].
  - exists f. cbn [visits]. split; [ left; reflexivity | ].
    intros v [ <- | [] ]. unfold deviation; cbn [snd]. lia.
  - exists f. split.
    + apply (run_records_visited _ _ _ _ _ _ _ Hrun eq_refl). exact Hin.
    + intros v Hv. rewrite Hdev. exact (run_least _ _ _ _ _ _ _ Hrun v Hv).
Qed.
End Runs.

(** ** The calibration search *)

Lemma registry_freq (t : TGT_TYPE) : In t TGTs -> 8000 <= FREQ t <= 9600.
Proof.
  intros Ht. simpl in Ht.
  repeat (destruct Ht as [ <- | Ht ]; [ cbn [FREQ mkTGT]; lia | ]). contradiction.
Qed.

Lemma bound_fuel (fuel : nat) (difference : Z) :
  (calibration_bound <= fuel)%nat -> difference <= 65535 ->
  (Z.to_nat difference < fuel)%nat.
Proof. unfold calibration_bound. lia. Qed.

(** The calibration process and the final write, started with the trial in
    the target: on a target whose frequency is a function [g] of the byte in
    its EEPROM cell 0, the value written last is a trial that was measured,
    none that was measured deviates less, and the trials recorded as best
    have strictly descending deviations. *)
Lemma calibrate_best
    (w : world) (g : Z -> N) (s : machine) (calib : Z) (fuel : nat) :
  (forall n c, pulses w n c = g c) ->
  (calibration_bound <= fuel)%nat ->
  cell0 (target_after (trace s)) = calib ->
  let dev c := diff (FRQ_read (gate_window (g c))) (FREQ (TGT s)) in
  exists best evs s',
    calibrate fuel calib w s = Some (best, s')
    /\ trace s' = trace s ++ evs ++ commit_events best
    /\ cell0 (target_after (trace s')) = best
    /\ In best (map fst (visits evs))
    /\ (forall c, In c (map fst (visits evs)) -> dev best <= dev c)
    /\ descending 65535 (map (deviation (FREQ (TGT s))) (records evs)).
Proof.
  intros Hg Hfuel Hcell dev.
  destruct (calibration_runs w fuel calib calib 65535 s)
    as (best & final & evs & s1 & Hrun & Htr & HT & _ & Hcal);
    [ lia | apply bound_fuel; [ exact Hfuel | lia ] | ].
  rewrite Hcell in Hcal.
  assert (Hdev : forall c f, In (c, f) (visits evs) -> diff f (FREQ (TGT s)) = dev c).
  { intros c f Hv. destruct (run_reads _ _ _ _ _ _ _ _ _ Hcal c f Hv) as (n & ->).
    rewrite Hg. reflexivity. }
  destruct (run_minimal _ _ _ _ _ _ _ Hcal) as (f & Hin & Hmin).
  exists best, evs. eexists.
  split.
  { unfold calibrate. erewrite bind_run by exact Hrun. cbn [fst].
    erewrite bind_run by apply commit_run. reflexivity. }
  cbn [trace]. rewrite Htr, <- app_assoc.
  split; [ reflexivity | ].
  split.
  { unfold commit_events. rewrite (app_assoc (trace s)), target_after_store; [ reflexivity | ].
    repeat constructor. }
  split.
  { apply (in_map fst) in Hin. exact Hin. }
  split.
  { intros c Hc. apply in_map_iff in Hc. destruct Hc as ((c', f') & <- & Hv). cbn [fst].
    rewrite <- (Hdev _ _ Hin), <- (Hdev _ _ Hv). exact (Hmin _ Hv). }
  exact (run_descends _ _ _ _ _ _ _ _ _ Hcal).
Qed.

(** C3, as the code has it.  Away from the two ends the next trial is one
    step from the current one, down when the measured frequency is above the
    expected one and up otherwise, and it is always a byte. *)
Theorem next_calib_steps (frequency freq calib : Z) :
  0 <= calib < 256 ->
  0 <= next_calib frequency freq calib < 256
  /\ (frequency > freq -> 0 < calib -> next_calib frequency freq calib = calib - 1)
  /\ (frequency <= freq -> calib < 255 -> next_calib frequency freq calib = calib + 1).
Proof.
  intros Hc. unfold next_calib.
  split; [ destruct (frequency >? freq); apply u8_range | ].
  split; intros Hf Hb; destruct (Z.gtb_spec frequency freq); try lia;
    apply u8_small; lia.
Qed.

Lemma next_calib_steps_witness :
  next_calib 8100 8000 0x80 = 0x7F /\ next_calib 7900 8000 0x80 = 0x81.
Proof.
  destruct (next_calib_steps 8100 8000 0x80 ltac:(lia)) as (_ & Hdown & _).
  destruct (next_calib_steps 7900 8000 0x80 ltac:(lia)) as (_ & _ & Hup).
  split; [ apply Hdown; lia | apply Hup; lia ].
Defined.

(** C3 as stated fails: a trial of 0 is decremented to 255 and a trial of 255
    is incremented to 0, and the loop stores such a trial in the target: with
    trial 0 and a target stuck at 8100 kHz it writes 255 to EEPROM address 0
    before it gives up. *)
Lemma next_calib_wraps :
  next_calib 8100 8000 0 = 255 /\ next_calib 7900 8000 255 = 0
  /\ exists s', calibration 2 0 0 65535 bench_high (programmed 0) = Some ((0, 100), s')
                /\ trace s' = trace (programmed 0)
                              ++ EvGate 0 8100 :: EvResult 0 8100
                                 :: store_events 255 ++ [EvGate 255 8100].
Proof.
  split; [ reflexivity | ]. split; [ reflexivity | ].
  eexists. split; vm_compute; reflexivity.
Qed.

(** The calibration process and the final write when the first reading is
    the expected frequency exactly. *)
Lemma calibrate_exact (w : world) (s : machine) (calib : Z) (fuel : nat) :
  let cell := cell0 (target_after (trace s)) in
  let frequency := FRQ_read (gate_window (pulses w (gates s) cell)) in
  diff frequency (FREQ (TGT s)) = 0 ->
  exists s',
    calibrate (S fuel) calib w s = Some (calib, s')
    /\ gates s' = S (gates s)
    /\ trace s' = trace s ++ [EvGate cell frequency; EvResult calib frequency]
                          ++ commit_events calib
    /\ instructions ([EvGate cell frequency; EvResult calib frequency]
                       ++ commit_events calib)
       = [(0xAC, 0x53, 0x00, 0x00); (0xC0, 0x00, 0x00, calib)]
    /\ cell0 (target_after (trace s')) = calib.
Proof.
  intros cell frequency H0.
  eexists. split.
  { unfold calibrate. erewrite bind_run.
    2:{ rewrite calibration_pass. fold cell frequency. rewrite H0.
        change (0 >=? 65535) with false. cbv iota. change (0 =? 0) with true. cbv iota.
        reflexivity. }
    cbn [fst]. erewrite bind_run by apply commit_run. reflexivity. }
  cbn [gates trace]. rewrite <- app_assoc.
  split; [ reflexivity | ]. split; [ reflexivity | ]. split; [ reflexivity | ].
  unfold commit_events.
  rewrite (app_assoc (trace s)), target_after_store; [ reflexivity | repeat constructor ].
Qed.

(** No reading deviates from a registry frequency by the seed 65535 or
    more. *)
Lemma seed_above (n : N) (t : TGT_TYPE) :
  In t TGTs -> diff (FRQ_read (gate_window n)) (FREQ t) < 65535.
Proof.
  intros Ht. pose proof (registry_freq t Ht). pose proof (FRQ_read_range n).
  unfold diff. destruct (Z.gtb_spec (FRQ_read (gate_window n)) (FREQ t));
    rewrite u16_small; lia.
Qed.

(** A run starts with the measurement of what is in the cell. *)
Lemma run_head reads freq cell calib lastcalib difference evs best final :
  cal_run reads freq cell calib lastcalib difference evs best final ->
  exists frequency rest, evs = EvGate cell frequency :: rest.
Proof. destruct 1; do 2 eexists; reflexivity. Qed.

(** The first pass from the seed on a registry target, whatever [lastcalib]
    holds: the loop is not left at its first exit; the trial becomes
    [lastcalib] and its deviation becomes [difference]. *)
Lemma calibration_seed_pass
    (w : world) (s : machine) (calib lastcalib : Z) (fuel : nat) :
  In (TGT s) TGTs ->
  let cell := cell0 (target_after (trace s)) in
  let frequency := FRQ_read (gate_window (pulses w (gates s) cell)) in
  let first := diff frequency (FREQ (TGT s)) in
  calibration (S fuel) calib lastcalib 65535 w s =
  if first =? 0 then
    Some ((calib, first),
          {| samples := samples s; gates := S (gates s); TGT := TGT s;
             trace := trace s ++ [EvGate cell frequency; EvResult calib frequency] |})
  else
    calibration fuel (next_calib frequency (FREQ (TGT s)) calib) calib first w
      {| samples := 64 + samples s; gates := S (gates s); TGT := TGT s;
         trace := trace s ++ EvGate cell frequency :: EvResult calib frequency
                    :: store_events (next_calib frequency (FREQ (TGT s)) calib) |}.
Proof.
  intros HT cell frequency first.
  pose proof (seed_above (pulses w (gates s) cell) (TGT s) HT) as Hlt.
  rewrite calibration_pass. fold cell frequency first. fold frequency first in Hlt.
  destruct (Z.geb_spec first 65535) as [ Hge | _ ]; [ lia | reflexivity ].
Qed.

(** The calibration process from the seed on a registry target: the first
    trial is recorded, the loop goes on to a second measurement unless the
    first deviation is 0, and what it returns is a recorded trial that
    deviates no more than the first. *)
Lemma calibration_first
    (w : world) (s : machine) (calib lastcalib : Z) (fuel : nat) :
  In (TGT s) TGTs ->
  (calibration_bound <= fuel)%nat ->
  let cell := cell0 (target_after (trace s)) in
  let frequency := FRQ_read (gate_window (pulses w (gates s) cell)) in
  let first := diff frequency (FREQ (TGT s)) in
  let calib' := next_calib frequency (FREQ (TGT s)) calib in
  exists best final evs s',
    calibration fuel calib lastcalib 65535 w s = Some ((best, final), s')
    /\ trace s' = trace s ++ EvGate cell frequency :: EvResult calib frequency :: evs
    /\ final <= first
    /\ (first = 0 -> evs = [] /\ best = calib)
    /\ (first <> 0 ->
        exists frequency' evs', evs = store_events calib' ++ EvGate calib' frequency' :: evs')
    /\ (exists f, In (best, f) (records (EvResult calib frequency :: evs))
                  /\ diff f (FREQ (TGT s)) = final).
Proof.
  intros HT Hfuel cell frequency first calib'.
  destruct fuel as [ | fuel ]; [ unfold calibration_bound in Hfuel; lia | ].
  rewrite (calibration_seed_pass w s calib lastcalib fuel HT).
  fold cell frequency first calib'.
  destruct (Z.eqb_spec first 0) as [ H0 | Hn0 ].
  { exists calib, first, []. eexists.
    split; [ reflexivity | ]. split; [ reflexivity | ]. split; [ lia | ].
    split; [ intros _; split; reflexivity | ]. split; [ contradiction | ].
    exists frequency. split; [ left; reflexivity | reflexivity ]. }
  pose proof (diff_range frequency (FREQ (TGT s))) as Hrange. fold first in Hrange.
  pose proof (seed_above (pulses w (gates s) cell) (TGT s) HT) as Hlt.
  fold frequency first in Hlt.
  match goal with |- context [calibration fuel _ _ _ w ?m] => set (s2 := m) end.
  destruct (calibration_runs w fuel calib' calib first s2)
    as (best & final & evs & s' & Hrun & Htr & _ & _ & Hcal);
    [ lia | unfold calibration_bound in Hfuel; lia | ].
  assert (Hcell : cell0 (target_after (trace s2)) = calib').
  { subst s2. cbn [trace].
    change (trace s ++ EvGate cell frequency :: EvResult calib frequency :: store_events calib')
      with (trace s ++ [EvGate cell frequency; EvResult calib frequency] ++ store_events calib').
    rewrite app_assoc, <- (app_nil_r (store_events calib')), target_after_store;
      [ reflexivity | constructor ]. }
  rewrite Hcell in Hcal. change (FREQ (TGT s2)) with (FREQ (TGT s)) in Hcal.
  exists best, final, (store_events calib' ++ evs), s'.
  split; [ exact Hrun | ].
  split.
  { rewrite Htr. subst s2. cbn [trace]. rewrite <- app_assoc. reflexivity. }
  split; [ pose proof (run_final _ _ _ _ _ _ _ _ _ Hcal ltac:(lia)); lia | ].
  split; [ intros H0; contradiction | ].
  split.
  { intros _. destruct (run_head _ _ _ _ _ _ _ _ _ Hcal) as (frequency' & evs' & ->).
    exists frequency', evs'. reflexivity. }
  cbn [records]. rewrite records_app. cbn [store_events records app].
  destruct (run_best _ _ _ _ _ _ _ _ _ Hcal)
    as [ (f & _ & -> & -> & _) | (f & Hin & Hdev & _) ].
  - exists frequency. split; [ left; reflexivity | reflexivity ].
  - exists f. split; [ right; exact Hin | exact Hdev ].
Qed.

(** ** Sessions *)

Lemma start_screen_run (w : world) (s : machine) :
  start_screen w s =
  Some (tt, {| samples := samples s; gates := gates s; TGT := TGT s;
               trace := trace s ++ start_events |}).
Proof. unfold start_screen. run. reflexivity. Qed.

Lemma identify_run (w : world) (s : machine) :
  identify w s =
  Some ((if ICSP_shift 8 0 (miso w) (16 + samples s) =? 0x53 then 1 else 0,
         Z.lor (u16 (Z.shiftl (ICSP_shift 8 0 (miso w) (56 + samples s)) 8))
               (ICSP_shift 8 0 (miso w) (88 + samples s))),
        {| samples := 96 + samples s; gates := gates s; TGT := TGT s;
           trace := trace s ++ identify_events |}).
Proof. unfold identify. run. reflexivity. Qed.

#[local] Hint Resolve start_screen_run identify_run : run.

Lemma session_identify (w : world) (s : machine) :
  (start_screen ;; identify) w s =
  Some ((session_entered w s, session_signature w s),
        {| samples := 96 + samples s; gates := gates s; TGT := TGT s;
           trace := trace s ++ start_events ++ identify_events |}).
Proof.
  unfold session_entered, session_signature.
  erewrite bind_run by apply start_screen_run.
  rewrite identify_run. cbn [samples gates TGT trace]. rewrite <- app_assoc. reflexivity.
Qed.

Lemma session_entered_echo (w : world) (s : machine) :
  session_entered w s = if ICSP_shift 8 0 (miso w) (16 + samples s) =? 0x53 then 1 else 0.
Proof.
  unfold session_entered. erewrite bind_run by apply start_screen_run.
  rewrite identify_run. reflexivity.
Qed.

Lemma lookup_none_target (signature : Z) :
  lookup signature = None -> find_target signature TGTs 0 = TGT_LENGTH.
Proof.
  rewrite lookup_is_find. intros H.
  pose proof (find_target_first signature TGTs 0) as Hscan. rewrite H in Hscan.
  exact Hscan.
Qed.

(** A session on a device that is not in the registry. *)
Lemma session_unsupported (w : world) (s : machine) (fuel : nat) :
  lookup (session_signature w s) = None ->
  main_session fuel w s =
  Some (tt, {| samples := 96 + samples s; gates := gates s; TGT := TGT s;
               trace := trace s ++ start_events ++ identify_events ++ unsupported_events |}).
Proof.
  intros Hnone. apply lookup_none_target in Hnone.
  pose proof (session_identify w s) as Hid.
  erewrite bind_run in Hid by apply start_screen_run. cbn [samples gates TGT trace] in Hid.
  unfold main_session.
  erewrite bind_run by apply start_screen_run. cbn [samples gates TGT trace].
  erewrite bind_run by exact Hid. cbn [snd].
  rewrite Hnone. change (TGT_LENGTH =? TGT_LENGTH) with true. cbv iota.
  run. reflexivity.
Qed.

Lemma target_untouched (tr : list event) :
  cell0 (target_after (tr ++ start_events ++ identify_events ++ unsupported_events))
  = cell0 (target_after tr).
Proof. unfold target_after. rewrite fold_left_app. reflexivity. Qed.

Lemma unsupported_instructions :
  instructions (start_events ++ identify_events ++ unsupported_events)
  = [(0xAC, 0x53, 0x00, 0x00); (0x30, 0x00, 0x01, 0x00); (0x30, 0x00, 0x02, 0x00)].
Proof. vm_compute. reflexivity. Qed.

Lemma unsupported_harmless :
  Forall (fun i => is_memory_write i = false)
         (instructions (start_events ++ identify_events ++ unsupported_events)).
Proof. rewrite unsupported_instructions. repeat constructor. Qed.

(** C7.  When the signature read matches no registry entry the session is
    closed, the unsupported device is reported and the controller is back at
    the start: the link carried the enable command and the two signature
    reads and nothing else, so no chip erase, fuse write, flash write or
    EEPROM write, and the target's EEPROM cell is what it was. *)
Theorem unsupported_device (w : world) (s : machine) (fuel : nat) :
  lookup (session_signature w s) = None ->
  exists s',
    main_session fuel w s = Some (tt, s')
    /\ trace s' = trace s ++ start_events ++ identify_events ++ unsupported_events
    /\ instructions (start_events ++ identify_events ++ unsupported_events)
       = [(0xAC, 0x53, 0x00, 0x00); (0x30, 0x00, 0x01, 0x00); (0x30, 0x00, 0x02, 0x00)]
    /\ Forall (fun i => is_memory_write i = false)
              (instructions (start_events ++ identify_events ++ unsupported_events))
    /\ cell0 (target_after (trace s')) = cell0 (target_after (trace s))
    /\ TGT s' = TGT s.
Proof.
  intros Hnone. eexists.
  split; [ apply session_unsupported; exact Hnone | ].
  cbn [trace TGT].
  split; [ reflexivity | ]. split; [ exact unsupported_instructions | ].
  split; [ exact unsupported_harmless | ].
  split; [ apply target_untouched | reflexivity ].
Qed.

Lemma unsupported_device_witness :
  exists s', main_session 0 bench_open initial = Some (tt, s')
             /\ cell0 (target_after (trace s')) = 0xFF.
Proof.
  destruct (unsupported_device bench_open initial 0 eq_refl) as (s' & Hrun & _ & _ & _ & Hcell & _).
  exists s'. split; [ exact Hrun | exact Hcell ].
Defined.

(** C1, as the code has it.  When the echoed third byte is not 0x53,
    [ICSP_enterProgMode] returns 0, in the session as anywhere, and that
    value is all that surfaces: [main] does not look at it, and the two
    signature reads are issued all the same.  The session is then closed
    without any erase, fuse write, flash write or EEPROM write provided the
    signature read back matches no registry entry. *)
Theorem failed_handshake (w : world) (s : machine) (fuel : nat) :
  ICSP_shift 8 0 (miso w) (16 + samples s) <> 0x53 ->
  (exists s0, ICSP_enterProgMode w s = Some (0, s0))
  /\ session_entered w s = 0
  /\ (exists s1, (start_screen ;; identify) w s = Some ((0, session_signature w s), s1)
                 /\ trace s1 = trace s ++ start_events ++ identify_events
                 /\ filter is_read_signature (instructions (start_events ++ identify_events))
                    = [(0x30, 0x00, 0x01, 0x00); (0x30, 0x00, 0x02, 0x00)])
  /\ (lookup (session_signature w s) = None ->
      exists s', main_session fuel w s = Some (tt, s')
                 /\ trace s' = trace s ++ start_events ++ identify_events ++ unsupported_events
                 /\ Forall (fun i => is_memory_write i = false)
                           (instructions (start_events ++ identify_events ++ unsupported_events))).
Proof.
  intros Hecho.
  assert (Hfail : session_entered w s = 0).
  { rewrite session_entered_echo.
    destruct (Z.eqb_spec (ICSP_shift 8 0 (miso w) (16 + samples s)) 0x53);
      [ contradiction | reflexivity ]. }
  split.
  { rewrite ICSP_enterProgMode_run.
    destruct (Z.eqb_spec (ICSP_shift 8 0 (miso w) (16 + samples s)) 0x53);
      [ contradiction | eexists; reflexivity ]. }
  split; [ exact Hfail | ].
  split.
  { eexists. split; [ rewrite session_identify, Hfail; reflexivity | ].
    split; reflexivity. }
  intros Hnone. eexists.
  split; [ apply session_unsupported; exact Hnone | ].
  split; [ reflexivity | exact unsupported_harmless ].
Qed.

Lemma failed_handshake_witness :
  session_entered bench_open initial = 0
  /\ exists s', main_session 0 bench_open initial = Some (tt, s').
Proof.
  assert (Hecho : ICSP_shift 8 0 (miso bench_open) (16 + samples initial) <> 0x53)
    by (vm_compute; lia).
  destruct (failed_handshake bench_open initial 0 Hecho) as (_ & Hfail & _ & Hclosed).
  split; [ exact Hfail | ].
  destruct (Hclosed eq_refl) as (s' & Hrun & _).
  exists s'. exact Hrun.
Defined.

(** C1 as stated fails: on this bench the echo of the enable command is wrong,
    [ICSP_enterProgMode] returns 0, and the session goes on to read the
    signature, erase the chip, write the fuses, the flash and the EEPROM. *)
Lemma handshake_ignored :
  session_entered bench_no_echo initial = 0
  /\ exists s',
       main_session 1 bench_no_echo initial = Some (tt, s')
       /\ existsb is_read_signature (instructions (trace s')) = true
       /\ existsb is_chip_erase (instructions (trace s')) = true
       /\ existsb is_fuse_write (instructions (trace s')) = true
       /\ existsb is_flash_write (instructions (trace s')) = true
       /\ existsb is_eeprom_write (instructions (trace s')) = true.
Proof.
  split; [ vm_compute; reflexivity | ].
  eexists. split; [ vm_compute; reflexivity | ].
  repeat split; vm_compute; reflexivity.
Qed.

(** ** Flash programming *)

Lemma land_page (pagesize x : Z) :
  In pagesize [1; 2; 4; 8; 16; 32; 64; 128] ->
  Z.land x (pagesize - 1) = x mod pagesize.
Proof.
  intros Hps. simpl in Hps.
  destruct Hps as [ <- | [ <- | [ <- | [ <- | [ <- | [ <- | [ <- | [ <- | [] ] ] ] ] ] ] ] ].
  - change (1 - 1) with (Z.ones 0). rewrite Z.land_ones by lia. reflexivity.
  - change (2 - 1) with (Z.ones 1). rewrite Z.land_ones by lia. reflexivity.
  - change (4 - 1) with (Z.ones 2). rewrite Z.land_ones by lia. reflexivity.
  - change (8 - 1) with (Z.ones 3). rewrite Z.land_ones by lia. reflexivity.
  - change (16 - 1) with (Z.ones 4). rewrite Z.land_ones by lia. reflexivity.
  - change (32 - 1) with (Z.ones 5). rewrite Z.land_ones by lia. reflexivity.
  - change (64 - 1) with (Z.ones 6). rewrite Z.land_ones by lia. reflexivity.
  - change (128 - 1) with (Z.ones 7). rewrite Z.land_ones by lia. reflexivity.
Qed.

Lemma page_positive (pagesize : Z) :
  In pagesize [1; 2; 4; 8; 16; 32; 64; 128] -> 0 < pagesize <= 128.
Proof.
  intros Hps. simpl in Hps.
  repeat (destruct Hps as [ <- | Hps ]; [ lia | ]). contradiction.
Qed.

Lemma hi_lo (addr : Z) : 0 <= addr < 65536 -> 256 * hi addr + lo addr = addr.
Proof.
  intros Ha. unfold hi, lo, u8. rewrite Z.shiftr_div_pow2 by lia.
  change (2 ^ 8) with 256. Z.div_mod_to_equations. lia.
Qed.

Lemma instructions_bytes_of (l : list instr) : instructions (bytes_of l) = l.
Proof.
  unfold instructions. induction l as [ | [ [ [ b1 b2 ] b3 ] b4 ] l IH ]; [ reflexivity | ].
  cbn [bytes_of flat_map app instructions_from]. fold (bytes_of l). rewrite IH. reflexivity.
Qed.

Lemma bytes_of_app (a b : list instr) : bytes_of (a ++ b) = bytes_of a ++ bytes_of b.
Proof. unfold bytes_of. apply flat_map_app. Qed.

(** The loop sends the words the design lists. *)
Lemma writeFlash_loop_run (w : world) (pagesize : Z) (prog : list Z) (fuel : nat) :
  In pagesize [1; 2; 4; 8; 16; 32; 64; 128] ->
  forall (n : nat) (addr : Z) (p : nat) (s : machine),
    (n < fuel)%nat -> 0 <= addr -> addr + Z.of_nat n + 1 < 65536 ->
    exists s',
      writeFlash_loop fuel addr (Z.of_nat (S n)) p pagesize prog w s
      = Some (addr + Z.of_nat (S n), s')
      /\ trace s' = trace s ++ bytes_of (flash_words (S n) addr p pagesize prog)
      /\ TGT s' = TGT s /\ gates s' = gates s.
Proof.
  intros Hps. pose proof (page_positive _ Hps) as Hpos.
  induction fuel as [ | fuel IH ]; intros n addr p s Hfuel Ha Hend; [ lia | ].
  cbn [writeFlash_loop]. do 2 run_step.
  rewrite land_page by exact Hps.
  rewrite (u16_small (addr + 1)) by lia.
  replace (u16 (Z.of_nat (S n) - 1)) with (Z.of_nat n) by (rewrite u16_small; lia).
  cbn [flash_words].
  set (commit := if (addr + 1) mod pagesize =? 0
                 then [(76, hi (addr + 1 - pagesize), lo (addr + 1 - pagesize), 0)]
                 else []).
  assert (Hcommit : exists s1,
             (if (addr + 1) mod pagesize =? 0
              then ICSP_sendInstr 76 (u8 (Z.shiftr (u16 (addr + 1 - pagesize)) 8))
                     (u8 (addr + 1 - pagesize)) 0
              else ret tt) w
               {| samples := 32 + (32 + samples s); gates := gates s; TGT := TGT s;
                  trace := (trace s ++ [EvByte 64; EvByte (u8 (Z.shiftr addr 8)); EvByte (u8 addr);
                                        EvByte (pgm_read_byte prog p)])
                           ++ [EvByte 72; EvByte (u8 (Z.shiftr addr 8)); EvByte (u8 addr);
                               EvByte (pgm_read_byte prog (S p))] |}
             = Some (tt, s1)
             /\ trace s1 = trace s ++ bytes_of ((64, hi addr, lo addr, pgm_read_byte prog p)
                                               :: (72, hi addr, lo addr, pgm_read_byte prog (S p))
                                               :: commit)
             /\ TGT s1 = TGT s /\ gates s1 = gates s).
  { subst commit. destruct (Z.eqb_spec ((addr + 1) mod pagesize) 0) as [ Hz | Hnz ].
    - eexists. split; [ apply ICSP_sendInstr_run | ].
      cbn [trace TGT gates]. rewrite <- !app_assoc.
      assert (Hle : pagesize <= addr + 1).
      { apply Z.divide_pos_le; [ lia | ]. apply Z.mod_divide; [ lia | exact Hz ]. }
      rewrite (u16_small (addr + 1 - pagesize)) by lia.
      repeat split.
    - eexists. split; [ reflexivity | ].
      cbn [trace TGT gates]. rewrite <- !app_assoc. repeat split. }
  destruct Hcommit as (s1 & Hrun1 & Htr1 & HT1 & Hg1).
  erewrite bind_run by exact Hrun1.
  destruct n as [ | n ].
  - change (Z.of_nat 0 =? 0) with true. cbv iota.
    exists s1. split; [ unfold ret; do 2 f_equal; lia | ].
    cbn [flash_words]. rewrite app_nil_r. repeat split; assumption.
  - destruct (Z.eqb_spec (Z.of_nat (S n)) 0) as [ Hz | _ ]; [ lia | ].
    destruct (IH n (addr + 1) (S (S p)) s1) as (s' & Hrun & Htr & HT & Hg); [ lia | lia | lia | ].
    exists s'. split; [ rewrite Hrun; do 2 f_equal; lia | ].
    split; [ | split; congruence ].
    rewrite Htr, Htr1, <- app_assoc, <- bytes_of_app. reflexivity.
Qed.

Lemma ICSP_writeFlash_run (w : world) (s : machine) :
  flash_ready (TGT s) ->
  exists s',
    ICSP_writeFlash w s = Some (tt, s')
    /\ trace s' = trace s ++ bytes_of (flash_design (TGT s))
    /\ TGT s' = TGT s /\ gates s' = gates s.
Proof.
  intros (Hps & Hlen). pose proof (page_positive _ Hps) as Hpos.
  set (words := (PROG_LENGTH (TGT s) + 1) / 2).
  assert (Hwords : 1 <= words <= 128) by (subst words; Z.div_mod_to_equations; lia).
  assert (Hfuel : (Z.to_nat words - 1 < writeFlash_bound)%nat).
  { assert (128 < writeFlash_bound)%nat by (apply Nat.ltb_lt; vm_compute; reflexivity). lia. }
  destruct (writeFlash_loop_run w (PSIZE (TGT s)) (PROG (TGT s)) writeFlash_bound Hps
              (Z.to_nat words - 1) 0 0%nat s Hfuel)
    as (s1 & Hrun & Htr & HT & Hg); [ lia | lia | ].
  replace (Z.of_nat (S (Z.to_nat words - 1))) with words in Hrun by lia.
  replace (S (Z.to_nat words - 1)) with (Z.to_nat words) in Htr by lia.
  replace (0 + words) with words in Hrun by lia.
  assert (Hloop : forall s2,
             (if words mod PSIZE (TGT s) =? 0 then ret tt
              else ICSP_sendInstr 0x4C (u8 (Z.shiftr words 8)) (u8 words) 0x00) w s1
             = Some (tt, s2) ->
             ICSP_writeFlash w s = Some (tt, s2)).
  { intros s2 Hlast. unfold ICSP_writeFlash.
    erewrite bind_run by apply get_TGT_run.
    rewrite Z.shiftr_div_pow2 by lia. change (2 ^ 1) with 2. fold words.
    erewrite bind_run by exact Hrun.
    rewrite land_page by exact Hps. exact Hlast. }
  unfold flash_design. fold words. rewrite bytes_of_app.
  destruct (Z.eqb_spec (words mod PSIZE (TGT s)) 0) as [ Hz | Hnz ].
  - exists s1. split; [ apply Hloop; reflexivity | ].
    cbn [bytes_of flat_map]. rewrite app_nil_r. repeat split; assumption.
  - eexists. split; [ apply Hloop; apply ICSP_sendInstr_run | ].
    cbn [trace TGT gates]. rewrite Htr, <- app_assoc. repeat split; assumption.
Qed.

(** The word that fills a page is followed by the commit of that page. *)
Lemma flash_words_commit (pagesize : Z) (prog : list Z) (n : nat) :
  forall (addr : Z) (p : nat) (j : Z),
    addr <= j < addr + Z.of_nat n -> (j + 1) mod pagesize = 0 ->
    In (0x4C, hi (j + 1 - pagesize), lo (j + 1 - pagesize), 0x00)
       (flash_words n addr p pagesize prog).
Proof.
  induction n as [ | n IH ]; intros addr p j Hj Hfull; [ lia | ].
  cbn [flash_words]. do 2 right. apply in_or_app.
  destruct (Z.eq_dec j addr) as [ -> | Hne ].
  - left. rewrite Hfull. left. reflexivity.
  - right. apply IH; [ lia | exact Hfull ].
Qed.

(** Passing to the next word crosses a page boundary exactly when that word
    fills its page. *)
Lemma page_boundary (pagesize addr : Z) :
  In pagesize [1; 2; 4; 8; 16; 32; 64; 128] -> 0 <= addr ->
  (addr + 1) / pagesize - addr / pagesize
  = if (addr + 1) mod pagesize =? 0 then 1 else 0.
Proof.
  intros Hps Ha. simpl in Hps.
  destruct (Z.eqb_spec ((addr + 1) mod pagesize) 0) as [ Hz | Hnz ];
    repeat (destruct Hps as [ <- | Hps ]; [ Z.div_mod_to_equations; lia | ]);
    contradiction.
Qed.

(** The commits among the words sent: one for each page boundary passed. *)
Lemma flash_words_commits (pagesize : Z) (prog : list Z) (n : nat) :
  In pagesize [1; 2; 4; 8; 16; 32; 64; 128] ->
  forall (addr : Z) (p : nat),
    0 <= addr ->
    Z.of_nat (List.length (filter is_commit (flash_words n addr p pagesize prog)))
    = (addr + Z.of_nat n) / pagesize - addr / pagesize.
Proof.
  intros Hps.
  induction n as [ | n IH ]; intros addr p Ha.
  - cbn [flash_words filter List.length]. replace (addr + Z.of_nat 0) with addr by lia. lia.
  - cbn [flash_words filter is_commit].
    change (64 =? 76) with false. change (72 =? 76) with false. cbv iota.
    rewrite filter_app, length_app, Nat2Z.inj_add, IH by lia.
    replace (addr + Z.of_nat (S n)) with (addr + 1 + Z.of_nat n) by lia.
    pose proof (page_boundary pagesize addr Hps Ha) as Hb.
    destruct ((addr + 1) mod pagesize =? 0); cbn [filter is_commit List.length];
      [ change (76 =? 76) with true; cbv iota; cbn [List.length] | ]; lia.
Qed.

(** Every word of the image lies in a page the design commits. *)
Lemma flash_design_covers (t : TGT_TYPE) :
  flash_ready t ->
  forall a, 0 <= a < (PROG_LENGTH t + 1) / 2 ->
    exists i c, In i (flash_design t) /\ commit_address i = Some c
                /\ c / PSIZE t = a / PSIZE t.
Proof.
  intros (Hps & Hlen) a Ha. pose proof (page_positive _ Hps) as Hpos.
  unfold flash_design.
  set (words := (PROG_LENGTH t + 1) / 2) in *.
  assert (Hwords : 1 <= words <= 128) by (subst words; Z.div_mod_to_equations; lia).
  set (q := a / PSIZE t).
  assert (Hq : q * PSIZE t <= a < (q + 1) * PSIZE t).
  { subst q. Z.div_mod_to_equations. nia. }
  assert (Hq0 : 0 <= q * PSIZE t).
  { apply Z.mul_nonneg_nonneg; [ subst q; apply Z.div_pos | ]; lia. }
  clearbody q.
  destruct (Z_lt_le_dec ((q + 1) * PSIZE t - 1) words) as [ Hin | Hout ].
  - (* the page of [a] is filled: its commit follows its last word *)
    exists (0x4C, hi (q * PSIZE t), lo (q * PSIZE t), 0x00), (q * PSIZE t).
    split.
    { apply in_or_app. left.
      replace (q * PSIZE t) with ((q + 1) * PSIZE t - 1 + 1 - PSIZE t) by lia.
      apply flash_words_commit; [ lia | ].
      replace ((q + 1) * PSIZE t - 1 + 1) with ((q + 1) * PSIZE t) by lia.
      apply Z.mod_mul. lia. }
    split.
    { cbn [commit_address]. change (76 =? 76) with true. cbv iota.
      rewrite hi_lo by lia. reflexivity. }
    apply Z.div_mul. lia.
  - (* the page of [a] is the last, partial one *)
    assert (Hlast : words / PSIZE t = q /\ words mod PSIZE t <> 0).
    { split.
      - symmetry. apply (Z.div_unique words (PSIZE t) q (words - q * PSIZE t)); lia.
      - rewrite <- (Z.mod_unique words (PSIZE t) q (words - q * PSIZE t)); lia. }
    destruct Hlast as (Hdiv & Hmod).
    exists (0x4C, hi words, lo words, 0x00), words.
    split.
    { apply in_or_app. right.
      destruct (Z.eqb_spec (words mod PSIZE t) 0); [ contradiction | left; reflexivity ]. }
    split.
    { cbn [commit_address]. change (76 =? 76) with true. cbv iota.
      rewrite hi_lo by lia. reflexivity. }
    exact Hdiv.
Qed.

Lemma flash_design_commits (t : TGT_TYPE) :
  flash_ready t ->
  let words := (PROG_LENGTH t + 1) / 2 in
  Z.of_nat (List.length (filter is_commit (flash_design t)))
  = words / PSIZE t + (if words mod PSIZE t =? 0 then 0 else 1).
Proof.
  intros (Hps & Hlen) words. pose proof (page_positive _ Hps) as Hpos.
  unfold flash_design. fold words.
  assert (Hwords : 1 <= words <= 128) by (subst words; Z.div_mod_to_equations; lia).
  rewrite filter_app, length_app, Nat2Z.inj_add.
  rewrite (flash_words_commits _ _ _ Hps) by lia.
  replace (0 + Z.of_nat (Z.to_nat words)) with words by lia.
  rewrite Z.div_0_l by lia.
  destruct (words mod PSIZE t =? 0); cbn [filter is_commit List.length];
    [ | change (76 =? 76) with true; cbv iota; cbn [List.length] ]; lia.
Qed.

Lemma registry_flash_ready : Forall flash_ready TGTs.
Proof.
  repeat (constructor;
          [ split; [ cbn [PSIZE mkTGT]; simpl; repeat (first [ left; reflexivity | right ])
                   | cbn [PROG_LENGTH mkTGT]; lia ] | ]).
  constructor.
Qed.

(** C4.  For every descriptor of the registry, and for every descriptor
    with a power-of-two page size, aligned or not, [ICSP_writeFlash] sends
    the image as 16-bit words at addresses counted from zero, a page commit
    after every page filled, and exactly one more page commit when the number
    of words is not a multiple of the page size; every word of the image lies
    in a page that is committed. *)
Theorem writeFlash_commits_every_page :
  Forall flash_ready TGTs
  /\ forall (w : world) (s : machine),
       flash_ready (TGT s) ->
       let t := TGT s in
       let words := (PROG_LENGTH t + 1) / 2 in
       exists s',
         ICSP_writeFlash w s = Some (tt, s')
         /\ trace s' = trace s ++ bytes_of (flash_design t)
         /\ instructions (bytes_of (flash_design t)) = flash_design t
         /\ (forall a, 0 <= a < words ->
               exists i c, In i (flash_design t) /\ commit_address i = Some c
                           /\ c / PSIZE t = a / PSIZE t)
         /\ Z.of_nat (List.length (filter is_commit (flash_design t)))
            = words / PSIZE t + (if words mod PSIZE t =? 0 then 0 else 1).
Proof.
  split; [ exact registry_flash_ready | ].
  intros w s Hready t words.
  destruct (ICSP_writeFlash_run w s Hready) as (s' & Hrun & Htr & _).
  exists s'. split; [ exact Hrun | ]. split; [ exact Htr | ].
  split; [ apply instructions_bytes_of | ].
  split; [ exact (flash_design_covers t Hready) | exact (flash_design_commits t Hready) ].
Qed.

Lemma writeFlash_commits_every_page_witness :
  (exists s', ICSP_writeFlash bench_open (holding ATTINY84) = Some (tt, s')
              /\ trace s' = bytes_of (flash_design ATTINY84))
  /\ (exists s', ICSP_writeFlash bench_open (holding one_page) = Some (tt, s')
                 /\ trace s' = bytes_of (flash_design one_page)).
Proof.
  destruct writeFlash_commits_every_page as (_ & H).
  split.
  - destruct (H bench_open (holding ATTINY84)) as (s' & Hrun & Htr & _).
    + split; [ simpl; do 5 right; left; reflexivity | simpl; lia ].
    + exists s'. split; [ exact Hrun | exact Htr ].
  - destruct (H bench_open (holding one_page)) as (s' & Hrun & Htr & _).
    + split; [ simpl; do 5 right; left; reflexivity | simpl; lia ].
    + exists s'. split; [ exact Hrun | exact Htr ].
Defined.

(** ** Sessions on a supported device *)

(** Whole instructions leave the target between instructions. *)
Lemma target_instructions (l : list instr) (c : Z) :
  exists c', fold_left target_step (bytes_of l) {| buf := []; cell0 := c |}
             = {| buf := []; cell0 := c' |}.
Proof.
  revert c. induction l as [ | [ [ [ b1 b2 ] b3 ] b4 ] l IH ]; intros c.
  - exists c. reflexivity.
  - cbn [bytes_of flat_map app fold_left target_step buf cell0]. fold (bytes_of l).
    apply IH.
Qed.

Lemma program_run (w : world) (s : machine) :
  flash_ready (TGT s) ->
  exists s',
    program w s = Some (ICSP_shift 8 0 (miso w) (24 + samples s), s')
    /\ trace s' = trace s
                  ++ bytes_of (program_design (TGT s) (ICSP_shift 8 0 (miso w) (24 + samples s)))
                  ++ [EvRelease]
    /\ TGT s' = TGT s /\ gates s' = gates s.
Proof.
  intros Hready. unfold program. do 3 run_step.
  match goal with |- context [ICSP_writeFlash ;; ?k] =>
    match goal with |- context [bind _ _ w ?m] =>
      destruct (ICSP_writeFlash_run w m Hready) as (s1 & Hrun & Htr & HT & Hg)
    end
  end.
  erewrite bind_run by exact Hrun.
  run. cbn [trace TGT gates] in *.
  eexists. split; [ reflexivity | ].
  cbn [trace TGT gates]. rewrite Htr, HT, Hg.
  unfold program_design. rewrite !bytes_of_app, <- !app_assoc.
  repeat split.
Qed.

Lemma lookup_some_target (signature : Z) (t : TGT_TYPE) :
  lookup signature = Some t ->
  (find_target signature TGTs 0 =? TGT_LENGTH) = false
  /\ nth (Z.to_nat (find_target signature TGTs 0)) TGTs TGT_zero = t.
Proof.
  unfold lookup. generalize (find_target signature TGTs 0). intros target H.
  destruct (target =? TGT_LENGTH); [ discriminate H | ].
  split; [ reflexivity | exact (nth_error_nth _ _ TGT_zero H) ].
Qed.

(** A session on a device of the registry, up to the calibration process. *)
Lemma session_supported (w : world) (s : machine) (fuel : nat) (t : TGT_TYPE) :
  lookup (session_signature w s) = Some t ->
  exists s1,
    main_session fuel w s = (calibrate fuel (session_calib w s) ;; ret tt) w s1
    /\ trace s1 = trace s ++ programming_events t (session_calib w s)
    /\ TGT s1 = t /\ gates s1 = gates s
    /\ cell0 (target_after (trace s1)) = session_calib w s.
Proof.
  intros Hsome.
  assert (Hin : In t TGTs) by (apply lookup_some_in in Hsome; tauto).
  assert (Hready : flash_ready t).
  { pose proof registry_flash_ready as H. rewrite Forall_forall in H. exact (H t Hin). }
  pose proof (session_identify w s) as Hid.
  erewrite bind_run in Hid by apply start_screen_run. cbn [samples gates TGT trace] in Hid.
  unfold main_session.
  erewrite bind_run by apply start_screen_run. cbn [samples gates TGT trace].
  erewrite bind_run by exact Hid. cbn [snd].
  destruct (lookup_some_target _ _ Hsome) as (Hne & Hnth).
  rewrite Hne, Hnth.
  do 4 run_step.
  match goal with |- context [bind program _ w ?m] =>
    destruct (program_run w m) as (s1 & Hrun & Htr & HT & Hg); [ exact Hready | ]
  end.
  cbn [samples gates TGT trace] in *.
  erewrite bind_run by exact Hrun.
  exists s1. split; [ reflexivity | ].
  assert (Htrace : trace s1 = trace s ++ programming_events t (session_calib w s)).
  { rewrite Htr. unfold programming_events, session_calib. rewrite <- !app_assoc. reflexivity. }
  split; [ exact Htrace | ]. split; [ exact HT | ]. split; [ exact Hg | ].
  rewrite Htrace. unfold programming_events, program_design, target_after.
  rewrite !bytes_of_app, !fold_left_app.
  cbn [start_events identify_events fold_left target_step buf cell0 app].
  match goal with
  | |- context [fold_left target_step (bytes_of (flash_design t)) ?m] =>
      destruct (target_instructions (flash_design t) (cell0 m)) as (c' & Hc)
  end.
  cbn [bytes_of flat_map app fold_left target_step buf cell0] in *.
  rewrite Hc. reflexivity.
Qed.

(** ** Calibration sessions *)

Lemma session_calibrate (w : world) (s s1 s' : machine) (fuel : nat) (calib best : Z) :
  main_session fuel w s = (calibrate fuel calib ;; ret tt) w s1 ->
  calibrate fuel calib w s1 = Some (best, s') ->
  main_session fuel w s = Some (tt, s').
Proof.
  intros Hsession Hrun. rewrite Hsession.
  erewrite bind_run by exact Hrun. reflexivity.
Qed.

(** C2.  In every session on a registry device whose frequency is a function
    [g] of the byte in its EEPROM cell 0 (the monotonically decreasing ones
    among them) the measuring and adjusting loop ends, and the value finally
    written to EEPROM address 0 is a trial that was measured and whose
    deviation from the expected frequency is least among all trials measured.
    The trials recorded as best have strictly descending deviations, and the
    final write comes after whatever the loop wrote last. *)
Theorem session_commits_best
    (w : world) (g : Z -> N) (s : machine) (fuel : nat) (t : TGT_TYPE) :
  lookup (session_signature w s) = Some t ->
  (forall n c, pulses w n c = g c) ->
  (calibration_bound <= fuel)%nat ->
  let calib := session_calib w s in
  let dev c := diff (FRQ_read (gate_window (g c))) (FREQ t) in
  exists best evs s',
    main_session fuel w s = Some (tt, s')
    /\ trace s' = trace s ++ programming_events t calib ++ evs ++ commit_events best
    /\ cell0 (target_after (trace s')) = best
    /\ In best (map fst (visits evs))
    /\ (forall c, In c (map fst (visits evs)) -> dev best <= dev c)
    /\ (forall c, dev c = Z.abs (FRQ_read (gate_window (g c)) - FREQ t))
    /\ descending 65535 (map (deviation (FREQ t)) (records evs)).
Proof.
  intros Hsome Hg Hfuel calib dev.
  destruct (session_supported w s fuel t Hsome) as (s1 & Hsession & Htr1 & HT1 & _ & Hcell).
  destruct (calibrate_best w g s1 calib fuel Hg Hfuel Hcell)
    as (best & evs & s' & Hrun & Htr & Hbest & Hin & Hmin & Hdesc).
  rewrite HT1 in Hmin, Hdesc.
  exists best, evs, s'.
  split; [ exact (session_calibrate _ _ _ _ _ _ _ Hsession Hrun) | ].
  split; [ rewrite Htr, Htr1, <- app_assoc; reflexivity | ].
  split; [ exact Hbest | ]. split; [ exact Hin | ]. split; [ exact Hmin | ].
  split; [ | exact Hdesc ].
  intros c. unfold dev. apply lookup_some_in in Hsome. destruct Hsome as (Ht & _).
  pose proof (registry_freq t Ht). pose proof (FRQ_read_range (g c)).
  apply diff_abs; lia.
Qed.

Lemma session_commits_best_witness :
  exists best s',
    main_session calibration_bound bench_falling initial = Some (tt, s')
    /\ cell0 (target_after (trace s')) = best.
Proof.
  destruct (session_commits_best bench_falling falling initial calibration_bound ATTINY84
              eq_refl (fun _ _ => eq_refl) (le_n _))
    as (best & evs & s' & Hrun & _ & Hcell & _).
  exists best, s'. split; [ exact Hrun | exact Hcell ].
Defined.

(** C8.  When the first trial of a session reads the expected frequency
    exactly, one measurement is made, the loop writes nothing to the target,
    and the final write stores that first trial at EEPROM address 0. *)
Theorem session_exact_first_trial
    (w : world) (s : machine) (fuel : nat) (t : TGT_TYPE) :
  lookup (session_signature w s) = Some t ->
  let calib := session_calib w s in
  let frequency := FRQ_read (gate_window (pulses w (gates s) calib)) in
  diff frequency (FREQ t) = 0 ->
  exists s',
    main_session (S fuel) w s = Some (tt, s')
    /\ gates s' = S (gates s)
    /\ trace s' = trace s ++ programming_events t calib
                          ++ [EvGate calib frequency; EvResult calib frequency]
                          ++ commit_events calib
    /\ instructions ([EvGate calib frequency; EvResult calib frequency]
                       ++ commit_events calib)
       = [(0xAC, 0x53, 0x00, 0x00); (0xC0, 0x00, 0x00, calib)]
    /\ cell0 (target_after (trace s')) = calib
    /\ frequency = FREQ t.
Proof.
  intros Hsome calib frequency H0.
  destruct (session_supported w s (S fuel) t Hsome) as (s1 & Hsession & Htr1 & HT1 & Hg1 & Hcell).
  destruct (calibrate_exact w s1 calib fuel) as (s' & Hrun & Hg & Htr & Hins & Hbest).
  { rewrite Hcell, Hg1, HT1. exact H0. }
  rewrite Hcell, Hg1 in Htr, Hins. fold calib frequency in Htr, Hins.
  exists s'.
  split; [ exact (session_calibrate _ _ _ _ _ _ _ Hsession Hrun) | ].
  split; [ rewrite Hg, Hg1; reflexivity | ].
  split; [ rewrite Htr, Htr1, <- app_assoc; reflexivity | ].
  split; [ exact Hins | ]. split; [ exact Hbest | ].
  apply lookup_some_in in Hsome. destruct Hsome as (Ht & _).
  pose proof (registry_freq t Ht). pose proof (FRQ_read_range (pulses w (gates s) calib)).
  fold frequency in H. rewrite diff_abs in H0 by lia. lia.
Qed.

Lemma session_exact_first_trial_witness :
  exists s', main_session 1 bench_exact initial = Some (tt, s')
             /\ gates s' = 1%nat
             /\ cell0 (target_after (trace s')) = 0x80.
Proof.
  destruct (session_exact_first_trial bench_exact initial 0 ATTINY84 eq_refl eq_refl)
    as (s' & Hrun & Hgates & _ & _ & Hcell & _).
  exists s'. split; [ exact Hrun | ]. split; [ exact Hgates | exact Hcell ].
Defined.

(** C9.  The deviation of any reading from any registry frequency is below
    the seed 65535.  So the first pass of the loop from the seed, on a
    registry target and whatever [lastcalib] holds, is never left at the
    first exit: the first trial becomes [lastcalib] and its deviation becomes
    [difference], and the loop goes on with the next trial unless that
    deviation is 0.  In every session on a registry device the first
    measurement is therefore followed by the record of the first trial; when
    its deviation is not 0 the next trial is stored and measured; and the
    value finally written is a recorded trial that deviates no more than the
    first. *)
Theorem session_first_trial_accepted
    (w : world) (s : machine) (fuel : nat) (t : TGT_TYPE) :
  lookup (session_signature w s) = Some t ->
  (calibration_bound <= fuel)%nat ->
  let calib := session_calib w s in
  let frequency := FRQ_read (gate_window (pulses w (gates s) calib)) in
  let first := diff frequency (FREQ t) in
  let calib' := next_calib frequency (FREQ t) calib in
  (forall n t', In t' TGTs -> diff (FRQ_read (gate_window n)) (FREQ t') < 65535)
  /\ first < 65535
  /\ (forall (s1 : machine) (trial lastcalib : Z) (fuel1 : nat),
        In (TGT s1) TGTs ->
        let cell := cell0 (target_after (trace s1)) in
        let measured := FRQ_read (gate_window (pulses w (gates s1) cell)) in
        let difference := diff measured (FREQ (TGT s1)) in
        calibration (S fuel1) trial lastcalib 65535 w s1 =
        if difference =? 0 then
          Some ((trial, difference),
                {| samples := samples s1; gates := S (gates s1); TGT := TGT s1;
                   trace := trace s1 ++ [EvGate cell measured; EvResult trial measured] |})
        else
          calibration fuel1 (next_calib measured (FREQ (TGT s1)) trial) trial difference w
            {| samples := 64 + samples s1; gates := S (gates s1); TGT := TGT s1;
               trace := trace s1 ++ EvGate cell measured :: EvResult trial measured
                          :: store_events (next_calib measured (FREQ (TGT s1)) trial) |})
  /\ exists best evs s',
       main_session fuel w s = Some (tt, s')
       /\ trace s' = trace s ++ programming_events t calib
                             ++ EvGate calib frequency :: EvResult calib frequency
                             :: evs ++ commit_events best
       /\ (first = 0 -> evs = [] /\ best = calib)
       /\ (first <> 0 ->
           exists frequency' evs',
             evs = store_events calib' ++ EvGate calib' frequency' :: evs')
       /\ (exists f, In (best, f) (records (EvResult calib frequency :: evs))
                     /\ diff f (FREQ t) <= first).
Proof.
  intros Hsome Hfuel calib frequency first calib'.
  destruct (session_supported w s fuel t Hsome) as (s1 & Hsession & Htr1 & HT1 & Hg1 & Hcell).
  assert (Hin : In t TGTs) by (apply lookup_some_in in Hsome; tauto).
  split; [ intros n t' Ht'; apply seed_above; exact Ht' | ].
  split; [ apply seed_above; exact Hin | ].
  split; [ intros s0 trial lastcalib fuel1 HT; apply calibration_seed_pass; exact HT | ].
  rewrite <- HT1 in Hin.
  destruct (calibration_first w s1 calib calib fuel Hin Hfuel)
    as (best & final & evs & s2 & Hrun & Htr & Hfinal & Hexact & Hnext & f & Hrec & Hdev).
  rewrite Hcell, Hg1 in Htr.
  rewrite Hcell, Hg1, HT1 in Hfinal, Hexact, Hnext.
  rewrite Hcell, Hg1 in Hrec. rewrite HT1 in Hdev.
  fold calib frequency first calib' in Htr, Hfinal, Hexact, Hnext, Hrec.
  exists best, evs. eexists.
  split.
  { rewrite Hsession. unfold calibrate.
    erewrite bind_run; [ | erewrite bind_run by exact Hrun; cbn [fst];
                           erewrite bind_run by apply commit_run; reflexivity ].
    reflexivity. }
  split.
  { cbn [trace]. rewrite Htr, Htr1, <- !app_assoc. reflexivity. }
  split; [ exact Hexact | ]. split; [ exact Hnext | ].
  exists f. split; [ exact Hrec | lia ].
Qed.

Lemma session_first_trial_accepted_witness :
  exists best evs s',
    main_session calibration_bound bench_falling initial = Some (tt, s')
    /\ trace s' = programming_events ATTINY84 0x80
                  ++ EvGate 0x80 8172 :: EvResult 0x80 8172 :: evs ++ commit_events best.
Proof.
  destruct (session_first_trial_accepted bench_falling initial calibration_bound ATTINY84
              eq_refl (le_n _))
    as (_ & _ & _ & best & evs & s' & Hrun & Htr & _).
  exists best, evs, s'. split; [ exact Hrun | exact Htr ].
Defined.

(** C10.  The measuring and adjusting loop ends whatever the measurements
    are: every pass either leaves the loop or goes on with a strictly smaller,
    nonnegative [difference]; from the seed 65535 no more than 65536
    measurements are made; and so every session, on whatever link, ends after
    at most 65536 measurements. *)
Theorem calibration_terminates (w : world) (s : machine) (calib lastcalib : Z) :
  (forall s calib lastcalib difference,
      (exists r s', forall fuel,
          calibration (S fuel) calib lastcalib difference w s = Some (r, s'))
      \/ (exists calib' difference' s',
             0 <= difference' < difference /\
             forall fuel, calibration (S fuel) calib lastcalib difference w s
                          = calibration fuel calib' calib difference' w s'))
  /\ (exists best final evs s',
        calibration calibration_bound calib lastcalib 65535 w s = Some ((best, final), s')
        /\ trace s' = trace s ++ evs
        /\ gates s' = (gates s + List.length (visits evs))%nat
        /\ Z.of_nat (List.length (visits evs)) <= 65536
        /\ descending 65535 (map (deviation (FREQ (TGT s))) (records evs)))
  /\ (exists s',
        main_session calibration_bound w s = Some (tt, s')
        /\ Z.of_nat (gates s') - Z.of_nat (gates s) <= 65536).
Proof.
  split; [ intros; apply calibration_progress | ].
  split.
  { destruct (calibration_runs w calibration_bound calib lastcalib 65535 s)
      as (best & final & evs & s' & Hrun & Htr & _ & Hg & Hcal);
      [ lia | apply bound_fuel; [ apply le_n | lia ] | ].
    exists best, final, evs, s'.
    split; [ exact Hrun | ]. split; [ exact Htr | ]. split; [ exact Hg | ].
    split.
    - pose proof (run_length _ _ _ _ _ _ _ _ _ Hcal ltac:(lia)). lia.
    - exact (run_descends _ _ _ _ _ _ _ _ _ Hcal). }
  destruct (lookup (session_signature w s)) as [ t | ] eqn:Hlookup.
  - destruct (session_supported w s calibration_bound t Hlookup)
      as (s1 & Hsession & _ & _ & Hg1 & _).
    destruct (calibration_runs w calibration_bound (session_calib w s) (session_calib w s) 65535 s1)
      as (best & final & evs & s2 & Hrun & _ & _ & Hg & Hcal);
      [ lia | apply bound_fuel; [ apply le_n | lia ] | ].
    pose proof (run_length _ _ _ _ _ _ _ _ _ Hcal ltac:(lia)) as Hlen.
    eexists. split.
    + rewrite Hsession. unfold calibrate.
      erewrite bind_run; [ | erewrite bind_run by exact Hrun; cbn [fst];
                             erewrite bind_run by apply commit_run; reflexivity ].
      reflexivity.
    + cbn [gates]. lia.
  - eexists. split; [ apply session_unsupported; exact Hlookup | ].
    cbn [gates]. lia.
Qed.

(** * Further properties *)

(** ** The link, byte by byte *)

Lemma byte_of_levels_range (l0 l1 l2 l3 l4 l5 l6 l7 : bool) :
  0 <= byte_of_levels [l0; l1; l2; l3; l4; l5; l6; l7] < 256.
Proof. destruct l0, l1, l2, l3, l4, l5, l6, l7; vm_compute; split; congruence. Qed.

(** X1.  One call of [ICSP_sendByte] with a byte drives MOSI, over its eight
    clock cycles, to the bits of that byte, most significant first, whatever
    comes in on MISO; it returns the byte spelt by the eight MISO levels it
    samples, which does not depend on the byte sent. *)
Theorem sendByte_wires (w : world) (s : machine) (byte : Z) :
  0 <= byte < 256 ->
  let reply := byte_of_levels (map (miso w) (seq (samples s) 8)) in
  byte_of_levels (ICSP_mosi 8 byte (miso w) (samples s)) = byte
  /\ 0 <= reply < 256
  /\ exists s', ICSP_sendByte byte w s = Some (reply, s')
                /\ samples s' = (8 + samples s)%nat
                /\ trace s' = trace s ++ [EvByte byte].
Proof.
  intros Hb reply.
  destruct (ICSP_transfer (miso w) (samples s) byte Hb) as (Hout & Hin).
  split; [ exact Hout | ].
  split; [ apply byte_of_levels_range | ].
  eexists. split; [ rewrite ICSP_sendByte_run, Hin; reflexivity | ].
  split; reflexivity.
Qed.

Lemma sendByte_wires_witness :
  byte_of_levels (ICSP_mosi 8 0xAC (miso bench_falling) 0) = 0xAC.
Proof.
  destruct (sendByte_wires bench_falling initial 0xAC ltac:(lia)) as (H & _).
  exact H.
Defined.

(** X2.  [ICSP_readSignature] sends the two read instructions 30 00 01 00 and
    30 00 02 00 and returns 256 * high + low, a 16-bit value, where high and
    low are the bytes that come in during the fourth byte of each
    instruction; the replies to the first three bytes are ignored. *)
Theorem readSignature_word (w : world) (s : machine) :
  let high := byte_of_levels (map (miso w) (seq (24 + samples s) 8)) in
  let low := byte_of_levels (map (miso w) (seq (56 + samples s) 8)) in
  0 <= 256 * high + low < 65536
  /\ exists s', ICSP_readSignature w s = Some (256 * high + low, s')
                /\ trace s' = trace s ++ bytes_of [(0x30, 0x00, 0x01, 0x00);
                                                   (0x30, 0x00, 0x02, 0x00)].
Proof.
  intros high low.
  assert (Hh : 0 <= high < 256) by apply byte_of_levels_range.
  assert (Hl : 0 <= low < 256) by apply byte_of_levels_range.
  split; [ lia | ].
  assert (Hshift : u16 (Z.shiftl high 8) = Z.shiftl high 8).
  { apply u16_small. rewrite Z.shiftl_mul_pow2 by lia. change (2 ^ 8) with 256. lia. }
  eexists. split.
  { rewrite ICSP_readSignature_run.
    destruct (ICSP_transfer (miso w) (24 + samples s) 0 ltac:(lia)) as (_ & ->).
    destruct (ICSP_transfer (miso w) (56 + samples s) 0 ltac:(lia)) as (_ & ->).
    fold high low.
    rewrite Hshift, lor_high_low by exact Hl. reflexivity. }
  reflexivity.
Qed.

(** X3.  [diff] of two 16-bit values is their absolute difference: it is
    symmetric, and it is 0 exactly when the two values are equal. *)
Theorem diff_absolute (a b : Z) :
  0 <= a < 65536 -> 0 <= b < 65536 ->
  diff a b = Z.abs (a - b) /\ diff a b = diff b a /\ (diff a b = 0 <-> a = b).
Proof.
  intros Ha Hb. rewrite (diff_abs a b Ha Hb), (diff_abs b a Hb Ha). lia.
Qed.

Lemma diff_absolute_witness : diff 8000 9600 = 1600 /\ diff 9600 8000 = 1600.
Proof.
  destruct (diff_absolute 8000 9600 ltac:(lia) ltac:(lia)) as (H1 & H2 & _).
  split; [ rewrite H1; reflexivity | rewrite <- H2, H1; reflexivity ].
Defined.

(** ** The image in the instruction stream *)

Lemma skipn_nth (l : list Z) (p : nat) :
  (p < List.length l)%nat -> skipn p l = nth p l 0 :: skipn (S p) l.
Proof.
  revert p. induction l as [ | x l IH ]; intros p Hp; cbn [List.length] in Hp; [ lia | ].
  destruct p as [ | p ]; [ reflexivity | ].
  cbn [skipn nth]. apply IH. lia.
Qed.

Lemma load_data_app (a b : list instr) : load_data (a ++ b) = load_data a ++ load_data b.
Proof. unfold load_data. rewrite filter_app, map_app. reflexivity. Qed.

Lemma flash_words_data (pagesize : Z) (prog : list Z) (n : nat) :
  forall (addr : Z) (p : nat),
    (p + 2 * n <= List.length prog)%nat ->
    load_data (flash_words n addr p pagesize prog) = firstn (2 * n) (skipn p prog).
Proof.
  induction n as [ | n IH ]; intros addr p Hp; [ reflexivity | ].
  cbn [flash_words].
  change (?a :: ?b :: ?c ++ ?d) with ([a; b] ++ c ++ d).
  rewrite !load_data_app, IH by lia.
  replace (2 * S n)%nat with (S (S (2 * n))) by lia.
  rewrite (skipn_nth prog p) by lia. rewrite (skipn_nth prog (S p)) by lia.
  cbn [firstn]. unfold pgm_read_byte.
  destruct ((addr + 1) mod pagesize =? 0); reflexivity.
Qed.

(** X4.  When the program of the descriptor has the even length
    [PROG_LENGTH] says, as every registry entry has, the data bytes of the
    load instructions [ICSP_writeFlash] sends are the program itself, byte for
    byte and in order: nothing is skipped, repeated or read from behind the
    image. *)
Theorem writeFlash_sends_image :
  Forall (fun t => Z.of_nat (List.length (PROG t)) = PROG_LENGTH t
                   /\ Z.even (PROG_LENGTH t) = true) TGTs
  /\ forall (w : world) (s : machine),
       flash_ready (TGT s) ->
       Z.of_nat (List.length (PROG (TGT s))) = PROG_LENGTH (TGT s) ->
       Z.even (PROG_LENGTH (TGT s)) = true ->
       exists evs s',
         ICSP_writeFlash w s = Some (tt, s')
         /\ trace s' = trace s ++ evs
         /\ load_data (instructions evs) = PROG (TGT s).
Proof.
  split.
  { repeat (constructor; [ split; reflexivity | ]). constructor. }
  intros w s Hready Hlen Heven.
  destruct (ICSP_writeFlash_run w s Hready) as (s' & Hrun & Htr & _).
  exists (bytes_of (flash_design (TGT s))), s'.
  split; [ exact Hrun | ]. split; [ exact Htr | ].
  rewrite instructions_bytes_of. unfold flash_design.
  rewrite load_data_app.
  apply Z.even_spec in Heven. destruct Heven as (h & Hh).
  replace ((PROG_LENGTH (TGT s) + 1) / 2) with h by (Z.div_mod_to_equations; lia).
  rewrite flash_words_data by lia.
  replace (load_data (if h mod PSIZE (TGT s) =? 0 then [] else [(76, hi h, lo h, 0)]))
    with (@nil Z) by (destruct (h mod PSIZE (TGT s) =? 0); reflexivity).
  rewrite app_nil_r. cbn [skipn].
  apply firstn_all2. lia.
Qed.

Lemma writeFlash_sends_image_witness :
  exists evs s',
    ICSP_writeFlash bench_open (holding ATTINY84) = Some (tt, s')
    /\ load_data (instructions evs) = PROG_T84.
Proof.
  destruct writeFlash_sends_image as (_ & H).
  destruct (H bench_open (holding ATTINY84)) as (evs & s' & Hrun & _ & Hdata).
  - split; [ simpl; do 5 right; left; reflexivity | simpl; lia ].
  - reflexivity.
  - reflexivity.
  - exists evs, s'. split; [ exact Hrun | exact Hdata ].
Defined.

(** ** Whole sessions *)

(** A session on a registry device, from the button to the final write. *)
Lemma session_run (w : world) (s : machine) (fuel : nat) (t : TGT_TYPE) :
  lookup (session_signature w s) = Some t ->
  (calibration_bound <= fuel)%nat ->
  exists best final evs s',
    main_session fuel w s = Some (tt, s')
    /\ trace s' = trace s ++ programming_events t (session_calib w s)
                          ++ evs ++ commit_events best
    /\ TGT s' = t
    /\ gates s' = (gates s + List.length (visits evs))%nat
    /\ cell0 (target_after (trace s ++ programming_events t (session_calib w s)))
       = session_calib w s
    /\ cal_run (reads_in w) (FREQ t) (session_calib w s) (session_calib w s)
               (session_calib w s) 65535 evs best final.
Proof.
  intros Hsome Hfuel.
  destruct (session_supported w s fuel t Hsome) as (s1 & Hsession & Htr1 & HT1 & Hg1 & Hcell).
  destruct (calibration_runs w fuel (session_calib w s) (session_calib w s) 65535 s1)
    as (best & final & evs & s2 & Hrun & Htr & HT & Hg & Hcal);
    [ lia | apply bound_fuel; [ exact Hfuel | lia ] | ].
  rewrite Hcell, HT1 in Hcal.
  exists best, final, evs. eexists.
  split.
  { rewrite Hsession. unfold calibrate.
    erewrite bind_run; [ | erewrite bind_run by exact Hrun; cbn [fst];
                           erewrite bind_run by apply commit_run; reflexivity ].
    reflexivity. }
  cbn [trace TGT gates].
  split; [ rewrite Htr, Htr1, <- !app_assoc; reflexivity | ].
  split; [ congruence | ]. split; [ congruence | ].
  split; [ rewrite <- Htr1; exact Hcell | exact Hcal ].
Qed.

Lemma instructions_from_bytes_of (l : list instr) (rest : list event) :
  instructions_from [] (bytes_of l ++ rest) = l ++ instructions_from [] rest.
Proof.
  induction l as [ | [ [ [ b1 b2 ] b3 ] b4 ] l IH ]; [ reflexivity | ].
  cbn [bytes_of flat_map app instructions_from]. fold (bytes_of l).
  rewrite IH. reflexivity.
Qed.

(** X5.  On a device of the registry a session, after the enable command and
    the two signature reads, sends in this order: the read of the factory
    calibration byte, the chip erase, the low, high and extended fuse, the
    flash image, and the write of the factory calibration byte to EEPROM
    address 0; it then releases the link, with that byte, a value in 0..255,
    in the target's cell and the descriptor found in [TGT]. *)
Theorem session_programs (w : world) (s : machine) (fuel : nat) (t : TGT_TYPE) :
  lookup (session_signature w s) = Some t ->
  (calibration_bound <= fuel)%nat ->
  let calib := session_calib w s in
  0 <= calib < 256
  /\ instructions (programming_events t calib)
     = (0xAC, 0x53, 0x00, 0x00) :: (0x30, 0x00, 0x01, 0x00) :: (0x30, 0x00, 0x02, 0x00)
       :: program_design t calib
  /\ exists rest s',
       main_session fuel w s = Some (tt, s')
       /\ trace s' = trace s ++ programming_events t calib ++ rest
       /\ cell0 (target_after (trace s ++ programming_events t calib)) = calib
       /\ TGT s' = t.
Proof.
  intros Hsome Hfuel calib.
  split.
  { unfold calib, session_calib.
    destruct (ICSP_transfer (miso w) (120 + samples s) 0 ltac:(lia)) as (_ & ->).
    apply byte_of_levels_range. }
  split.
  { unfold programming_events, instructions.
    cbn [start_events identify_events app instructions_from].
    rewrite instructions_from_bytes_of. cbn [instructions_from].
    rewrite app_nil_r. reflexivity. }
  destruct (session_run w s fuel t Hsome Hfuel)
    as (best & final & evs & s' & Hrun & Htr & HT & _ & Hcell & _).
  exists (evs ++ commit_events best), s'.
  repeat split; assumption.
Qed.

Lemma session_programs_witness :
  session_calib bench_falling initial = 0x80
  /\ exists rest s',
       main_session calibration_bound bench_falling initial = Some (tt, s')
       /\ trace s' = programming_events ATTINY84 0x80 ++ rest.
Proof.
  destruct (session_programs bench_falling initial calibration_bound ATTINY84 eq_refl (le_n _))
    as (_ & _ & rest & s' & Hrun & Htr & _).
  split; [ reflexivity | ].
  exists rest, s'. split; [ exact Hrun | exact Htr ].
Defined.

Lemma bracketed_app (a b : list event) (entered : bool) :
  bracketed entered (a ++ b)
  = match bracketed entered a with
    | Some entered' => bracketed entered' b
    | None => None
    end.
Proof.
  revert entered. induction a as [ | e a IH ]; intros entered; [ reflexivity | ].
  destruct e, entered; cbn [app bracketed]; try reflexivity; apply IH.
Qed.

Lemma bracketed_bytes_of (l : list instr) : bracketed true (bytes_of l) = Some true.
Proof.
  induction l as [ | [ [ [ b1 b2 ] b3 ] b4 ] l IH ]; [ reflexivity | ].
  cbn [bytes_of flat_map app bracketed]. exact IH.
Qed.

Lemma run_bracketed reads freq cell calib lastcalib difference evs best final :
  cal_run reads freq cell calib lastcalib difference evs best final ->
  bracketed false evs = Some false.
Proof.
  induction 1 as [ | | ? ? ? ? ? ? ? ? ? ? ? ? IH ]; try reflexivity.
  cbn [bracketed]. rewrite bracketed_app. exact IH.
Qed.

Lemma programming_bracketed (t : TGT_TYPE) (calib : Z) :
  bracketed false (programming_events t calib) = Some false.
Proof.
  unfold programming_events.
  cbn [start_events identify_events app bracketed].
  rewrite bracketed_app, bracketed_bytes_of. reflexivity.
Qed.

(** X6.  Every session, on whatever link, keeps the link discipline: every
    byte is sent between an init and the release that follows it, inits and
    releases alternate, every frequency measurement is made with the link
    released so that the target runs, and the session ends with the link
    released. *)
Theorem session_bracketed (w : world) (s : machine) :
  exists evs s',
    main_session calibration_bound w s = Some (tt, s')
    /\ trace s' = trace s ++ evs
    /\ bracketed false evs = Some false.
Proof.
  destruct (lookup (session_signature w s)) as [ t | ] eqn:Hlookup.
  - destruct (session_run w s calibration_bound t Hlookup (le_n _))
      as (best & final & evs & s' & Hrun & Htr & _ & _ & _ & Hcal).
    eexists. exists s'. split; [ exact Hrun | ]. split; [ exact Htr | ].
    rewrite bracketed_app, programming_bracketed, bracketed_app.
    rewrite (run_bracketed _ _ _ _ _ _ _ _ _ Hcal). reflexivity.
  - eexists. eexists. split; [ apply session_unsupported; exact Hlookup | ].
    split; reflexivity.
Qed.

Lemma target_store (t : target) (data : Z) :
  fold_left target_step (store_events data) t = {| buf := []; cell0 := data |}.
Proof. reflexivity. Qed.

(** Where a run leaves the byte in the target: at the best trial or one
    step from it. *)
Lemma run_overshoot reads freq cell calib lastcalib difference evs best final :
  cal_run reads freq cell calib lastcalib difference evs best final ->
  cell = calib ->
  calib = lastcalib \/ calib = u8 (lastcalib - 1) \/ calib = u8 (lastcalib + 1) ->
  forall pending,
    let c := cell0 (fold_left target_step evs {| buf := pending; cell0 := cell |}) in
    c = best \/ c = u8 (best - 1) \/ c = u8 (best + 1).
Proof.
  induction 1 as [ | | ? calib ? ? f ? ? ? ? ? ? ? IH ]; intros -> Hstep pending.
  - exact Hstep.
  - left. reflexivity.
  - cbn [fold_left target_step]. rewrite fold_left_app, target_store.
    apply IH; [ reflexivity | ].
    unfold next_calib. destruct (f >? freq); [ right; left | right; right ]; reflexivity.
Qed.

(** X7.  When the search of a session ends, the byte it has left in the
    target's EEPROM is the best trial or one step (modulo 256) from it: the
    final write moves the target's calibration byte by at most one step. *)
Theorem session_overshoot (w : world) (s : machine) (fuel : nat) (t : TGT_TYPE) :
  lookup (session_signature w s) = Some t ->
  (calibration_bound <= fuel)%nat ->
  exists best evs s',
    main_session fuel w s = Some (tt, s')
    /\ trace s' = trace s ++ programming_events t (session_calib w s)
                          ++ evs ++ commit_events best
    /\ let left_by_loop :=
         cell0 (target_after ((trace s ++ programming_events t (session_calib w s)) ++ evs)) in
       left_by_loop = best \/ left_by_loop = u8 (best - 1) \/ left_by_loop = u8 (best + 1).
Proof.
  intros Hsome Hfuel.
  destruct (session_run w s fuel t Hsome Hfuel)
    as (best & final & evs & s' & Hrun & Htr & _ & _ & Hcell & Hcal).
  exists best, evs, s'. split; [ exact Hrun | ]. split; [ exact Htr | ].
  unfold target_after in *. rewrite fold_left_app.
  destruct (fold_left target_step (trace s ++ programming_events t (session_calib w s)) target_0)
    as [ pending cell ].
  cbn [cell0] in Hcell. subst cell.
  apply (run_overshoot _ _ _ _ _ _ _ _ _ Hcal eq_refl). left. reflexivity.
Qed.

Lemma session_overshoot_witness :
  exists s', main_session calibration_bound bench_falling initial = Some (tt, s').
Proof.
  destruct (session_overshoot bench_falling initial calibration_bound ATTINY84 eq_refl (le_n _))
    as (best & evs & s' & Hrun & _).
  exists s'. exact Hrun.
Defined.

(** ** The counter at its limits *)

(** X16.  A reading of [FRQ_measure] never exceeds 32767 kHz, and the count
    wraps at 16 bits: 65536 pulses more in the gate window give the same
    reading, so that 65536 pulses read as 0. *)
Theorem FRQ_read_wraps (n : N) :
  0 <= FRQ_read (gate_window n) <= 32767
  /\ FRQ_read (gate_window (n + 65536)) = FRQ_read (gate_window n)
  /\ FRQ_read (gate_window 65536) = 0.
Proof.
  split; [ apply FRQ_read_range | ].
  split.
  - rewrite !FRQ_read_count, N2Z.inj_add.
    change (Z.of_N 65536) with (1 * 65536). rewrite Z.mod_add by lia. reflexivity.
  - rewrite FRQ_read_count. reflexivity.
Qed.

(** ** Pins *)

Lemma all_from_spec (P : Z -> bool) (n : nat) :
  forall z, all_from n z P = true ->
            forall v, z <= v < z + Z.of_nat n -> P v = true.
Proof.
  induction n as [ | n IH ]; intros z H v Hv; [ lia | ].
  cbn [all_from] in H. apply andb_true_iff in H. destruct H as (Hz & Hrest).
  destruct (Z.eq_dec v z) as [ -> | Hne ]; [ exact Hz | ].
  apply (IH (z + 1) Hrest). lia.
Qed.

Lemma bytes_all (P : Z -> bool) :
  all_from 256 0 P = true -> forall v, 0 <= v < 256 -> P v = true.
Proof. intros H v Hv. apply (all_from_spec P 256 0 H). lia. Qed.

(** X8.  [ICSP_release] makes RST, SCK and MOSI inputs without pull-up and
    leaves every other pin of both registers as it was; releasing a released
    link changes nothing. *)
Theorem release_frees_lines (p : Pins.port) :
  0 <= Pins.PORTA p < 256 -> 0 <= Pins.DDRA p < 256 ->
  let q := Pins.ICSP_release p in
  Z.land (Pins.DDRA q) Pins.ICSP_lines = 0
  /\ Z.land (Pins.PORTA q) Pins.ICSP_lines = 0
  /\ Pins.beside_ICSP (Pins.DDRA q) = Pins.beside_ICSP (Pins.DDRA p)
  /\ Pins.beside_ICSP (Pins.PORTA q) = Pins.beside_ICSP (Pins.PORTA p)
  /\ Pins.ICSP_release q = q.
Proof.
  intros Hp Hd.
  assert (H : forall r, 0 <= r < 256 ->
            let c := Pins.clear_bits r Pins.ICSP_lines in
            Z.land c Pins.ICSP_lines = 0
            /\ Pins.beside_ICSP c = Pins.beside_ICSP r
            /\ Pins.clear_bits c Pins.ICSP_lines = c).
  { intros r Hr.
    pose proof (bytes_all
      (fun r => let c := Pins.clear_bits r Pins.ICSP_lines in
                (Z.land c Pins.ICSP_lines =? 0)
                && (Pins.beside_ICSP c =? Pins.beside_ICSP r)
                && (Pins.clear_bits c Pins.ICSP_lines =? c))
      ltac:(vm_compute; reflexivity) r Hr) as Hb.
    cbv beta zeta in Hb. apply andb_true_iff in Hb. destruct Hb as (Hb & H3).
    apply andb_true_iff in Hb. destruct Hb as (H1 & H2).
    cbv zeta. repeat split; lia. }
  destruct (H _ Hp) as (P1 & P2 & P3). destruct (H _ Hd) as (D1 & D2 & D3).
  cbv zeta. unfold Pins.ICSP_release. cbn [Pins.PORTA Pins.DDRA].
  repeat split; try assumption. rewrite P3, D3. reflexivity.
Qed.

Lemma release_frees_lines_witness :
  Z.land (Pins.DDRA (Pins.ICSP_release {| Pins.PORTA := 0x54; Pins.DDRA := 0xD3 |}))
         Pins.ICSP_lines = 0.
Proof.
  destruct (release_frees_lines {| Pins.PORTA := 0x54; Pins.DDRA := 0xD3 |})
    as (H & _); [ simpl; lia | simpl; lia | ].
  exact H.
Defined.

(** X9.  [ICSP_init] makes RST, SCK and MOSI outputs that drive low and MISO
    an input, and leaves the pins PA0 to PA3 (the display's I2C lines, the
    button with its pull-up and the oscillator input) as they were in both
    registers. *)
Theorem init_drives_lines (p : Pins.port) :
  0 <= Pins.PORTA p < 256 -> 0 <= Pins.DDRA p < 256 ->
  let q := Pins.ICSP_init p in
  Z.land (Pins.DDRA q) Pins.ICSP_lines = Pins.ICSP_lines
  /\ Z.land (Pins.PORTA q) Pins.ICSP_lines = 0
  /\ Pins.pin (Pins.DDRA q) Pins.MISO_PIN = false
  /\ Z.land (Pins.DDRA q) 0x0F = Z.land (Pins.DDRA p) 0x0F
  /\ Pins.beside_ICSP (Pins.PORTA q) = Pins.beside_ICSP (Pins.PORTA p).
Proof.
  intros Hp Hd. cbv zeta. unfold Pins.ICSP_init. cbn [Pins.PORTA Pins.DDRA].
  pose proof (bytes_all
    (fun r => let c := Pins.clear_bits (Pins.set_bits r Pins.ICSP_lines) (Pins.bit Pins.MISO_PIN) in
              (Z.land c Pins.ICSP_lines =? Pins.ICSP_lines)
              && negb (Pins.pin c Pins.MISO_PIN)
              && (Z.land c 0x0F =? Z.land r 0x0F))
    ltac:(vm_compute; reflexivity) _ Hd) as Hb.
  pose proof (bytes_all
    (fun r => let c := Pins.clear_bits r Pins.ICSP_lines in
              (Z.land c Pins.ICSP_lines =? 0)
              && (Pins.beside_ICSP c =? Pins.beside_ICSP r))
    ltac:(vm_compute; reflexivity) _ Hp) as Hc.
  cbv beta zeta in Hb, Hc.
  apply andb_true_iff in Hb. destruct Hb as (Hb & D3).
  apply andb_true_iff in Hb. destruct Hb as (D1 & D2).
  apply andb_true_iff in Hc. destruct Hc as (P1 & P2).
  apply negb_true_iff in D2.
  repeat split; try assumption; lia.
Qed.

Lemma init_drives_lines_witness :
  Z.land (Pins.DDRA (Pins.ICSP_init {| Pins.PORTA := 0x54; Pins.DDRA := 0x23 |}))
         Pins.ICSP_lines = Pins.ICSP_lines.
Proof.
  destruct (init_drives_lines {| Pins.PORTA := 0x54; Pins.DDRA := 0x23 |})
    as (H & _); [ simpl; lia | simpl; lia | ].
  exact H.
Defined.

(** One clock cycle of [ICSP_sendByte] on a byte-wide [PORTA]. *)
Lemma clock_cycle (level : bool) (porta : Z) :
  0 <= porta < 256 ->
  let mosi := if level then Pins.set_bits porta (Pins.bit Pins.MOSI_PIN)
              else Pins.clear_bits porta (Pins.bit Pins.MOSI_PIN) in
  let high := Pins.set_bits mosi (Pins.bit Pins.SCK_PIN) in
  let low := Pins.clear_bits high (Pins.bit Pins.SCK_PIN) in
  Pins.pin high Pins.MOSI_PIN = level
  /\ Pins.pin high Pins.SCK_PIN = true
  /\ Pins.pin low Pins.SCK_PIN = false
  /\ Pins.pin low Pins.MOSI_PIN = level
  /\ 0 <= low < 256
  /\ Z.land low 0xAF = Z.land porta 0xAF.
Proof.
  intros Hp.
  pose proof (bytes_all
    (fun porta =>
       let mosi := if level then Pins.set_bits porta (Pins.bit Pins.MOSI_PIN)
                   else Pins.clear_bits porta (Pins.bit Pins.MOSI_PIN) in
       let high := Pins.set_bits mosi (Pins.bit Pins.SCK_PIN) in
       let low := Pins.clear_bits high (Pins.bit Pins.SCK_PIN) in
       Bool.eqb (Pins.pin high Pins.MOSI_PIN) level
       && Pins.pin high Pins.SCK_PIN
       && negb (Pins.pin low Pins.SCK_PIN)
       && Bool.eqb (Pins.pin low Pins.MOSI_PIN) level
       && (Z.land low 0xAF =? Z.land porta 0xAF))
    ltac:(destruct level; vm_compute; reflexivity) porta Hp) as Hb.
  cbv beta zeta in Hb |- *.
  apply andb_true_iff in Hb. destruct Hb as (Hb & H5).
  apply andb_true_iff in Hb. destruct Hb as (Hb & H4).
  apply andb_true_iff in Hb. destruct Hb as (Hb & H3).
  apply andb_true_iff in Hb. destruct Hb as (H1 & H2).
  apply eqb_prop in H1. apply eqb_prop in H4. apply negb_true_iff in H3.
  repeat split; try assumption; try apply u8_range; lia.
Qed.

Lemma sendByte_pins_any (line : nat -> bool) (i : nat) :
  forall (byte : Z) (k : nat) (porta : Z),
    0 <= porta < 256 ->
    let r := Pins.ICSP_sendByte i byte line k porta in
    snd (fst r) = ICSP_shift i byte line k
    /\ map (fun q => Pins.pin q Pins.MOSI_PIN) (fst (fst r)) = ICSP_mosi i byte line k
    /\ Forall (fun q => Pins.pin q Pins.SCK_PIN = true) (fst (fst r))
    /\ 0 <= snd r < 256
    /\ Z.land (snd r) 0xAF = Z.land porta 0xAF
    /\ (i = 0%nat -> snd r = porta)
    /\ (i <> 0%nat -> Pins.pin (snd r) Pins.SCK_PIN = false).
Proof.
  induction i as [ | i IH ]; intros byte k porta Hp.
  - cbn. repeat split; [ constructor | lia | lia | congruence ].
  - cbn [Pins.ICSP_sendByte ICSP_shift ICSP_mosi].
    destruct (clock_cycle (negb (Z.land byte 128 =? 0)) porta Hp)
      as (Hmosi & Hsck & Hlow & _ & Hrange & Hframe).
    cbv zeta in Hmosi, Hsck, Hlow, Hrange, Hframe.
    set (low := Pins.clear_bits _ (Pins.bit Pins.SCK_PIN)) in *.
    set (byte' := if line k then Z.lor (u8 (Z.shiftl byte 1)) 1 else u8 (Z.shiftl byte 1)).
    specialize (IH byte' (S k) low Hrange).
    destruct (Pins.ICSP_sendByte i byte' line (S k) low) as [ [ highs reply ] porta' ].
    cbn [fst snd map] in *.
    destruct IH as (I1 & I2 & I3 & I4 & I5 & I6 & I7).
    split; [ exact I1 | ].
    split; [ rewrite Hmosi, I2; reflexivity | ].
    split; [ constructor; [ exact Hsck | exact I3 ] | ].
    split; [ exact I4 | ].
    split; [ rewrite I5; exact Hframe | ].
    split; [ discriminate | ].
    intros _. destruct i as [ | i ]; [ rewrite (I6 eq_refl); exact Hlow | apply I7; discriminate ].
Qed.

(** X10.  On the pins, [ICSP_sendByte] presents the bits of the byte on MOSI,
    most significant first, each while SCK is high; it returns what the
    byte-level operation returns; it ends with SCK low; and it changes no pin
    of [PORTA] other than SCK and MOSI, so that RST stays active and the
    button keeps its pull-up. *)
Theorem sendByte_pins (line : nat -> bool) (k : nat) (byte porta : Z) :
  0 <= byte < 256 -> 0 <= porta < 256 ->
  let r := Pins.ICSP_sendByte 8 byte line k porta in
  snd (fst r) = ICSP_shift 8 byte line k
  /\ byte_of_levels (map (fun q => Pins.pin q Pins.MOSI_PIN) (fst (fst r))) = byte
  /\ Forall (fun q => Pins.pin q Pins.SCK_PIN = true) (fst (fst r))
  /\ Pins.pin (snd r) Pins.SCK_PIN = false
  /\ Z.land (snd r) 0xAF = Z.land porta 0xAF.
Proof.
  intros Hb Hp r.
  destruct (sendByte_pins_any line 8 byte k porta Hp) as (H1 & H2 & H3 & _ & H5 & _ & H7).
  fold r in H1, H2, H3, H5, H7.
  split; [ exact H1 | ].
  split; [ rewrite H2; apply (ICSP_transfer line k byte Hb) | ].
  split; [ exact H3 | ].
  split; [ apply H7; discriminate | exact H5 ].
Qed.

Lemma sendByte_pins_witness :
  Pins.pin (snd (Pins.ICSP_sendByte 8 0xAC (fun _ => false) 0 0x04)) Pins.SCK_PIN = false.
Proof.
  destruct (sendByte_pins (fun _ => false) 0 0xAC 0x04 ltac:(lia) ltac:(lia))
    as (_ & _ & _ & H & _).
  exact H.
Defined.

(** X11.  On the pins, [I2C_write] gives nine clock pulses on SCL; during the
    first eight SDA carries the bits of the data byte, most significant
    first, and during the ninth SDA is released for the acknowledge bit.  It
    ends with SCL held low and SDA released, and changes no other bit of
    [DDRA]; [I2C_stop] then leaves both lines released. *)
Theorem I2C_write_pins (data ddra : Z) :
  0 <= data < 256 -> 0 <= ddra < 256 ->
  let r := Pins.I2C_write data ddra in
  List.length (fst r) = 9%nat
  /\ byte_of_levels (map (fun d => Pins.line_high d Pins.I2C_SDA) (firstn 8 (fst r))) = data
  /\ Forall (fun d => Pins.line_high d Pins.I2C_SCL = true) (fst r)
  /\ Pins.line_high (nth 8 (fst r) 0) Pins.I2C_SDA = true
  /\ Pins.line_high (snd r) Pins.I2C_SCL = false
  /\ Pins.line_high (snd r) Pins.I2C_SDA = true
  /\ Pins.beside_I2C (snd r) = Pins.beside_I2C ddra
  /\ Pins.line_high (Pins.I2C_stop (snd r)) Pins.I2C_SCL = true
  /\ Pins.line_high (Pins.I2C_stop (snd r)) Pins.I2C_SDA = true
  /\ Pins.beside_I2C (Pins.I2C_stop (snd r)) = Pins.beside_I2C ddra.
Proof.
  intros Hd Hr.
  pose proof (bytes_all
    (fun data => all_from 256 0
       (fun ddra =>
          let r := Pins.I2C_write data ddra in
          Nat.eqb (List.length (fst r)) 9
          && (byte_of_levels (map (fun d => Pins.line_high d Pins.I2C_SDA) (firstn 8 (fst r)))
              =? data)
          && forallb (fun d => Pins.line_high d Pins.I2C_SCL) (fst r)
          && Pins.line_high (nth 8 (fst r) 0) Pins.I2C_SDA
          && negb (Pins.line_high (snd r) Pins.I2C_SCL)
          && Pins.line_high (snd r) Pins.I2C_SDA
          && (Pins.beside_I2C (snd r) =? Pins.beside_I2C ddra)
          && Pins.line_high (Pins.I2C_stop (snd r)) Pins.I2C_SCL
          && Pins.line_high (Pins.I2C_stop (snd r)) Pins.I2C_SDA
          && (Pins.beside_I2C (Pins.I2C_stop (snd r)) =? Pins.beside_I2C ddra)))
    ltac:(vm_compute; reflexivity) data Hd) as Hall.
  cbv beta in Hall.
  pose proof (bytes_all _ Hall ddra Hr) as Hb. cbv beta zeta in Hb |- *.
  apply andb_true_iff in Hb. destruct Hb as (Hb & H10).
  apply andb_true_iff in Hb. destruct Hb as (Hb & H9).
  apply andb_true_iff in Hb. destruct Hb as (Hb & H8).
  apply andb_true_iff in Hb. destruct Hb as (Hb & H7).
  apply andb_true_iff in Hb. destruct Hb as (Hb & H6).
  apply andb_true_iff in Hb. destruct Hb as (Hb & H5).
  apply andb_true_iff in Hb. destruct Hb as (Hb & H4).
  apply andb_true_iff in Hb. destruct Hb as (Hb & H3).
  apply andb_true_iff in Hb. destruct Hb as (H1 & H2).
  apply Nat.eqb_eq in H1. apply negb_true_iff in H5.
  rewrite forallb_forall in H3.
  repeat split; try assumption; try lia.
  apply Forall_forall. exact H3.
Qed.

Lemma I2C_write_pins_witness :
  byte_of_levels (map (fun d => Pins.line_high d Pins.I2C_SDA)
                      (firstn 8 (fst (Pins.I2C_write 0x78 0xD0)))) = 0x78.
Proof.
  destruct (I2C_write_pins 0x78 0xD0 ltac:(lia) ltac:(lia)) as (_ & H & _).
  exact H.
Defined.

(** ** The display *)

Lemma words_all (P : Z -> bool) :
  all_from (N.to_nat 65536) 0 P = true -> forall v, 0 <= v < 65536 -> P v = true.
Proof. intros H v Hv. apply (all_from_spec P _ 0 H). lia. Qed.

Lemma list_eqb_eq (a b : list Z) : list_eqb a b = true -> a = b.
Proof.
  unfold list_eqb. revert b. induction a as [ | x a IH ]; intros [ | y b ] H;
    try reflexivity; try discriminate H.
  cbn [List.length Nat.eqb combine forallb fst snd] in H.
  apply andb_true_iff in H. destruct H as (Hlen & H).
  apply andb_true_iff in H. destruct H as (Hxy & H).
  f_equal; [ lia | ]. apply IH. rewrite Hlen, H. reflexivity.
Qed.

(** *** More fuel changes nothing *)

Lemma printDec_while_more (fuel : nat) :
  forall value divider digitval leadflag r,
    printDec_while fuel value divider digitval leadflag = Some r ->
    printDec_while (S fuel) value divider digitval leadflag = Some r.
Proof.
  induction fuel as [ | fuel IH ]; intros value divider digitval leadflag r H;
    [ discriminate H | ].
  cbn [printDec_while] in H |- *.
  destruct (value >=? divider); [ | exact H ].
  apply IH in H. exact H.
Qed.

Lemma printDec_for_more (fuel : nat) (dividers : list Z) :
  forall digit value leadflag chars,
    printDec_for fuel dividers digit value leadflag = Some chars ->
    printDec_for (S fuel) dividers digit value leadflag = Some chars.
Proof.
  induction dividers as [ | divider rest IH ]; intros digit value leadflag chars H;
    [ exact H | ].
  cbn [printDec_for] in H |- *.
  destruct (printDec_while fuel value divider 0 leadflag) as [ [ [ v d ] l ] | ] eqn:Hw;
    [ | discriminate H ].
  rewrite (printDec_while_more _ _ _ _ _ _ Hw).
  destruct (printDec_for fuel rest (digit + 1) v l) as [ more | ] eqn:Hf; [ | discriminate H ].
  rewrite (IH _ _ _ _ Hf). exact H.
Qed.

Lemma printDec_for_fuel (fuel fuel' : nat) (value : Z) (chars : list Z) :
  (fuel <= fuel')%nat ->
  printDec_for fuel DIVIDER 0 value 0 = Some chars ->
  printDec_for fuel' DIVIDER 0 value 0 = Some chars.
Proof.
  induction 1 as [ | fuel' _ IH ]; intros H; [ exact H | ].
  apply printDec_for_more, IH, H.
Qed.

Lemma printVCC_while_more (fuel : nat) :
  forall value digitval r,
    printVCC_while fuel value digitval = Some r ->
    printVCC_while (S fuel) value digitval = Some r.
Proof.
  induction fuel as [ | fuel IH ]; intros value digitval r H; [ discriminate H | ].
  cbn [printVCC_while] in H |- *.
  destruct (value >=? 10); [ | exact H ].
  apply IH in H. exact H.
Qed.

Lemma printVCC_while_fuel (fuel fuel' : nat) (value : Z) (r : Z * Z) :
  (fuel <= fuel')%nat ->
  printVCC_while fuel value 0 = Some r -> printVCC_while fuel' value 0 = Some r.
Proof.
  induction 1 as [ | fuel' _ IH ]; intros H; [ exact H | ].
  apply printVCC_while_more, IH, H.
Qed.

Lemma clearScreen_loop_pass (fuel : nat) (i : Z) :
  clearScreen_loop (S fuel) i
  = if u8 (i - 1) =? 0 then Some (I2C_write 0x00 ++ I2C_write 0x00)
    else match clearScreen_loop fuel (u8 (i - 1)) with
         | Some more => Some (I2C_write 0x00 ++ I2C_write 0x00 ++ more)
         | None => None
         end.
Proof. reflexivity. Qed.

Lemma clearScreen_loop_more (fuel : nat) :
  forall i zeros,
    clearScreen_loop fuel i = Some zeros -> clearScreen_loop (S fuel) i = Some zeros.
Proof.
  induction fuel as [ | fuel IH ]; intros i zeros H; [ discriminate H | ].
  rewrite clearScreen_loop_pass in H. rewrite (clearScreen_loop_pass (S fuel)).
  destruct (u8 (i - 1) =? 0); [ exact H | ].
  destruct (clearScreen_loop fuel (u8 (i - 1))) as [ more | ] eqn:Hl; [ | discriminate H ].
  rewrite (IH _ _ Hl). exact H.
Qed.

(** *** Digits *)

Lemma printDec_chars (fuel : nat) (value : Z) :
  (10 <= fuel)%nat -> 0 <= value < 65536 ->
  printDec_for fuel DIVIDER 0 value 0 = Some (decimal_chars value)
  /\ decimal_value (decimal_chars value) = value
  /\ Forall (fun ch => 0 <= ch <= 22) (decimal_chars value).
Proof.
  intros Hfuel Hv.
  pose proof (words_all
    (fun v => match printDec_for 10 DIVIDER 0 v 0 with
              | Some chars => list_eqb chars (decimal_chars v)
              | None => false
              end
              && (decimal_value (decimal_chars v) =? v)
              && forallb (fun ch => (0 <=? ch) && (ch <=? 22)) (decimal_chars v))
    ltac:(vm_compute; reflexivity) value Hv) as Hb.
  cbv beta in Hb.
  apply andb_true_iff in Hb. destruct Hb as (Hb & H3).
  apply andb_true_iff in Hb. destruct Hb as (H1 & H2).
  split.
  - apply (printDec_for_fuel 10 fuel value _ Hfuel).
    destruct (printDec_for 10 DIVIDER 0 value 0) as [ chars | ]; [ | discriminate H1 ].
    apply list_eqb_eq in H1. rewrite H1. reflexivity.
  - split; [ lia | ].
    apply Forall_forall. intros ch Hch. rewrite forallb_forall in H3.
    specialize (H3 ch Hch). lia.
Qed.

(** X12.  [OLED_printDec] shows a 16-bit value in decimal on five places:
    with fuel for ten passes of its inner loop it ends, the five characters
    it plots are the decimal digits of the value with leading zeros replaced
    by blanks and the last digit always shown, and read as a number they give
    the value back. *)
Theorem printDec_decimal (fuel : nat) (OLED_page value : Z) :
  (10 <= fuel)%nat -> 0 <= value < 65536 ->
  OLED_printDec fuel OLED_page value
  = Some (I2C_start OLED_ADDR ++ I2C_write OLED_DAT_MODE
          ++ flat_map (OLED_plotChar OLED_page) (decimal_chars value) ++ I2C_stop)
  /\ List.length (decimal_chars value) = 5%nat
  /\ decimal_value (decimal_chars value) = value.
Proof.
  intros Hfuel Hv.
  destruct (printDec_chars fuel value Hfuel Hv) as (Hrun & Hvalue & _).
  unfold OLED_printDec. rewrite Hrun.
  split; [ reflexivity | ]. split; [ reflexivity | exact Hvalue ].
Qed.

Lemma printDec_decimal_witness :
  OLED_printDec 10 2 8000
  = Some (I2C_start OLED_ADDR ++ I2C_write OLED_DAT_MODE
          ++ flat_map (OLED_plotChar 2) [SPACE; 8; 0; 0; 0] ++ I2C_stop).
Proof.
  destruct (printDec_decimal 10 2 8000 (le_n _) ltac:(lia)) as (H & _).
  exact H.
Defined.

(** *** Glyphs *)

Lemma plot_bytes_table (font : list Z) (wrap : Z -> Z) (n : nat) :
  forall index,
    0 <= index ->
    (Z.to_nat index + n <= List.length font)%nat ->
    (forall j, index < j < index + Z.of_nat n -> wrap j = j) ->
    plot_bytes n font wrap index
    = map BusByte (firstn n (skipn (Z.to_nat index) font)).
Proof.
  induction n as [ | n IH ]; intros index H0 Hlen Hwrap; [ reflexivity | ].
  cbn [plot_bytes I2C_write app].
  rewrite (skipn_nth font (Z.to_nat index)) by lia.
  cbn [firstn map]. unfold pgm_table. f_equal.
  destruct n as [ | n ]; [ reflexivity | ].
  rewrite Hwrap by lia.
  rewrite IH; [ | lia | lia | intros j Hj; apply Hwrap; lia ].
  replace (Z.to_nat (index + 1)) with (S (Z.to_nat index)) by lia. reflexivity.
Qed.

Lemma plotChar_big (OLED_page ch : Z) :
  OLED_page > 1 -> 0 <= ch <= 22 ->
  OLED_plotChar OLED_page ch = map BusByte (0 :: 0 :: big_glyph ch).
Proof.
  intros Hpage Hch. unfold OLED_plotChar.
  destruct (Z.gtb_spec OLED_page 1) as [ _ | Hle ]; [ | lia ].
  rewrite !Z.shiftl_mul_pow2 by lia. change (2 ^ 3) with 8. change (2 ^ 1) with 2.
  rewrite u8_small by lia.
  rewrite plot_bytes_table.
  - unfold big_glyph. replace (ch * 8 + ch * 2) with (10 * ch) by lia. reflexivity.
  - lia.
  - change (List.length OLED_FONT_BIG) with 230%nat. lia.
  - intros j Hj. apply u8_small. lia.
Qed.

Lemma plotChar_small (OLED_page ch : Z) :
  OLED_page <= 1 -> 32 <= ch <= 90 ->
  OLED_plotChar OLED_page ch = map BusByte (0 :: small_glyph ch).
Proof.
  intros Hpage Hch. unfold OLED_plotChar.
  destruct (Z.gtb_spec OLED_page 1) as [ Hgt | _ ]; [ lia | ].
  rewrite (u16_small (ch - 32)) by lia.
  rewrite Z.shiftl_mul_pow2 by lia. change (2 ^ 2) with 4.
  rewrite u16_small by lia.
  rewrite plot_bytes_table.
  - unfold small_glyph. replace (ch - 32 + (ch - 32) * 4) with (5 * (ch - 32)) by lia.
    reflexivity.
  - lia.
  - change (List.length OLED_FONT_SMALL) with 295%nat. lia.
  - intros j Hj. apply u16_small. lia.
Qed.

Lemma glyph_lengths (ch : Z) :
  (0 <= ch <= 22 -> List.length (big_glyph ch) = 10%nat)
  /\ (32 <= ch <= 90 -> List.length (small_glyph ch) = 5%nat).
Proof.
  split; intros Hch.
  - unfold big_glyph. rewrite length_firstn, length_skipn.
    change (List.length OLED_FONT_BIG) with 230%nat. lia.
  - unfold small_glyph. rewrite length_firstn, length_skipn.
    change (List.length OLED_FONT_SMALL) with 295%nat. lia.
Qed.

(** X13.  [OLED_plotChar] sends the glyph of the character and nothing from
    outside the font tables: on a big-font page (page 2 or 3) a code from 0
    to 22 gives two blank columns and the ten bytes of its glyph, on a
    small-font page a code from 32 to 90 (space to Z) gives one blank column
    and the five bytes of its glyph.  No two characters of a font share a
    glyph, so what is shown tells the character. *)
Theorem plotChar_glyph (OLED_page ch : Z) :
  (OLED_page > 1 -> 0 <= ch <= 22 ->
   OLED_plotChar OLED_page ch = map BusByte (0 :: 0 :: big_glyph ch)
   /\ List.length (big_glyph ch) = 10%nat)
  /\ (OLED_page <= 1 -> 32 <= ch <= 90 ->
      OLED_plotChar OLED_page ch = map BusByte (0 :: small_glyph ch)
      /\ List.length (small_glyph ch) = 5%nat)
  /\ NoDup (map big_glyph (map Z.of_nat (seq 0 23)))
  /\ NoDup (map small_glyph (map Z.of_nat (seq 32 59))).
Proof.
  split; [ intros Hp Hc; split; [ apply plotChar_big; assumption | apply glyph_lengths; exact Hc ] | ].
  split; [ intros Hp Hc; split; [ apply plotChar_small; assumption | apply glyph_lengths; exact Hc ] | ].
  split.
  - vm_compute.
    repeat (constructor; [ intros H; repeat (destruct H as [ H | H ]; [ discriminate H | ]); exact H | ]).
    constructor.
  - vm_compute.
    repeat (constructor; [ intros H; repeat (destruct H as [ H | H ]; [ discriminate H | ]); exact H | ]).
    constructor.
Qed.

Lemma plotChar_glyph_witness :
  OLED_plotChar 2 8 = map BusByte (0 :: 0 :: big_glyph 8)
  /\ OLED_plotChar 0 65 = map BusByte (0 :: small_glyph 65).
Proof.
  destruct (plotChar_glyph 2 8) as (Hbig & _).
  destruct (plotChar_glyph 0 65) as (_ & Hsmall & _).
  split; [ apply Hbig; lia | apply Hsmall; lia ].
Defined.

(** *** The result line *)

Lemma big_row (OLED_page : Z) (chars : list Z) :
  OLED_page > 1 -> Forall (fun ch => 0 <= ch <= 22) chars ->
  I2C_start OLED_ADDR ++ I2C_write OLED_DAT_MODE
  ++ flat_map (OLED_plotChar OLED_page) chars ++ I2C_stop
  = big_text chars.
Proof.
  intros Hpage Hchars. unfold big_text. do 3 f_equal.
  induction Hchars as [ | ch chars Hch _ IH ]; [ reflexivity | ].
  cbn [flat_map]. rewrite IH, (plotChar_big OLED_page ch Hpage Hch). reflexivity.
Qed.

Lemma printVCC_digits (fuel : nat) (value : Z) :
  (10 <= fuel)%nat -> 0 <= value <= 99 ->
  printVCC_while fuel value 0 = Some (value mod 10, value / 10).
Proof.
  intros Hfuel Hv.
  apply (printVCC_while_fuel 10 fuel value _ Hfuel).
  pose proof (all_from_spec
    (fun v => match printVCC_while 10 v 0 with
              | Some (units, tens) => (units =? v mod 10) && (tens =? v / 10)
              | None => false
              end) 100 0 ltac:(vm_compute; reflexivity) value ltac:(lia)) as Hb.
  cbv beta in Hb.
  destruct (printVCC_while 10 value 0) as [ [ units tens ] | ]; [ | discriminate Hb ].
  apply andb_true_iff in Hb. destruct Hb as (H1 & H2).
  do 2 f_equal; lia.
Qed.

(** X14.  The result line of the calibration loop shows what was measured.
    For an ADC result from 113 to 1023 (a supply from 1.1 V to 9.9 V), a
    calibration byte and a 16-bit frequency, the line is the cursor command
    for page 2 followed by six big-font transmissions whose characters are
    the two digits of the supply voltage in tenths of a volt around a decimal
    point, "V" and two blanks, "0x" and the two hex digits of the calibration
    byte, three blanks, the five decimal places of the frequency, and "kHz";
    every character is one the big font has. *)
Theorem print_results_shows (fuel : nat) (adc calib frequency : Z) :
  (10 <= fuel)%nat ->
  113 <= adc <= 1023 -> 0 <= calib < 256 -> 0 <= frequency < 65536 ->
  let vcc := 11253 / adc in
  11 <= vcc <= 99
  /\ print_results fuel adc calib frequency
     = Some (fst (OLED_setCursor 0 2)
             ++ big_text [vcc / 10; DECIMAL; vcc mod 10]
             ++ big_text [17; 22; 22]
             ++ big_text [0; 19; calib / 16; calib mod 16]
             ++ big_text [22; 22; 22]
             ++ big_text (decimal_chars frequency)
             ++ big_text [18; 16; 20])
  /\ Forall (fun ch => 0 <= ch <= 22) (result_chars vcc calib frequency)
  /\ 10 * (vcc / 10) + vcc mod 10 = vcc
  /\ 16 * (calib / 16) + calib mod 16 = calib
  /\ decimal_value (decimal_chars frequency) = frequency.
Proof.
  intros Hfuel Hadc Hcalib Hfreq vcc.
  assert (Hvcc : 11 <= vcc <= 99) by (subst vcc; Z.div_mod_to_equations; nia).
  destruct (printDec_chars fuel frequency Hfuel Hfreq) as (Hdec & Hvalue & Hdigits).
  assert (Hv10 : 0 <= vcc / 10 <= 22 /\ 0 <= vcc mod 10 <= 22)
    by (Z.div_mod_to_equations; lia).
  assert (Hc16 : 0 <= calib / 16 <= 22 /\ 0 <= calib mod 16 <= 22)
    by (Z.div_mod_to_equations; lia).
  split; [ exact Hvcc | ].
  split.
  { unfold print_results.
    change (OLED_setCursor 0 2) with (fst (OLED_setCursor 0 2), 2). cbv beta iota.
    generalize (fst (OLED_setCursor 0 2)). intros cursor.
    unfold ADC_readVCC. destruct (Z.eqb_spec adc 0) as [ H0 | _ ]; [ lia | ].
    rewrite (u16_small (11253 / adc)) by (fold vcc; lia).
    rewrite u8_small by (fold vcc; lia). fold vcc.
    unfold OLED_printVCC. rewrite (printVCC_digits fuel vcc Hfuel) by lia.
    unfold OLED_printDec. rewrite Hdec.
    unfold OLED_printHex, OLED_printPrg.
    rewrite Z.shiftr_div_pow2 by lia. change (2 ^ 4) with 16.
    change 15 with (Z.ones 4). rewrite Z.land_ones by lia. change (2 ^ 4) with 16.
    change (plot_string 2 SEP1) with (flat_map (OLED_plotChar 2) [17; 22; 22]).
    change (plot_string 2 SEP2) with (flat_map (OLED_plotChar 2) [22; 22; 22]).
    change (plot_string 2 SEP3) with (flat_map (OLED_plotChar 2) [18; 16; 20]).
    change (OLED_plotChar 2 (vcc / 10) ++ OLED_plotChar 2 DECIMAL
            ++ OLED_plotChar 2 (vcc mod 10) ++ I2C_stop)
      with (flat_map (OLED_plotChar 2) [vcc / 10; DECIMAL; vcc mod 10] ++ I2C_stop).
    change (OLED_plotChar 2 0 ++ OLED_plotChar 2 19 ++ OLED_plotChar 2 (calib / 16)
            ++ OLED_plotChar 2 (calib mod 16) ++ I2C_stop)
      with (flat_map (OLED_plotChar 2) [0; 19; calib / 16; calib mod 16] ++ I2C_stop).
    rewrite !big_row;
      first [ reflexivity | lia | exact Hdigits
            | repeat (constructor; try (unfold DECIMAL; lia)) ]. }
  split.
  { unfold result_chars. apply Forall_app. split; [ | apply Forall_app; split ].
    - repeat (constructor; try (unfold DECIMAL; lia)).
    - exact Hdigits.
    - repeat (constructor; try lia). }
  split; [ Z.div_mod_to_equations; lia | ].
  split; [ Z.div_mod_to_equations; lia | exact Hvalue ].
Qed.

Lemma print_results_shows_witness :
  print_results 10 225 0x7A 8000
  = Some (fst (OLED_setCursor 0 2)
          ++ big_text [5; DECIMAL; 0]
          ++ big_text [17; 22; 22]
          ++ big_text [0; 19; 7; 10]
          ++ big_text [22; 22; 22]
          ++ big_text [SPACE; 8; 0; 0; 0]
          ++ big_text [18; 16; 20]).
Proof.
  destruct (print_results_shows 10 225 0x7A 8000 (le_n _)
              ltac:(lia) ltac:(lia) ltac:(lia)) as (_ & H & _).
  exact H.
Defined.

(** *** Clearing the screen *)

Lemma clearScreen_fuel (fuel fuel' : nat) (zeros : list bus) :
  (fuel <= fuel')%nat ->
  clearScreen_loop fuel 0 = Some zeros -> clearScreen_loop fuel' 0 = Some zeros.
Proof.
  induction 1 as [ | fuel' _ IH ]; intros H; [ exact H | ].
  apply clearScreen_loop_more, IH, H.
Qed.

(** X15.  [OLED_clearScreen] counts its loop on a [uint8_t] that starts at 0,
    so the body runs 256 times, not once: with fuel for 256 passes it ends,
    having set the window to all four pages and sent 512 zero bytes, one for
    each byte of the 128 x 32 display; fuel for 255 passes is not enough. *)
Theorem clearScreen_zeros (fuel : nat) :
  (256 <= fuel)%nat ->
  OLED_clearScreen fuel
  = Some ([BusStart; BusByte OLED_ADDR; BusByte OLED_CMD_MODE;
           BusByte 0x22; BusByte 0x00; BusByte 0x03;
           BusByte 0x0F; BusByte 0x10; BusByte 0xB0; BusStop]
          ++ [BusStart; BusByte OLED_ADDR; BusByte OLED_DAT_MODE]
          ++ repeat (BusByte 0x00) 512 ++ [BusStop])
  /\ OLED_clearScreen 255 = None.
Proof.
  intros Hfuel. split; [ | vm_compute; reflexivity ].
  unfold OLED_clearScreen.
  rewrite (clearScreen_fuel 256 fuel (repeat (BusByte 0) 512) Hfuel);
    [ reflexivity | vm_compute; reflexivity ].
Qed.

Lemma clearScreen_zeros_witness :
  option_map (@List.length bus) (OLED_clearScreen 256) = Some 526%nat.
Proof.
  destruct (clearScreen_zeros 256 (le_n _)) as (H & _).
  rewrite H. reflexivity.
Defined.
